(** * bb-app: the time-series engine of [visualisation/plotly_chroniques.py]

    A shallow embedding of [TimeSeriesPlot_Plotly.__init__] and
    [TimeSeriesPlot_Plotly.add_series], and the properties the specification
    states about them.

    Conventions of the embedding.
    - A pandas timestamp is a calendar date (the engine is daily; the
      time-of-day part plays no role in [add_series]).
    - A float64 value is an exact rational; NaN / a missing cell is [None].
      Rounding is therefore not modelled: what is proved about means,
      interpolation and quantiles is proved of exact arithmetic.
    - A DataFrame is the list of its rows, in row order, projected on the time
      column and the selected variable column, together with the columns
      [add_series] derives ([year], [doy], [week_num], [month_num],
      [month_real]).  A derived column that has not been assigned yet holds 0
      and is never read before it is assigned.
    - DataFrame objects live in a heap; Python variables hold locations. *)

From Stdlib Require Import ZArith List Bool Lia QArith Qround String Ascii.
From Stdlib Require Import DecimalString Lqa.
Import ListNotations.
Local Open Scope Z_scope.

(* ------------------------------------------------------------------ *)
(** * Calendar *)

Module Calendar.

Record Timestamp := mkTs { ts_year : Z; ts_month : Z; ts_day : Z }.

(** [Timestamp.is_leap_year] *)
Definition is_leap_year (y : Z) : bool :=
  (y mod 4 =? 0) && (negb (y mod 100 =? 0) || (y mod 400 =? 0)).

Definition days_in_month (leap : bool) (m : Z) : Z :=
  match m with
  | 1 => 31 | 2 => if leap then 29 else 28 | 3 => 31 | 4 => 30
  | 5 => 31 | 6 => 30 | 7 => 31 | 8 => 31
  | 9 => 30 | 10 => 31 | 11 => 30 | 12 => 31
  | _ => 0
  end.

Definition days_before_month (leap : bool) (m : Z) : Z :=
  let f := if leap then 1 else 0 in
  match m with
  | 1 => 0 | 2 => 31 | 3 => 59 + f | 4 => 90 + f
  | 5 => 120 + f | 6 => 151 + f | 7 => 181 + f | 8 => 212 + f
  | 9 => 243 + f | 10 => 273 + f | 11 => 304 + f | 12 => 334 + f
  | _ => 0
  end.

(** [Timestamp.dayofyear] *)
Definition dayofyear (t : Timestamp) : Z :=
  days_before_month (is_leap_year (ts_year t)) (ts_month t) + ts_day t.

(** A date the Gregorian calendar has. *)
Definition valid_date (t : Timestamp) : bool :=
  (1 <=? ts_month t) && (ts_month t <=? 12) && (1 <=? ts_day t)
  && (ts_day t <=? days_in_month (is_leap_year (ts_year t)) (ts_month t)).

(** [pd.Timestamp(year=, month=, day=)]: raises on a date that does not exist. *)
Definition mk_timestamp (y m d : Z) : option Timestamp :=
  let t := mkTs y m d in if valid_date t then Some t else None.

Definition ts_eqb (a b : Timestamp) : bool :=
  (ts_year a =? ts_year b) && (ts_month a =? ts_month b) && (ts_day a =? ts_day b).

(** Chronological order. *)
Definition ts_leb (a b : Timestamp) : bool :=
  (ts_year a <? ts_year b)
  || ((ts_year a =? ts_year b)
      && ((ts_month a <? ts_month b)
          || ((ts_month a =? ts_month b) && (ts_day a <=? ts_day b)))).

Definition zrange (lo n : Z) : list Z :=
  map (fun i => lo + Z.of_nat i) (seq 0 (Z.to_nat n)).

Definition month_days (y m : Z) : list Timestamp :=
  map (fun d => mkTs y m d) (zrange 1 (days_in_month (is_leap_year y) m)).

Definition year_days (y : Z) : list Timestamp :=
  flat_map (month_days y) (zrange 1 12).

(** [pd.date_range(start=f"{y0}-01-01", end=f"{y1}-12-31", freq='D')] *)
Definition date_range (y0 y1 : Z) : list Timestamp :=
  flat_map year_days (zrange y0 (y1 - y0 + 1)).

Definition is_feb29 (t : Timestamp) : bool :=
  (ts_month t =? 2) && (ts_day t =? 29).

End Calendar.
Export Calendar.

(* ------------------------------------------------------------------ *)
(** * The pandas operations [add_series] uses, on lists of rows *)

Module Pandas.

Section Lists.
Context {A : Type}.
Variable eqb : A -> A -> bool.
Variable leb : A -> A -> bool.

(** [Series.unique()]: the distinct values in order of first appearance. *)
Fixpoint unique (l : list A) : list A :=
  match l with
  | [] => []
  | x :: t => x :: filter (fun y => negb (eqb x y)) (unique t)
  end.

Fixpoint insert_sorted (x : A) (l : list A) : list A :=
  match l with
  | [] => [x]
  | y :: t => if leb x y then x :: l else y :: insert_sorted x t
  end.

(** A stable sort: elements the order does not separate keep their order. *)
Definition sort (l : list A) : list A := fold_right insert_sorted [] l.

End Lists.

(** [sort_values(by=key)] *)
Definition sort_values {A K} (leb : K -> K -> bool) (key : A -> K) (l : list A) : list A :=
  sort (fun x y => leb (key x) (key y)) l.

(** The keys of [groupby(key)]: distinct and ascending. *)
Definition group_keys {A K} (eqb leb : K -> K -> bool) (key : A -> K) (l : list A) : list K :=
  sort leb (unique eqb (map key l)).

(** [groupby(key)]: the groups by ascending key, each with its rows in row order. *)
Definition groupby {A K} (eqb leb : K -> K -> bool) (key : A -> K) (l : list A)
  : list (K * list A) :=
  map (fun k => (k, filter (fun r => eqb k (key r)) l)) (group_keys eqb leb key l).

(** Keys made of two integer columns, compared column by column. *)
Definition key2_eqb (a b : Z * Z) : bool := (fst a =? fst b) && (snd a =? snd b).
Definition key2_leb (a b : Z * Z) : bool :=
  (fst a <? fst b) || ((fst a =? fst b) && (snd a <=? snd b)).

(** Sum and mean of a float column; NaN cells are skipped, and the mean of no
    value at all is NaN. *)
Definition non_null (l : list (option Q)) : list Q :=
  flat_map (fun o => match o with Some v => [v] | None => [] end) l.

Definition qsum (l : list Q) : Q := fold_right Qplus 0%Q l.

Definition mean (l : list (option Q)) : option Q :=
  match non_null l with
  | [] => None
  | v :: vs => Some (Qred (qsum (v :: vs) / inject_Z (Z.of_nat (List.length (v :: vs)))))
  end.

(** [cumsum()]: running sum; a NaN cell stays NaN and is skipped by the sum. *)
Fixpoint cumsum_from (acc : Q) (l : list (option Q)) : list (option Q) :=
  match l with
  | [] => []
  | None :: t => None :: cumsum_from acc t
  | Some v :: t => Some (Qred (acc + v)) :: cumsum_from (Qred (acc + v)) t
  end.

Definition cumsum (l : list (option Q)) : list (option Q) := cumsum_from 0 l.

(** Distance to the next non-null cell, and its value. *)
Fixpoint next_valid (l : list (option Q)) : option (nat * Q) :=
  match l with
  | [] => None
  | Some v :: _ => Some (1%nat, v)
  | None :: t =>
      match next_valid t with
      | Some (k, v) => Some (S k, v)
      | None => None
      end
  end.

(** [interpolate(method='linear')] on one column, cells taken as equally
    spaced: [prev] is the distance back to the last non-null cell and its value.
    A NaN before the first value stays; a NaN after the last value takes the
    last value (pandas fills forward past the end). *)
Fixpoint interpolate_from (prev : option (nat * Q)) (l : list (option Q))
  : list (option Q) :=
  match l with
  | [] => []
  | Some v :: t => Some v :: interpolate_from (Some (1%nat, v)) t
  | None :: t =>
      match prev with
      | None => None :: interpolate_from None t
      | Some (i, a) =>
          match next_valid t with
          | Some (j, b) =>
              Some (Qred (a + (b - a) * (inject_Z (Z.of_nat i) / inject_Z (Z.of_nat (i + j)))))
          | None => Some a
          end :: interpolate_from (Some (S i, a)) t
      end
  end.

Definition interpolate (l : list (option Q)) : list (option Q) :=
  interpolate_from None l.

(** Python list indexing, negative indices counting from the end. *)
Definition py_index {A} (l : list A) (i : Z) : option A :=
  let n := Z.of_nat (List.length l) in
  if (0 <=? i) && (i <? n) then nth_error l (Z.to_nat i)
  else if (i <? 0) && (- n <=? i) then nth_error l (Z.to_nat (n + i))
  else None.

End Pandas.
Export Pandas.

(* ------------------------------------------------------------------ *)
(** * Frames: the tables [add_series] builds *)

Module Frame.

(** A cell of the caller's time column: a date still written as text
    (year, month, day as read), or a timestamp already. *)
Inductive TimeCell :=
| DateText (y m d : Z)
| Stamp (t : Timestamp).

Record RawRow := mkRaw { raw_time : TimeCell; raw_value : option Q }.

Record Row := mkRow {
  time : Timestamp;
  value : option Q;
  year : Z;
  doy : Z;
  week_num : Z;
  month_num : Z;
  month_real : Z
}.

Definition set_value (r : Row) (v : option Q) : Row :=
  mkRow (time r) v (year r) (doy r) (week_num r) (month_num r) (month_real r).
Definition set_year (r : Row) (y : Z) : Row :=
  mkRow (time r) (value r) y (doy r) (week_num r) (month_num r) (month_real r).
Definition set_doy (r : Row) (d : Z) : Row :=
  mkRow (time r) (value r) (year r) d (week_num r) (month_num r) (month_real r).
Definition set_week_num (r : Row) (w : Z) : Row :=
  mkRow (time r) (value r) (year r) (doy r) w (month_num r) (month_real r).
Definition set_month_num (r : Row) (m : Z) : Row :=
  mkRow (time r) (value r) (year r) (doy r) (week_num r) m (month_real r).
Definition set_month_real (r : Row) (m : Z) : Row :=
  mkRow (time r) (value r) (year r) (doy r) (week_num r) (month_num r) m.

(** A row that has only its time and value columns. *)
Definition plain_row (t : Timestamp) (v : option Q) : Row := mkRow t v 0 0 0 0 0.

Definition Frame := list Row.

(** [pd.to_datetime] on one cell; a text that is no date is refused. *)
Definition to_datetime_cell (c : TimeCell) : option Timestamp :=
  match c with
  | DateText y m d => mk_timestamp y m d
  | Stamp t => Some t
  end.

Fixpoint to_datetime (l : list RawRow) : option Frame :=
  match l with
  | [] => Some []
  | r :: t =>
      match to_datetime_cell (raw_time r), to_datetime t with
      | Some ts, Some rest => Some (plain_row ts (raw_value r) :: rest)
      | _, _ => None
      end
  end.

(** ** Year filter (lines 210-213) *)

Definition filter_year_min (year_min : option Z) (df : Frame) : Frame :=
  match year_min with
  | Some y => filter (fun r => y <=? ts_year (time r)) df
  | None => df
  end.

Definition filter_year_max (year_max : option Z) (df : Frame) : Frame :=
  match year_max with
  | Some y => filter (fun r => ts_year (time r) <=? y) df
  | None => df
  end.

(** ** Complete years and gap filling (lines 220-246) *)

Definition ts_min (l : list Timestamp) (t0 : Timestamp) : Timestamp :=
  fold_left (fun a b => if ts_leb a b then a else b) l t0.
Definition ts_max (l : list Timestamp) (t0 : Timestamp) : Timestamp :=
  fold_left (fun a b => if ts_leb a b then b else a) l t0.

(** A calendar year whose first observed date is January 1 and whose last
    observed date is December 31. *)
Definition is_complete (g : list Row) : bool :=
  match map time g with
  | [] => false
  | t :: ts =>
      let s := ts_min ts t in
      let e := ts_max ts t in
      (ts_month s =? 1) && (ts_day s =? 1) && (ts_month e =? 12) && (ts_day e =? 31)
  end.

Definition complete_years (df : Frame) : list Z :=
  map fst (filter (fun g => is_complete (snd g))
                  (groupby Z.eqb Z.leb (fun r => ts_year (time r)) df)).

Definition zmin (y : Z) (l : list Z) : Z := fold_left Z.min l y.
Definition zmax (y : Z) (l : list Z) : Z := fold_left Z.max l y.

(** [df_complete.join(df)]: a left join on the daily index; a date with no
    observation gets a row of NaN, a date observed several times keeps all its
    rows, an observation outside the index is dropped. *)
Definition join_on (dates : list Timestamp) (df : Frame) : Frame :=
  flat_map (fun d =>
              match filter (fun r => ts_eqb d (time r)) df with
              | [] => [plain_row d None]
              | ms => ms
              end) dates.

Definition set_values (df : Frame) (vs : list (option Q)) : Frame :=
  map (fun p => set_value (fst p) (snd p)) (combine df vs).

Definition interpolate_frame (df : Frame) : Frame :=
  set_values df (interpolate (map value df)).

Definition gap_fill (df : Frame) : Frame :=
  match complete_years df with
  | [] => df
  | y :: ys =>
      interpolate_frame (join_on (date_range (zmin y ys) (zmax y ys)) df)
  end.

(** ** Calendar columns (lines 248-261) *)

Definition set_year_doy (r : Row) : Row :=
  set_doy (set_year r (ts_year (time r))) (dayofyear (time r)).

Definition leap_adjust (r : Row) : Row :=
  if is_leap_year (ts_year (time r)) && (59 <? dayofyear (time r))
  then set_doy r (doy r - 1) else r.

Definition drop_feb29 (df : Frame) : Frame :=
  filter (fun r => negb (is_feb29 (time r))) df.

Definition assign_week (r : Row) : Row := set_week_num r ((doy r - 1) / 7 + 1).

Definition clamp_week (r : Row) : Row :=
  if 52 <? week_num r then set_week_num r 52 else r.

Definition assign_month (r : Row) : Row := set_month_num r (ts_month (time r)).

(** [df['month_real'] = df[time_col].dt.month] (line 323) *)
Definition assign_month_real (r : Row) : Row := set_month_real r (ts_month (time r)).

(** Lines 250-261 as one function of the copied frame. *)
Definition calendar_columns (df : Frame) : Frame :=
  map assign_month
    (map clamp_week
       (map assign_week
          (drop_feb29 (map leap_adjust (map set_year_doy df))))).

End Frame.
Export Frame.

(* ------------------------------------------------------------------ *)
(** * The stages of [add_series] after the calendar columns *)

Module Stages.

(** The exceptions [add_series] can end with.  [InvalidReference] stands for
    the use of a location that holds no object, and [AttributeError] for the
    [.dt] accessor on a column that holds no timestamps; neither arises when
    the caller passes a DataFrame. *)
Inductive exn :=
| ParserError | TypeError | ValueError | KeyError | IndexError
| UnboundLocalError | AttributeError | InvalidReference.

Definition result (A : Type) : Type := (exn + A)%type.

(** ** Custom start month (lines 264-295) *)

Definition days_per_month (m : Z) : option Z :=
  match m with
  | 1 => Some 31 | 2 => Some 28 | 3 => Some 31 | 4 => Some 30
  | 5 => Some 31 | 6 => Some 30 | 7 => Some 31 | 8 => Some 31
  | 9 => Some 30 | 10 => Some 31 | 11 => Some 30 | 12 => Some 31
  | _ => None
  end.

(** [df[time_col].dt.year.min()] and [.max()]: NaN on an empty frame. *)
Definition time_year_min (df : Frame) : option Z :=
  match map (fun r => ts_year (time r)) df with
  | [] => None
  | y :: ys => Some (zmin y ys)
  end.
Definition time_year_max (df : Frame) : option Z :=
  match map (fun r => ts_year (time r)) df with
  | [] => None
  | y :: ys => Some (zmax y ys)
  end.

(** The two [pd.Timestamp(...)] of lines 271-277, in evaluation order. *)
Definition fiscal_window (sm : Z) (df : Frame) : result (Timestamp * Timestamp) :=
  match time_year_min df with
  | None => inl TypeError
  | Some y0 =>
      match mk_timestamp y0 sm 1 with
      | None => inl ValueError
      | Some start =>
          match days_per_month (sm - 1) with
          | None => inl KeyError
          | Some d =>
              match time_year_max df with
              | None => inl TypeError
              | Some y1 =>
                  match mk_timestamp y1 (sm - 1) d with
                  | None => inl ValueError
                  | Some stop => inr (start, stop)
                  end
              end
          end
      end
  end.

Definition restrict_window (start stop : Timestamp) (df : Frame) : Frame :=
  filter (fun r => ts_leb start (time r) && ts_leb (time r) stop) df.

Definition rotate_month (sm : Z) (r : Row) : Row :=
  set_month_num r (((ts_month (time r) - sm) mod 12) + 1).

Definition shift_year (sm : Z) (r : Row) : Row :=
  if sm <=? 6
  then (if ts_month (time r) <? sm then set_year r (year r - 1) else r)
  else (if sm <=? ts_month (time r) then set_year r (year r + 1) else r).

(** [groupby('year').cumcount() + 1] *)
Fixpoint renumber_doy (seen : list Z) (df : Frame) : Frame :=
  match df with
  | [] => []
  | r :: t =>
      set_doy r (Z.of_nat (List.length (filter (Z.eqb (year r)) seen)) + 1)
      :: renumber_doy (year r :: seen) t
  end.

Definition fiscal_columns (sm : Z) (w : Timestamp * Timestamp) (df : Frame) : Frame :=
  let df := restrict_window (fst w) (snd w) df in
  let df := map (shift_year sm) (map (rotate_month sm) df) in
  let df := sort_values key2_leb (fun r => (month_num r, doy r)) df in
  let df := map clamp_week (map assign_week (renumber_doy [] df)) in
  sort_values key2_leb (fun r => (year r, doy r)) df.

(** ** Resampling (lines 297-320) *)

Definition freq_is (freq : option string) (s : string) : bool :=
  match freq with
  | Some f => String.eqb f s
  | None => false
  end.

Definition resample_weekly (df : Frame) : Frame :=
  flat_map (fun g =>
              match snd g with
              | [] => []
              | r :: _ =>
                  [mkRow (time r) (mean (map value (snd g))) (fst (fst g)) (doy r)
                         (snd (fst g)) (month_num r) 0]
              end)
           (groupby key2_eqb key2_leb (fun r => (year r, week_num r)) df).

Definition resample_monthly (df : Frame) : Frame :=
  flat_map (fun g =>
              match snd g with
              | [] => []
              | r :: _ =>
                  [mkRow (time r) (mean (map value (snd g))) (fst (fst g)) (doy r)
                         (week_num r) (snd (fst g)) 0]
              end)
           (groupby key2_eqb key2_leb (fun r => (year r, month_num r)) df).

(** ** The bucket column *)

Inductive Col := ColDoy | ColWeek | ColMonth.

Definition col_name (c : Col) : string :=
  match c with
  | ColDoy => "doy" | ColWeek => "week_num" | ColMonth => "month_num"
  end.

Definition get_col (c : Col) (r : Row) : Z :=
  match c with
  | ColDoy => doy r | ColWeek => week_num r | ColMonth => month_num r
  end.

Definition set_col (c : Col) (r : Row) (v : Z) : Row :=
  match c with
  | ColDoy => set_doy r v | ColWeek => set_week_num r v | ColMonth => set_month_num r v
  end.

(** [if freq == 'W' ... elif freq == 'ME' ... else 'doy'] *)
Definition x_col_of (freq : option string) : Col :=
  if freq_is freq "W" then ColWeek
  else if freq_is freq "ME" then ColMonth
  else ColDoy.

(** ** Cumulative sum per year (lines 326-337)

    The assignment aligns on the index; index labels are taken to be distinct,
    so that a label is a row position, and the sort of line 337 to keep the
    order of rows of the same bucket. *)
Definition cumulate_year (c : Col) (df : Frame) (y : Z) : Frame :=
  let idx := combine (seq 0 (List.length df)) df in
  let part := sort_values Z.leb (fun p => get_col c (snd p))
                          (filter (fun p => year (snd p) =? y) idx) in
  let cs := combine (map fst part) (cumsum (map (fun p => value (snd p)) part)) in
  map (fun p =>
         match find (fun q => Nat.eqb (fst q) (fst p)) cs with
         | Some q => set_value (snd p) (snd q)
         | None => snd p
         end) idx.

Definition cumulate (c : Col) (df : Frame) : Frame :=
  fold_left (cumulate_year c) (unique Z.eqb (map year df)) df.

(** ** Rolling multi-year average (lines 339-388) *)

(** The branch of lines 352-384 that assigns [result_df]; none for a [freq]
    other than 'D', 'W', 'ME'. *)
Definition rolling_col (freq : option string) : option Col :=
  if freq_is freq "D" then Some ColDoy
  else if freq_is freq "W" then Some ColWeek
  else if freq_is freq "ME" then Some ColMonth
  else None.

Definition in_window (start w : Z) (r : Row) : bool :=
  (start <=? year r) && (year r <? start + w).

(** [result_df] of one window: per bucket, the mean value and the first time. *)
Definition window_frame (c : Col) (start w : Z) (df : Frame) : Frame :=
  flat_map (fun g =>
              match snd g with
              | [] => []
              | r :: _ =>
                  [set_col c (mkRow (time r) (mean (map value (snd g))) start 0 0 0 0)
                           (fst g)]
              end)
           (groupby Z.eqb Z.leb (get_col c) (filter (in_window start w) df)).

(** The loop of lines 345-386; [out] is [output_dfs]. *)
Fixpoint rolling_loop (freq : option string) (w max_start : Z) (df : Frame)
         (years : list Z) (out : list Frame) : result (list Frame) :=
  match years with
  | [] => inr out
  | start :: rest =>
      if max_start <? start then inr out
      else
        match rolling_col freq with
        | None => inl UnboundLocalError
        | Some c => rolling_loop freq w max_start df rest (out ++ [window_frame c start w df])
        end
  end.

Definition unique_years (df : Frame) : list Z :=
  group_keys Z.eqb Z.leb year df.

Definition rolling (freq : option string) (w : Z) (df : Frame) : result Frame :=
  match py_index (unique_years df) (- w) with
  | None => inl IndexError
  | Some max_start =>
      match rolling_loop freq w max_start df (unique_years df) [] with
      | inl e => inl e
      | inr [] => inl ValueError
      | inr out => inr (List.concat out)
      end
  end.

End Stages.
Export Stages.

(* ------------------------------------------------------------------ *)
(** * The three projections (lines 390-498) *)

Module Projection.

(** ** Statistics *)

Definition sorted_values (l : list (option Q)) : list Q :=
  sort Qle_bool (non_null l).

(** The group quantile of pandas, linear interpolation: position
    [q * (n - 1)] in the sorted non-null values. *)
Definition quantile (q : Q) (l : list (option Q)) : option Q :=
  match sorted_values l with
  | [] => None
  | v0 :: vs =>
      let s := v0 :: vs in
      let q_idx := (q * inject_Z (Z.of_nat (List.length s) - 1))%Q in
      let idx := Z.to_nat (Qfloor q_idx) in
      let frac := (q_idx - inject_Z (Qfloor q_idx))%Q in
      let val := nth idx s v0 in
      if Qeq_bool frac 0 then Some val
      else Some (Qred (val + (nth (S idx) s v0 - val) * frac))
  end.

(** The group median of pandas: the middle value, or the mean of the two
    middle values. *)
Definition median (l : list (option Q)) : option Q :=
  match sorted_values l with
  | [] => None
  | v0 :: vs =>
      let s := v0 :: vs in
      let n := List.length s in
      if Nat.odd n then Some (nth (Nat.div2 n) s v0)
      else Some (Qred ((nth (Nat.div2 n - 1) s v0 + nth (Nat.div2 n) s v0) / 2))
  end.

Record StatRow := mkStat {
  x_value : Z;
  st_min : option Q; st_q01 : option Q; st_q05 : option Q; st_q10 : option Q;
  st_q25 : option Q; st_q75 : option Q; st_q90 : option Q; st_q95 : option Q;
  st_q99 : option Q; st_max : option Q;
  st_mean : option Q; st_median : option Q;
  st_time : Timestamp;
  st_focus : option Q
}.

(** [df['year'] != self.focus_year] *)
Definition is_focus (focus_year : option Z) (r : Row) : bool :=
  match focus_year with
  | Some y => year r =? y
  | None => false
  end.

Definition stats_part (focus_year : option Z) (df : Frame) : Frame :=
  filter (fun r => negb (is_focus focus_year r)) df.
Definition focus_part (focus_year : option Z) (df : Frame) : Frame :=
  filter (is_focus focus_year) df.

(** [df_focus_grouped]: per bucket, the mean of the focus year. *)
Definition focus_grouped (c : Col) (fp : Frame) : list (Z * option Q) :=
  map (fun g => (fst g, mean (map value (snd g)))) (groupby Z.eqb Z.leb (get_col c) fp).

(** The left merge on the bucket: NaN where the focus year has no such bucket. *)
Definition lookup_focus (x : Z) (fg : list (Z * option Q)) : option Q :=
  match find (fun p => fst p =? x) fg with
  | Some p => snd p
  | None => None
  end.

Definition stat_row (fg : list (Z * option Q)) (g : Z * list Row) : list StatRow :=
  match snd g with
  | [] => []
  | r :: _ =>
      let vs := map value (snd g) in
      [mkStat (fst g)
              (quantile 0 vs) (quantile (1 # 100) vs) (quantile (5 # 100) vs)
              (quantile (10 # 100) vs) (quantile (25 # 100) vs) (quantile (75 # 100) vs)
              (quantile (90 # 100) vs) (quantile (95 # 100) vs) (quantile (99 # 100) vs)
              (quantile 1 vs)
              (mean vs) (median vs) (time r) (lookup_focus (fst g) fg)]
  end.

(** [final_df] of the statistics mode.  With no row outside the focus year
    the unstacked quantile table has no column and pandas refuses the ten
    column names of line 455. *)
Definition stats_table (c : Col) (focus_year : option Z) (df : Frame)
  : result (list StatRow) :=
  match stats_part focus_year df with
  | [] => inl ValueError
  | sp =>
      inr (flat_map (stat_row (focus_grouped c (focus_part focus_year df)))
                    (groupby Z.eqb Z.leb (get_col c) sp))
  end.

(** ** Annual cycle *)

Record Point := mkPoint { p_year : Z; p_x : Z; p_value : option Q }.

(** [df.groupby(['year', x_col])[y].mean().reset_index()] *)
Definition grouped_means (c : Col) (df : Frame) : list Point :=
  map (fun g => mkPoint (fst (fst g)) (snd (fst g)) (mean (map value (snd g))))
      (groupby key2_eqb key2_leb (fun r => (year r, get_col c r)) df).

Definition str_Z (z : Z) : string := NilZero.string_of_int (Z.to_int z).

(** Lines 419-422 *)
Definition legend_text (rolling_window : option Z) (y : Z) : string :=
  match rolling_window with
  | Some w => (str_Z y ++ "-" ++ str_Z (y + w - 1))%string
  | None => ("Year " ++ str_Z y)%string
  end.

(** ** The entries of [series_list] *)

Inductive Table :=
| TRows (f : Frame)
| TPoints (l : list Point)
| TStats (l : list StatRow).

Record Series := mkSeries {
  s_df : Table;
  s_time_col : string;
  s_var_col : string;
  s_legend_name : string;
  s_freq : option string;
  s_rolling_window : option Z;
  s_is_annual_cycle : bool;
  s_is_statistics : bool
}.

(** [legend_name or str(var_col)] *)
Definition legend_or (legend_name : option string) (var_col : string) : string :=
  match legend_name with
  | Some EmptyString | None => var_col
  | Some s => s
  end.

Definition annual_series (c : Col) (var_col : string) (freq : option string)
           (rolling_window : option Z) (df : Frame) : list Series :=
  let grouped := grouped_means c df in
  map (fun y =>
         mkSeries (TPoints (filter (fun p => p_year p =? y) grouped))
                  (col_name c) var_col (legend_text rolling_window y)
                  freq rolling_window true false)
      (unique Z.eqb (map p_year grouped)).

End Projection.
Export Projection.

(* ------------------------------------------------------------------ *)
(** * The engine object and the heap of frames *)

Module Engine.

(** The attributes of a [TimeSeriesPlot_Plotly] that [__init__] and
    [add_series] read or write ([line_list] and [rectangle_list] are only
    created empty and are left out).  [e_freq], [e_legend_name] and
    [e_rolling_window] are the attributes [add_series] sets at each call. *)
Record Engine := mkEngine {
  title : option string;
  x_axis_title : string;
  y_axis_title : string;
  x_range : option (Z * Z);
  log_x : bool;
  log_y : bool;
  mode : string;
  focus_year : option Z;
  start_month : option Z;
  cumul : bool;
  series_list : list Series;
  e_freq : option string;
  e_legend_name : option string;
  e_rolling_window : option Z
}.

Definition set_title (e : Engine) (t : option string) : Engine :=
  mkEngine t (x_axis_title e) (y_axis_title e) (x_range e) (log_x e) (log_y e)
           (mode e) (focus_year e) (start_month e) (cumul e) (series_list e)
           (e_freq e) (e_legend_name e) (e_rolling_window e).
Definition set_mode (e : Engine) (m : string) : Engine :=
  mkEngine (title e) (x_axis_title e) (y_axis_title e) (x_range e) (log_x e) (log_y e)
           m (focus_year e) (start_month e) (cumul e) (series_list e)
           (e_freq e) (e_legend_name e) (e_rolling_window e).
Definition set_cumul (e : Engine) (c : bool) : Engine :=
  mkEngine (title e) (x_axis_title e) (y_axis_title e) (x_range e) (log_x e) (log_y e)
           (mode e) (focus_year e) (start_month e) c (series_list e)
           (e_freq e) (e_legend_name e) (e_rolling_window e).
Definition set_series_list (e : Engine) (l : list Series) : Engine :=
  mkEngine (title e) (x_axis_title e) (y_axis_title e) (x_range e) (log_x e) (log_y e)
           (mode e) (focus_year e) (start_month e) (cumul e) l
           (e_freq e) (e_legend_name e) (e_rolling_window e).
Definition set_call_attrs (e : Engine) (freq legend_name : option string)
           (rolling_window : option Z) : Engine :=
  mkEngine (title e) (x_axis_title e) (y_axis_title e) (x_range e) (log_x e) (log_y e)
           (mode e) (focus_year e) (start_month e) (cumul e) (series_list e)
           freq legend_name rolling_window.
Definition set_rolling_window (e : Engine) (w : option Z) : Engine :=
  set_call_attrs e (e_freq e) (e_legend_name e) w.

Definition warn_cumul : string :=
  "Cumulative option is not applicable in 'historical' mode. It will be ignored.".
Definition warn_statistics : string :=
  "The 'statistics' mode requires a reference year (focus_year). The 'historical' mode will be used instead.".
Definition warn_rolling : string :=
  "The 'statistics' mode cannot be used with a rolling_window. The rolling_window will be ignored.".

(** [TimeSeriesPlot_Plotly.__init__]: the new object and the warnings it logs,
    in order. *)
Definition init (title : option string) (x_axis_title y_axis_title : string)
           (x_range : option (Z * Z)) (log_x log_y : bool) (mode : string)
           (focus_year start_month : option Z) (cumul : bool)
  : Engine * list string :=
  let sm := match start_month with
            | Some m => if 1 <? m then Some m else None
            | None => None
            end in
  let e := mkEngine title x_axis_title y_axis_title x_range log_x log_y mode
                    focus_year sm cumul [] None None None in
  let '(e, w1) :=
    if cumul && String.eqb mode "historical"
    then (set_cumul e false, [warn_cumul]) else (e, []) in
  let '(e, w2) :=
    if String.eqb (Engine.mode e) "statistics"
       && match Engine.focus_year e with None => true | Some _ => false end
    then (set_mode e "historical", [warn_statistics]) else (e, []) in
  (e, w1 ++ w2).

(** ** [_generate_auto_title] *)

Definition upper_ascii (c : ascii) : ascii :=
  let n := nat_of_ascii c in
  if (Nat.leb 97 n && Nat.leb n 122)%bool then ascii_of_nat (n - 32) else c.
Definition lower_ascii (c : ascii) : ascii :=
  let n := nat_of_ascii c in
  if (Nat.leb 65 n && Nat.leb n 90)%bool then ascii_of_nat (n + 32) else c.

Fixpoint lower_string (s : string) : string :=
  match s with
  | EmptyString => EmptyString
  | String c t => String (lower_ascii c) (lower_string t)
  end.

(** [str.capitalize()], on ASCII text. *)
Definition capitalize (s : string) : string :=
  match s with
  | EmptyString => EmptyString
  | String c t => String (upper_ascii c) (lower_string t)
  end.

Definition mode_name (m : string) : string :=
  if String.eqb m "historical" then "Time Series"
  else if String.eqb m "annual_cycle" then "Annual Cycle"
  else if String.eqb m "statistics" then "Statistical Analysis"
  else capitalize m.

Definition generate_auto_title (e : Engine) : string :=
  let components :=
    [mode_name (mode e)]
    ++ match e_legend_name e with
       | Some EmptyString | None => []
       | Some s => [("of " ++ s)%string]
       end
    ++ match x_range e with
       | Some (a, b) => [("(" ++ str_Z a ++ "-" ++ str_Z b ++ ")")%string]
       | None => []
       end
    ++ match focus_year e with
       | Some y => [("- Reference Year: " ++ str_Z y)%string]
       | None => []
       end
    ++ (if cumul e then ["(Cumulative)"%string] else [])
    ++ match e_rolling_window e with
       | Some w => [("- " ++ str_Z w ++ "-year Rolling Average")%string]
       | None => []
       end in
  String.concat " " components.

End Engine.
Export Engine.

(* ------------------------------------------------------------------ *)
(** * The heap, and [add_series] as a program on it *)

Module Program.

Inductive Obj :=
| ObjRaw (rows : list RawRow)
| ObjFrame (df : Frame).

Definition loc := nat.

(** The objects, the engine ([self]) and the warnings logged so far. *)
Record State := mkState {
  heap : list Obj;
  self : Engine;
  log : list string
}.

Definition M (A : Type) : Type := State -> State * result A.

Definition ret {A} (a : A) : M A := fun s => (s, inr a).
Definition raise {A} (e : exn) : M A := fun s => (s, inl e).
Definition bind {A B} (m : M A) (k : A -> M B) : M B :=
  fun s =>
    match m s with
    | (s', inr a) => k a s'
    | (s', inl e) => (s', inl e)
    end.

Notation "x <- m ;; k" := (bind m (fun x => k))
  (at level 61, m at next level, right associativity).
Notation "m ;;; k" := (bind m (fun _ => k))
  (at level 61, right associativity).

Definition get_self : M Engine := fun s => (s, inr (self s)).
Definition modify_self (f : Engine -> Engine) : M unit :=
  fun s => (mkState (heap s) (f (self s)) (log s), inr tt).
Definition warning (msg : string) : M unit :=
  fun s => (mkState (heap s) (self s) (log s ++ [msg]), inr tt).

(** A new object, at a location no object had. *)
Definition alloc (o : Obj) : M loc :=
  fun s => (mkState (heap s ++ [o]) (self s) (log s), inr (List.length (heap s))).

Definition read (l : loc) : M Obj :=
  fun s =>
    match nth_error (heap s) l with
    | Some o => (s, inr o)
    | None => (s, inl InvalidReference)
    end.

Fixpoint update {A} (h : list A) (l : nat) (o : A) : list A :=
  match h, l with
  | [], _ => []
  | _ :: t, O => o :: t
  | x :: t, S l' => x :: update t l' o
  end.

(** The object at [l] changed in place. *)
Definition write (l : loc) (o : Obj) : M unit :=
  fun s => (mkState (update (heap s) l o) (self s) (log s), inr tt).

(** [df.copy()] *)
Definition copy (l : loc) : M loc := o <- read l ;; alloc o.

(** A frame whose time column holds timestamps. *)
Definition read_frame (l : loc) : M Frame :=
  o <- read l ;;
  match o with
  | ObjFrame df => ret df
  | ObjRaw _ => raise AttributeError
  end.

(** [df[time_col] = pd.to_datetime(df[time_col])]: the column of the object
    at [l] is replaced. *)
Definition to_datetime_inplace (l : loc) : M unit :=
  o <- read l ;;
  match o with
  | ObjFrame _ => ret tt
  | ObjRaw rows =>
      match to_datetime rows with
      | Some df => write l (ObjFrame df)
      | None => raise ParserError
      end
  end.

(** [v = f(v)] where [f] builds a new DataFrame. *)
Definition derive (l : loc) (f : Frame -> Frame) : M loc :=
  df <- read_frame l ;; alloc (ObjFrame (f df)).

(** An assignment into the columns of the object at [l]. *)
Definition update_frame (l : loc) (f : Frame -> Frame) : M unit :=
  df <- read_frame l ;; write l (ObjFrame (f df)).

Definition lift {A} (r : result A) : M A :=
  match r with
  | inl e => raise e
  | inr a => ret a
  end.

(** The arguments of a call, the DataFrame apart.  [var_col] is a column
    name. *)
Record Args := mkArgs {
  a_time_col : string;
  a_var_col : string;
  a_legend_name : option string;
  a_year_min : option Z;
  a_year_max : option Z;
  a_freq : option string;
  a_rolling_window : option Z
}.

Definition is_some {A} (o : option A) : bool :=
  match o with Some _ => true | None => false end.

Definition is_annual_or_statistics (m : string) : bool :=
  String.eqb m "annual_cycle" || String.eqb m "statistics".

(** Lines 199-208: the attributes of the call, the copy of the caller's
    DataFrame, and the rolling window the statistics mode ignores. *)
Definition enter (l : loc) (a : Args) : M loc :=
  (* 199-201 *)
  modify_self (fun e =>
    set_call_attrs e (a_freq a) (a_legend_name a) (a_rolling_window a)) ;;;
  (* 203-204 *)
  df <- copy l ;;
  to_datetime_inplace df ;;;
  (* 206-208 *)
  e <- get_self ;;
  (if String.eqb (mode e) "statistics" && is_some (e_rolling_window e)
   then warning warn_rolling ;;; modify_self (fun e => set_rolling_window e None)
   else ret tt) ;;;
  ret df.

(** Lines 210-213. *)
Definition select_years (a : Args) (df : loc) : M loc :=
  df <- match a_year_min a with
        | Some y => derive df (filter_year_min (Some y))
        | None => ret df
        end ;;
  match a_year_max a with
  | Some y => derive df (filter_year_max (Some y))
  | None => ret df
  end.

(** Lines 220-246. *)
Definition fill_gaps (df : loc) : M loc :=
  cur <- read_frame df ;;
  match complete_years cur with
  | [] => ret df
  | _ :: _ => derive df gap_fill
  end.

(** Lines 248-295: [df_analysis], the copy of [df] with its calendar
    columns, shifted to the start month when there is one. *)
Definition normalize (e : Engine) (df : loc) : M loc :=
  (* 248-261 *)
  df_analysis <- derive df calendar_columns ;;
  (* 264-295 *)
  match start_month e with
  | None => ret df_analysis
  | Some sm =>
      cur <- read_frame df_analysis ;;
      w <- lift (fiscal_window sm cur) ;;
      derive df_analysis (fiscal_columns sm w)
  end.

(** Lines 297-323. *)
Definition resample (e : Engine) (df_analysis : loc) : M loc :=
  (* 297-320 *)
  df <- (if freq_is (e_freq e) "W" then derive df_analysis resample_weekly
         else if freq_is (e_freq e) "ME" then derive df_analysis resample_monthly
         else ret df_analysis) ;;
  (* 322-323 *)
  match start_month e with
  | Some _ => update_frame df (map assign_month_real)
  | None => ret tt
  end ;;;
  ret df.

(** Lines 326-337. *)
Definition accumulate (e : Engine) (df : loc) : M loc :=
  (if cumul e && is_annual_or_statistics (mode e)
   then update_frame df (cumulate (x_col_of (e_freq e)))
   else ret tt) ;;;
  ret df.

(** Lines 199-337: from the caller's DataFrame at [l] to [df] as it stands
    before the rolling average. *)
Definition prepare (l : loc) (a : Args) : M loc :=
  df <- enter l a ;;
  e <- get_self ;;
  df <- select_years a df ;;
  df <- fill_gaps df ;;
  df_analysis <- normalize e df ;;
  df <- resample e df_analysis ;;
  accumulate e df.

(** Lines 391-498: what the call appends to [series_list]. *)
Definition project (e : Engine) (a : Args) (df : Frame) : result (list Series) :=
  if String.eqb (mode e) "historical" then
    inr [mkSeries (TRows df) "time" (a_var_col a)
                  (legend_or (a_legend_name a) (a_var_col a))
                  (a_freq a) (e_rolling_window e) false false]
  else if String.eqb (mode e) "annual_cycle" then
    inr (annual_series (x_col_of (e_freq e)) (a_var_col a) (a_freq a)
                       (e_rolling_window e) df)
  else if String.eqb (mode e) "statistics" then
    match stats_table (x_col_of (e_freq e)) (focus_year e) df with
    | inl ex => inl ex
    | inr t =>
        inr [mkSeries (TStats t) "x_value" (a_var_col a)
                      (legend_or (a_legend_name a) (a_var_col a))
                      (a_freq a) None false true]
    end
  else inr [].

(** Lines 339-502. *)
Definition finish (df : loc) (a : Args) : M unit :=
  (* 339-388 *)
  e <- get_self ;;
  df <- match e_rolling_window e with
        | None => ret df
        | Some w =>
            cur <- read_frame df ;;
            out <- lift (rolling (e_freq e) w cur) ;;
            alloc (ObjFrame out)
        end ;;
  (* 391-498 *)
  cur <- read_frame df ;;
  new <- lift (project e a cur) ;;
  modify_self (fun e => set_series_list e (series_list e ++ new)) ;;;
  (* 500-502 *)
  e <- get_self ;;
  match title e with
  | None => modify_self (fun e => set_title e (Some (generate_auto_title e)))
  | Some _ => ret tt
  end.

(** [TimeSeriesPlot_Plotly.add_series], the DataFrame [df] being the object
    at [l]. *)
Definition add_series (l : loc) (a : Args) : M unit :=
  df <- prepare l a ;; finish df a.

End Program.
Export Program.

(* ------------------------------------------------------------------ *)
(** * What [add_series] computes, as functions of the frame

    The content of the objects the program above builds, stage by stage.
    [Refinement] below proves that the program computes exactly these. *)

Module Pipeline.

(** The caller's DataFrame once its time column holds timestamps (line 204). *)
Definition as_frame (o : Obj) : result Frame :=
  match o with
  | ObjFrame df => inr df
  | ObjRaw rows =>
      match to_datetime rows with
      | Some df => inr df
      | None => inl ParserError
      end
  end.

(** [self] after lines 199-208, and the warning logged. *)
Definition entered (e : Engine) (a : Args) : Engine * list string :=
  let e1 := set_call_attrs e (a_freq a) (a_legend_name a) (a_rolling_window a) in
  if String.eqb (mode e1) "statistics" && is_some (e_rolling_window e1)
  then (set_rolling_window e1 None, [warn_rolling])
  else (e1, []).

Definition selected (a : Args) (df : Frame) : Frame :=
  filter_year_max (a_year_max a) (filter_year_min (a_year_min a) df).

(** [df_analysis] at line 296. *)
Definition normalized (sm : option Z) (df : Frame) : result Frame :=
  match sm with
  | None => inr (calendar_columns df)
  | Some m =>
      match fiscal_window m (calendar_columns df) with
      | inl x => inl x
      | inr w => inr (fiscal_columns m w (calendar_columns df))
      end
  end.

(** [df] at line 324. *)
Definition resampled (freq : option string) (sm : option Z) (an : Frame) : Frame :=
  let df := if freq_is freq "W" then resample_weekly an
            else if freq_is freq "ME" then resample_monthly an
            else an in
  match sm with
  | Some _ => map assign_month_real df
  | None => df
  end.

(** [df] at line 338. *)
Definition accumulated (e : Engine) (df : Frame) : Frame :=
  if cumul e && is_annual_or_statistics (mode e)
  then cumulate (x_col_of (e_freq e)) df
  else df.

Definition prepared (e : Engine) (a : Args) (df : Frame) : result Frame :=
  match normalized (start_month e) (gap_fill (selected a df)) with
  | inl x => inl x
  | inr an => inr (accumulated e (resampled (e_freq e) (start_month e) an))
  end.

(** [df] at line 389. *)
Definition rolled (e : Engine) (df : Frame) : result Frame :=
  match e_rolling_window e with
  | None => inr df
  | Some w => rolling (e_freq e) w df
  end.

Definition with_title (e : Engine) : Engine :=
  match title e with
  | None => set_title e (Some (generate_auto_title e))
  | Some _ => e
  end.

(** [self] when the call returns, from [df] at line 338. *)
Definition finished (e : Engine) (a : Args) (df : Frame) : result Engine :=
  match rolled e df with
  | inl x => inl x
  | inr d =>
      match project e a d with
      | inl x => inl x
      | inr new => inr (with_title (set_series_list e (series_list e ++ new)))
      end
  end.

(** The engine a call leaves, the warnings it logs, and how it ends. *)
Definition outcome (e : Engine) (a : Args) (o : Obj) : Engine * list string * result unit :=
  match as_frame o with
  | inl x =>
      (set_call_attrs e (a_freq a) (a_legend_name a) (a_rolling_window a), [], inl x)
  | inr df0 =>
      let e1 := fst (entered e a) in
      match prepared e1 a df0 with
      | inl x => (e1, snd (entered e a), inl x)
      | inr df =>
          match finished e1 a df with
          | inl x => (e1, snd (entered e a), inl x)
          | inr e2 => (e2, snd (entered e a), inr tt)
          end
      end
  end.

(** The object at [l] is the newest one, above the objects [h] of the caller. *)
Definition at_top (h : list Obj) (s : State) (l : loc) (o : Obj) : Prop :=
  exists ext, heap s = h ++ ext ++ [o] /\ l = List.length (h ++ ext).

(** The objects [h] of the caller are where and what they were. *)
Definition over (h : list Obj) (s : State) : Prop :=
  exists ext, heap s = h ++ ext.

(** A program from a location to a location that computes [f] on the newest
    object, touching nothing below it. *)
Definition stage_ok (m : loc -> M loc) (f : Frame -> result Frame) : Prop :=
  forall h s l df,
    at_top h s l (ObjFrame df) ->
    exists s', self s' = self s /\ log s' = log s /\
      match f df with
      | inl x => m l s = (s', inl x) /\ over h s'
      | inr df' => exists l', m l s = (s', inr l') /\ at_top h s' l' (ObjFrame df')
      end.

End Pipeline.
Export Pipeline.

(* ------------------------------------------------------------------ *)
(** * Sample inputs *)

Module Samples.

(** A caller that holds one DataFrame, at location 0. *)
Definition caller (e : Engine) (rows : list RawRow) : State :=
  mkState [ObjRaw rows] e [].

Definition engine (mode : string) (focus_year start_month : option Z) (cumul : bool)
  : Engine :=
  fst (init None "Date" "Value" None false false mode focus_year start_month cumul).

Definition args (freq : option string) (rolling_window : option Z) : Args :=
  mkArgs "time" "volume" None None None freq rolling_window.

Definition obs (y m d : Z) (v : Q) : RawRow := mkRaw (Stamp (mkTs y m d)) (Some v).

(** The two dates of the fiscal-shift example, one of them still text. *)
Definition two_dates : list RawRow :=
  [obs 2017 1 15 1; mkRaw (DateText 2016 10 5) (Some 2%Q)].

(** One observation a year, 2000 to 2010. *)
Definition eleven_years : list RawRow :=
  map (fun y => obs y 3 1 (inject_Z y)) (zrange 2000 11).

(** Two complete years, 2000 and 2002, around a year observed on one day only
    and without a value that day, after a year observed on one day only. *)
Definition sandwich : list RawRow :=
  [obs 1999 7 4 9;
   obs 2000 1 1 1; obs 2000 12 31 2;
   mkRaw (Stamp (mkTs 2001 6 15)) None;
   obs 2002 1 1 3; obs 2002 12 31 4].

(** A complete year with one missing interior day, January 3. *)
Definition one_gap : Frame :=
  [plain_row (mkTs 2001 1 1) (Some 1%Q); plain_row (mkTs 2001 1 2) (Some 2%Q);
   plain_row (mkTs 2001 1 4) (Some 4%Q); plain_row (mkTs 2001 12 31) (Some 5%Q)].

(** March 5 of three years and of the focus year 2020, as a normalized
    frame. *)
Definition three_years : Frame :=
  [mkRow (mkTs 2017 3 5) (Some 1%Q) 2017 64 10 3 0;
   mkRow (mkTs 2018 3 5) (Some 3%Q) 2018 64 10 3 0;
   mkRow (mkTs 2019 3 5) (Some 2%Q) 2019 64 10 3 0;
   mkRow (mkTs 2020 3 5) (Some 10%Q) 2020 64 10 3 0].


(** The frame at a location, empty when the location holds none. *)
Definition frame_at (s : State) (l : loc) : Frame :=
  match nth_error (heap s) l with
  | Some (ObjFrame df) => df
  | _ => []
  end.

End Samples.

(* ------------------------------------------------------------------ *)
(** * Vocabulary of the statements *)

Module Vocabulary.

(** Every element is below the elements after it. *)
Fixpoint ascending {A} (leb : A -> A -> bool) (l : list A) : Prop :=
  match l with
  | [] => True
  | x :: t => (forall y, In y t -> leb x y = true) /\ ascending leb t
  end.

(** The values of [freq] for which the rolling branch assigns [result_df]. *)
Definition explicit_freqs : list (option string) :=
  [Some "D"%string; Some "W"%string; Some "ME"%string].

(** The number of distinct fiscal years of a frame. *)
Definition n_years (df : Frame) : Z := Z.of_nat (List.length (unique_years df)).

(** The calendar columns of one row (lines 250-261, the filter of line 256
    apart). *)
Definition calendar_row (r : Row) : Row :=
  assign_month (clamp_week (assign_week (leap_adjust (set_year_doy r)))).

(** The day of the year as line 255 leaves it. *)
Definition adjusted_doy (t : Timestamp) : Z :=
  if is_leap_year (ts_year t) && (59 <? dayofyear t)
  then dayofyear t - 1 else dayofyear t.

(** The month in which day [d] of a 365-day year falls. *)
Definition month_of_doy (d : Z) : Z :=
  if d <=? 31 then 1 else if d <=? 59 then 2 else if d <=? 90 then 3
  else if d <=? 120 then 4 else if d <=? 151 then 5 else if d <=? 181 then 6
  else if d <=? 212 then 7 else if d <=? 243 then 8 else if d <=? 273 then 9
  else if d <=? 304 then 10 else if d <=? 334 then 11 else 12.

(** The date of year [y] that the normalizer numbers [d]. *)
Definition date_of_doy (y d : Z) : Timestamp :=
  mkTs y (month_of_doy d) (d - days_before_month false (month_of_doy d)).

(** The rows of a frame that carry fiscal year [y]. *)
Definition rows_of_year (y : Z) (df : Frame) : Frame :=
  filter (fun r => year r =? y) df.




(** The values of the rows outside the focus year at bucket [x]. *)
Definition bucket_values (c : Col) (focus_year : option Z) (df : Frame) (x : Z)
  : list (option Q) :=
  map value (filter (fun r => x =? get_col c r) (stats_part focus_year df)).

(** Strictly increasing. *)
Fixpoint increasing (l : list Z) : Prop :=
  match l with
  | [] => True
  | x :: t => (forall y, In y t -> x < y) /\ increasing t
  end.


(** The entry the historical mode appends for a frame without rows. *)
Definition empty_series (a : Args) : Series :=
  mkSeries (TRows []) "time" (a_var_col a)
           (legend_or (a_legend_name a) (a_var_col a)) (a_freq a) None false false.

End Vocabulary.
Export Vocabulary.

(* ------------------------------------------------------------------ *)
(** * The month ticks of the annual axis (lines 715-815) *)

Module Ticks.

(** Python slices [l[k:]] and [l[:k]]: a negative bound counts from the end,
    and a bound outside the list is clipped. *)
Definition slice_bound {A} (l : list A) (k : Z) : nat :=
  let n := Z.of_nat (List.length l) in
  Z.to_nat (if k <? 0 then Z.max 0 (n + k) else Z.min k n).
Definition slice_from {A} (l : list A) (k : Z) : list A := skipn (slice_bound l k) l.
Definition slice_to {A} (l : list A) (k : Z) : list A := firstn (slice_bound l k) l.

Definition standard_month_starts : list Z :=
  [1; 32; 60; 91; 121; 152; 182; 213; 244; 274; 305; 335].
Definition standard_week_starts : list Z :=
  [1; 6; 10; 14; 18; 22; 26; 30; 35; 39; 43; 48].
(** [list(range(1, 13))] *)
Definition standard_month_numbers : list Z := zrange 1 12.
Definition standard_month_labels : list string :=
  ["Jan"; "Feb"; "Mar"; "Apr"; "May"; "Jun";
   "Jul"; "Aug"; "Sep"; "Oct"; "Nov"; "Dec"]%string.

Definition days_per_month_list : list Z :=
  [31; 28; 31; 30; 31; 30; 31; 31; 30; 31; 30; 31].
Definition weeks_per_month : list Z :=
  [5; 4; 4; 4; 4; 4; 4; 5; 4; 4; 5; 5].

(** Lines 737, 775, 813 *)
Definition shifted_labels (sm : Z) : list string :=
  (slice_from standard_month_labels (sm - 1)
   ++ slice_to standard_month_labels (sm - 1))%list.

(** The loop of lines 742-749; the state is [cumulative_days] and
    [shifted_starts].  The index into [days_per_month] is a remainder modulo
    12 and never leaves the list. *)
Definition shifted_starts (sm : Z) : list Z :=
  snd (fold_left
         (fun (st : Z * list Z) (i : Z) =>
            let adjusted_month_idx := (i + sm - 1) mod 12 in
            if i =? 0 then (fst st, (snd st ++ [1])%list)
            else
              let cumulative_days :=
                fst st + nth (Z.to_nat ((adjusted_month_idx - 1) mod 12))
                             days_per_month_list 0 in
              (cumulative_days, (snd st ++ [cumulative_days + 1])%list))
         (zrange 0 12) (0, [])).

(** The loop of lines 780-787. *)
Definition shifted_weeks (sm : Z) : list Z :=
  snd (fold_left
         (fun (st : Z * list Z) (i : Z) =>
            let adjusted_month_idx := (i + sm - 1) mod 12 in
            if i =? 0 then (fst st, (snd st ++ [1])%list)
            else
              let cumulative_weeks :=
                fst st + nth (Z.to_nat ((adjusted_month_idx - 1) mod 12))
                             weeks_per_month 0 in
              (cumulative_weeks, (snd st ++ [cumulative_weeks + 1])%list))
         (zrange 0 12) (0, [])).

(** [_get_month_ticks_for_days] *)
Definition get_month_ticks_for_days (e : Engine) : list Z * list string :=
  match start_month e with
  | None => (standard_month_starts, standard_month_labels)
  | Some sm =>
      if sm =? 1 then (standard_month_starts, standard_month_labels)
      else (shifted_starts sm, shifted_labels sm)
  end.

(** [_get_month_ticks_for_weeks] *)
Definition get_month_ticks_for_weeks (e : Engine) : list Z * list string :=
  match start_month e with
  | None => (standard_week_starts, standard_month_labels)
  | Some sm =>
      if sm =? 1 then (standard_week_starts, standard_month_labels)
      else (shifted_weeks sm, shifted_labels sm)
  end.

(** [_get_month_ticks_for_months] *)
Definition get_month_ticks_for_months (e : Engine) : list Z * list string :=
  match start_month e with
  | None => (standard_month_numbers, standard_month_labels)
  | Some sm =>
      if sm =? 1 then (standard_month_numbers, standard_month_labels)
      else (standard_month_numbers, shifted_labels sm)
  end.

End Ticks.
Export Ticks.

Module TickTerms.

(** The text an axis with [tickvals], [ticktext] shows at position [x]. *)
Definition tick_label (t : list Z * list string) (x : Z) : option string :=
  match find (fun p => fst p =? x) (combine (fst t) (snd t)) with
  | Some p => Some (snd p)
  | None => None
  end.

(** The abbreviated name of calendar month [m]. *)
Definition month_name (m : Z) : string :=
  nth (Z.to_nat (m - 1)) standard_month_labels EmptyString.

(** The week number line 258 gives day number [d]. *)
Definition week_of_doy (d : Z) : Z := Z.min 52 ((d - 1) / 7 + 1).

(** An engine whose annual cycle starts in month [sm]. *)
Definition cycle_from (e : Engine) (sm : Z) : Prop :=
  match start_month e with
  | None => sm = 1
  | Some k => k = sm
  end.

End TickTerms.
Export TickTerms.

(* ------------------------------------------------------------------ *)
(** * The plot object: lines, rectangles, file name and figure

    [Plot] is the whole [TimeSeriesPlot_Plotly] object: the attributes of
    [Engine], the two lists [add_line] and [add_rectangle] fill, and the two
    facts about attributes that [__init__] does not create: whether
    [add_series] has been entered (it creates [freq], [legend_name] and
    [rolling_window]) and the value of [var_col], which only [create_figure]
    assigns.

    A figure is the record of the Plotly calls [create_figure] makes, in
    order.  Arguments that are literals of a call site (colours, dash styles,
    widths, hover templates) are named by the constructor of [TraceKind] that
    stands for the call site.

    The mode of an object never changes after [__init__], so [series_list]
    holds only tables the mode itself appended; a table of another mode can
    be there only if the attributes were written from outside the class, and
    reading it is modelled as the KeyError of a missing column. *)

Module Plot.

Record Line := mkLine {
  ln_orientation : string;
  ln_position : Q;
  ln_line_dash : string;
  ln_col : string;
  ln_color : string;
  ln_label : string
}.

Record Rect := mkRect {
  rc_orientation : string;
  rc_x0 : option Q;
  rc_x1 : option Q;
  rc_y0 : option Q;
  rc_y1 : option Q;
  rc_color : string;
  rc_opacity : Q;
  rc_label : string
}.

Record Plot := mkPlot {
  engine : Engine;
  entered_add_series : bool;
  var_col : option string;
  line_list : list Line;
  rectangle_list : list Rect
}.

Definition set_engine (p : Plot) (e : Engine) : Plot :=
  mkPlot e (entered_add_series p) (var_col p) (line_list p) (rectangle_list p).
Definition set_var_col (p : Plot) (v : option string) : Plot :=
  mkPlot (engine p) (entered_add_series p) v (line_list p) (rectangle_list p).

(** [TimeSeriesPlot_Plotly(...)] *)
Definition new_plot (title : option string) (x_axis_title y_axis_title : string)
           (x_range : option (Z * Z)) (log_x log_y : bool) (mode : string)
           (focus_year start_month : option Z) (cumul : bool)
  : Plot * list string :=
  let r := init title x_axis_title y_axis_title x_range log_x log_y mode
                focus_year start_month cumul in
  (mkPlot (fst r) false None [] [], snd r).

(** [plot.add_series(df, ...)], the DataFrame being the object at [l] of the
    heap [h]: the plot, the heap, the warnings and the result. *)
Definition plot_add_series (l : loc) (a : Args) (h : list Obj) (p : Plot)
  : Plot * list Obj * list string * result unit :=
  let r := add_series l a (mkState h (engine p) []) in
  (mkPlot (self (fst r)) true (var_col p) (line_list p) (rectangle_list p),
   heap (fst r), log (fst r), snd r).

(** [add_line] *)
Definition add_line (p : Plot) (orientation : string) (position : Q)
           (line_dash col color label : string) : Plot :=
  mkPlot (engine p) (entered_add_series p) (var_col p)
         (line_list p ++ [mkLine orientation position line_dash col color label])
         (rectangle_list p).

(** [add_rectangle] *)
Definition add_rectangle (p : Plot) (orientation : string) (x0 x1 y0 y1 : option Q)
           (color : string) (opacity : Q) (label : string) : Plot :=
  mkPlot (engine p) (entered_add_series p) (var_col p) (line_list p)
         (rectangle_list p ++ [mkRect orientation x0 x1 y0 y1 color opacity label]).

(** ** [_generate_auto_filename] *)

Fixpoint replace_char (a b : ascii) (s : string) : string :=
  match s with
  | EmptyString => EmptyString
  | String c t => String (if Ascii.eqb c a then b else c) (replace_char a b t)
  end.

(** [var_col.replace(' ', '_').replace('/', '_')] *)
Definition sanitize (s : string) : string :=
  replace_char "/" "_" (replace_char " " "_" s).

(** [freq_names.get(self.freq, self.freq)] *)
Definition freq_name (f : string) : string :=
  if String.eqb f "D" then "daily"
  else if String.eqb f "W" then "weekly"
  else if String.eqb f "ME" then "monthly"
  else f.

Definition generate_auto_filename (p : Plot) : result string :=
  let e := engine p in
  let c1 := [mode e] in
  let c2 := match focus_year e with
            | Some y => [("focus-(" ++ str_Z y ++ ")")%string]
            | None => []
            end in
  if negb (entered_add_series p) then inl AttributeError
  else
    let c3 := match e_freq e with
              | Some f => [freq_name f]
              | None => []
              end in
    let c4 := match e_rolling_window e with
              | Some w => [("roll-(" ++ str_Z w ++ ")")%string]
              | None => []
              end in
    let c5 := if cumul e then ["cumulative"%string] else [] in
    let c6 := match var_col p with
              | Some EmptyString | None => []
              | Some v => [sanitize v]
              end in
    inr (String.concat "_" (c1 ++ c2 ++ c3 ++ c4 ++ c5 ++ c6)).

End Plot.
Export Plot.

(* ------------------------------------------------------------------ *)
(** * [generate_color_palette] and [create_figure] *)

Module Figure.

Inductive XData :=
| XTimes (l : list Timestamp)
| XInts (l : list Z).

(** The [go.Scatter] call sites of [create_figure], with what varies in their
    styling. *)
Inductive TraceKind :=
| MainLine (var_col : string)        (* lines 851-862 *)
| Projection (hovertext : string)    (* lines 885-895 *)
| ReferenceLine (var_col : string)   (* lines 898-909 *)
| CycleLine (color : string)         (* lines 941-947 *)
| BandLower                          (* lines 988-994 *)
| BandUpper (fillcolor : string)     (* lines 995-1003 *)
| MedianLine                         (* lines 1005-1011 *)
| MeanLine                           (* lines 1012-1018 *)
| FocusLine.                         (* lines 1019-1025 *)

Record Trace := mkTrace {
  tr_x : XData;
  tr_y : list (option Q);
  tr_name : option string;
  tr_showlegend : option bool;
  tr_kind : TraceKind
}.

(** The x axis of lines 915-924 (a date axis from January 1 of the first year
    to December 31 of the last) and of lines 959-966 and 1037-1044 (the range
    [1, max_x] with month ticks). *)
Inductive XAxis :=
| DateAxis (start_year end_year : Z)
| CycleAxis (max_x : Z) (tickvals : list Z) (ticktext : list string).

Inductive Shape :=
| VLine (x : Q) (line_dash line_color annotation_text : string)
| HLine (y : Q) (line_dash line_color annotation_text : string)
| VRect (x0 x1 : option Q) (fillcolor : string) (opacity : Q) (annotation_text : string)
| HRect (y0 y1 : option Q) (fillcolor : string) (opacity : Q) (annotation_text : string).

(** What lines 1103-1135 set from the object. *)
Record Styling := mkStyling {
  sty_title : option string;
  sty_xaxis_title : string;
  sty_yaxis_title : string;
  sty_yaxis_log : bool
}.

Record Figure := mkFigure {
  traces : list Trace;
  xaxis : option XAxis;
  shapes : list Shape;
  styling : option Styling
}.

(** ** The palette *)

Section Palette.

(** The colormap [plt.get_cmap('coolwarm')] of matplotlib, from a position in
    [0, 1] to the red, green and blue channels. *)
Variable cmap : Q -> Q * Q * Q.

(** [int(x)]: towards zero. *)
Definition int_of (x : Q) : Z := Z.quot (Qnum x) (Z.pos (Qden x)).

Definition rgb (c : Q * Q * Q) : string :=
  ("rgb(" ++ str_Z (int_of (fst (fst c) * 255)) ++ ", "
          ++ str_Z (int_of (snd (fst c) * 255)) ++ ", "
          ++ str_Z (int_of (snd c * 255)) ++ ")")%string.

(** [generate_color_palette] *)
Definition generate_color_palette (num_colors : Z) : list string :=
  if num_colors <=? 1 then ["rgb(0, 0, 255)"%string]
  else
    let colors := map (fun i => cmap (inject_Z i / inject_Z (num_colors - 1)))
                      (zrange 0 num_colors) in
    map rgb colors.

(** ** The traces of the three modes *)

(** [t + pd.DateOffset(years=k)]: the same month and day [k] years later, the
    day clipped to the length of the month. *)
Definition add_years (k : Z) (t : Timestamp) : Timestamp :=
  mkTs (ts_year t + k) (ts_month t)
       (Z.min (ts_day t) (days_in_month (is_leap_year (ts_year t + k)) (ts_month t))).

Definition reference_name (focus_year : Z) : string :=
  ("Reference " ++ str_Z focus_year)%string.

(** Lines 865-909, for one series whose table is [f]. *)
Definition reference_traces (focus_year : option Z) (var_col : string) (f : Frame)
  : list Trace :=
  match focus_year with
  | None => []
  | Some fy =>
      let df_focus := filter (fun r => ts_year (time r) =? fy) f in
      match df_focus with
      | [] => []
      | _ :: _ =>
          let unique_years :=
            filter (fun y => negb (y =? fy))
                   (unique Z.eqb (map (fun r => ts_year (time r)) f)) in
          (map (fun year =>
                  mkTrace (XTimes (map (fun r => add_years (year - fy) (time r)) df_focus))
                          (map value df_focus)
                          (Some (reference_name fy))
                          (Some (match unique_years with
                                 | y0 :: _ => year =? y0
                                 | [] => false
                                 end))
                          (Projection ("Projected year " ++ str_Z year)))
               unique_years
           ++ [mkTrace (XTimes (map time df_focus)) (map value df_focus)
                       (Some (reference_name fy)) None (ReferenceLine var_col)])%list
      end
  end.

(** Lines 845-909: the traces of one series of the historical mode; none for
    a table that is not one of the historical mode. *)
Definition historical_traces (focus_year : option Z) (s : Series) : option (list Trace) :=
  match s_df s with
  | TRows f =>
      Some (mkTrace (XTimes (map time f)) (map value f) (Some (s_legend_name s)) None
                    (MainLine (s_var_col s))
            :: reference_traces focus_year (s_var_col s) f)
  | _ => None
  end.

(** Lines 912-913 on the table of the last series. *)
Definition year_span (f : Frame) : result (Z * Z) :=
  match map time f with
  | [] => inl ValueError
  | t :: ts => inr (ts_year (ts_min ts t), ts_year (ts_max ts t))
  end.

(** Lines 934-947: the trace of series number [idx]. *)
Definition cycle_trace (colors : list string) (idx : Z) (s : Series)
  : option (result Trace) :=
  match s_df s with
  | TPoints l =>
      Some match py_index colors idx with
           | None => inl IndexError
           | Some color =>
               inr (mkTrace (XInts (map p_x l)) (map p_value l) (Some (s_legend_name s))
                            None (CycleLine color))
           end
  | _ => None
  end.

Fixpoint cycle_traces (colors : list string) (idx : Z) (l : list Series)
  : option (result (list Trace)) :=
  match l with
  | [] => Some (inr [])
  | s :: rest =>
      match cycle_trace colors idx s with
      | None => None
      | Some (inl x) => Some (inl x)
      | Some (inr t) =>
          match cycle_traces colors (idx + 1) rest with
          | None => None
          | Some (inl x) => Some (inl x)
          | Some (inr ts) => Some (inr (t :: ts))
          end
      end
  end.

(** Lines 979-985 *)
Definition bands : list ((StatRow -> option Q) * (StatRow -> option Q) * string * string) :=
  [(st_min, st_max, "rgba(128,128,128,0.2)", "Min/Max");
   (st_q25, st_q75, "rgba(128,128,128,0.6)", "Q25/Q75");
   (st_q10, st_q90, "rgba(128,128,128,0.5)", "Q10/Q90");
   (st_q05, st_q95, "rgba(128,128,128,0.4)", "Q05/Q95");
   (st_q01, st_q99, "rgba(128,128,128,0.3)", "Q01/Q99")]%string.

(** Lines 987-1025 *)
Definition statistics_traces (l : list StatRow) : list Trace :=
  let x := XInts (map x_value l) in
  (flat_map (fun b =>
               [mkTrace x (map (fst (fst (fst b))) l) None (Some false) BandLower;
                mkTrace x (map (snd (fst (fst b))) l) (Some (snd b)) None
                        (BandUpper (snd (fst b)))])
            bands
   ++ [mkTrace x (map st_median l) (Some "Median"%string) None MedianLine;
       mkTrace x (map st_mean l) (Some "Mean"%string) None MeanLine;
       mkTrace x (map st_focus l) (Some "Reference Year"%string) None FocusLine])%list.

(** Lines 949-957 and 1027-1035: the attribute [freq] exists once
    [add_series] has been entered. *)
Definition cycle_axis (p : Plot) : result XAxis :=
  if negb (entered_add_series p) then inl AttributeError
  else
    let e := engine p in
    if freq_is (e_freq e) "W"
    then inr (CycleAxis 52 (fst (get_month_ticks_for_weeks e))
                        (snd (get_month_ticks_for_weeks e)))
    else if freq_is (e_freq e) "ME"
    then inr (CycleAxis 12 (fst (get_month_ticks_for_months e))
                        (snd (get_month_ticks_for_months e)))
    else inr (CycleAxis 365 (fst (get_month_ticks_for_days e))
                        (snd (get_month_ticks_for_days e))).

(** ** Lines, rectangles and the final styling (lines 1048-1135) *)

Definition line_shapes (ln : Line) : list Shape :=
  if String.eqb (ln_orientation ln) "v"
  then [VLine (ln_position ln) (ln_line_dash ln) (ln_color ln) (ln_label ln)]
  else if String.eqb (ln_orientation ln) "h"
  then [HLine (ln_position ln) (ln_line_dash ln) (ln_color ln) (ln_label ln)]
  else [].

Definition rectangle_shapes (rc : Rect) : list Shape :=
  if String.eqb (rc_orientation rc) "v"
  then [VRect (rc_x0 rc) (rc_x1 rc) (rc_color rc) (rc_opacity rc) (rc_label rc)]
  else if String.eqb (rc_orientation rc) "h"
  then [HRect (rc_y0 rc) (rc_y1 rc) (rc_color rc) (rc_opacity rc) (rc_label rc)]
  else [].

Definition finish_figure (p : Plot) (ts : list Trace) (ax : option XAxis) : Figure :=
  mkFigure ts ax
           (flat_map line_shapes (line_list p)
            ++ flat_map rectangle_shapes (rectangle_list p))%list
           (Some (mkStyling (title (engine p)) (x_axis_title (engine p))
                            (y_axis_title (engine p)) (log_y (engine p)))).

(** ** [create_figure] *)

(** The loop of lines 844-909: the object, whose [var_col] each series
    assigns, and the traces so far. *)
Fixpoint historical_loop (p : Plot) (ts : list Trace) (l : list Series)
  : option (Plot * list Trace) :=
  match l with
  | [] => Some (p, ts)
  | s :: rest =>
      match historical_traces (focus_year (engine p)) s with
      | None => None
      | Some new =>
          historical_loop (set_var_col p (Some (s_var_col s))) (ts ++ new)%list rest
      end
  end.

Definition last_table (l : list Series) : option Table :=
  match rev l with
  | [] => None
  | s :: _ => Some (s_df s)
  end.

Definition warn_no_series : string := "No series for mode=statistics".
Definition warn_unknown_mode (m : string) : string := ("Unknown mode: " ++ m)%string.

(** The object after the call, the warnings logged and the figure returned or
    the exception raised; nothing for an object whose [series_list] holds a
    table of another mode. *)
Definition create_figure (p : Plot) : option (Plot * list string * result Figure) :=
  let e := engine p in
  if String.eqb (mode e) "historical" then
    match historical_loop p [] (series_list e) with
    | None => None
    | Some (p1, ts) =>
        match last_table (series_list e) with
        | None => Some (p1, [], inl UnboundLocalError)
        | Some (TRows f) =>
            match year_span f with
            | inl x => Some (p1, [], inl x)
            | inr (y0, y1) => Some (p1, [], inr (finish_figure p1 ts (Some (DateAxis y0 y1))))
            end
        | Some _ => None
        end
    end
  else if String.eqb (mode e) "annual_cycle" then
    let num_series := Z.of_nat (List.length (series_list e)) in
    let colors := generate_color_palette num_series in
    match cycle_traces colors 0 (series_list e) with
    | None => None
    | Some (inl x) => Some (p, [], inl x)
    | Some (inr ts) =>
        match cycle_axis p with
        | inl x => Some (p, [], inl x)
        | inr ax => Some (p, [], inr (finish_figure p ts (Some ax)))
        end
    end
  else if String.eqb (mode e) "statistics" then
    match series_list e with
    | [] => Some (p, [warn_no_series], inr (mkFigure [] None [] None))
    | s :: _ =>
        match s_df s with
        | TStats l =>
            match cycle_axis p with
            | inl x => Some (p, [], inl x)
            | inr ax => Some (p, [], inr (finish_figure p (statistics_traces l) (Some ax)))
            end
        | _ => None
        end
    end
  else Some (p, [warn_unknown_mode (mode e)], inr (finish_figure p [] None)).

End Palette.

End Figure.
Export Figure.

(* ------------------------------------------------------------------ *)
(** * Further vocabulary *)

Module Terms.

(** The arguments of a call, without its rolling window. *)
Definition without_rolling_window (a : Args) : Args :=
  mkArgs (a_time_col a) (a_var_col a) (a_legend_name a) (a_year_min a) (a_year_max a)
         (a_freq a) None.

(** The rows of [an] in the week, or the month, of a row. *)
Definition same_week (r : Row) (an : Frame) : Frame :=
  filter (fun r0 => key2_eqb (year r, week_num r) (year r0, week_num r0)) an.
Definition same_month (r : Row) (an : Frame) : Frame :=
  filter (fun r0 => key2_eqb (year r, month_num r) (year r0, month_num r0)) an.

(** The values of the focus year at bucket [x]. *)
Definition focus_values (c : Col) (focus_year : option Z) (df : Frame) (x : Z)
  : list (option Q) :=
  map value (filter (fun r => x =? get_col c r) (focus_part focus_year df)).

(** [year_data] of line 417: the points of fiscal year [y]. *)
Definition year_points (c : Col) (y : Z) (df : Frame) : list Point :=
  filter (fun p => p_year p =? y) (grouped_means c df).

(** The values of the rows of fiscal year [y] at bucket [x]. *)
Definition year_bucket_values (c : Col) (y x : Z) (df : Frame) : list (option Q) :=
  map value (filter (fun r => key2_eqb (y, x) (year r, get_col c r)) df).

End Terms.
Export Terms.

(* ------------------------------------------------------------------ *)
(** * Properties *)

(** ** Lists: sorting, grouping *)

Section SortFacts.
Context {A : Type}.
Variable leb : A -> A -> bool.

Lemma in_insert_sorted (a x : A) (l : list A) :
  In x (insert_sorted leb a l) <-> x = a \/ In x l.
Proof.
  induction l as [|y t IH]; simpl.
  - intuition.
  - destruct (leb a y); simpl; [intuition|].
    rewrite IH. intuition.
Qed.

Lemma in_sort (x : A) (l : list A) : In x (sort leb l) <-> In x l.
Proof.
  induction l as [|y t IH]; simpl; [tauto|].
  unfold sort in *. simpl. rewrite in_insert_sorted, IH. intuition.
Qed.



End SortFacts.

Lemma in_sort_values {A K} (leb : K -> K -> bool) (key : A -> K) (x : A) (l : list A) :
  In x (sort_values leb key l) <-> In x l.
Proof. apply in_sort. Qed.

Lemma in_unique {A} (eqb : A -> A -> bool) (x : A) (l : list A) :
  In x (unique eqb l) -> In x l.
Proof.
  induction l as [|y t IH]; simpl; [tauto|].
  intros [->|H]; [now left|]. apply filter_In in H. right. tauto.
Qed.

(** ** The year column *)

Lemma calendar_columns_in (df : Frame) (r : Row) :
  In r (calendar_columns df) ->
  exists r0, In r0 df /\ time r = time r0 /\ value r = value r0
             /\ year r = ts_year (time r0) /\ is_feb29 (time r0) = false.
Proof.
  unfold calendar_columns, drop_feb29. intros H.
  apply in_map_iff in H. destruct H as (r1 & <- & H).
  apply in_map_iff in H. destruct H as (r2 & <- & H).
  apply in_map_iff in H. destruct H as (r3 & <- & H).
  apply filter_In in H. destruct H as [H Hf].
  apply in_map_iff in H. destruct H as (r4 & <- & H).
  apply in_map_iff in H. destruct H as (r5 & <- & H).
  exists r5. split; [exact H|].
  apply negb_true_iff in Hf. revert Hf.
  unfold assign_month, clamp_week, assign_week, leap_adjust, set_year_doy.
  repeat match goal with
         | |- context [if ?b then _ else _] => destruct b
         end; simpl; tauto.
Qed.

Lemma renumber_doy_in (seen : list Z) (df : Frame) (r : Row) :
  In r (renumber_doy seen df) -> exists r0 d, In r0 df /\ r = set_doy r0 d.
Proof.
  revert seen. induction df as [|x t IH]; simpl; intros seen H; [tauto|].
  destruct H as [<-|H].
  - eauto.
  - destruct (IH _ H) as (r0 & d & ? & ?). eauto.
Qed.

Lemma fiscal_columns_in (sm : Z) (w : Timestamp * Timestamp) (df : Frame) (r : Row) :
  In r (fiscal_columns sm w df) ->
  exists r0, In r0 df /\ time r = time r0 /\ value r = value r0
             /\ year r = year (shift_year sm r0)
             /\ ts_leb (fst w) (time r0) = true /\ ts_leb (time r0) (snd w) = true.
Proof.
  unfold fiscal_columns. intros H.
  apply in_sort_values in H.
  apply in_map_iff in H. destruct H as (r1 & <- & H).
  apply in_map_iff in H. destruct H as (r2 & <- & H).
  apply renumber_doy_in in H. destruct H as (r3 & d & H & ->).
  apply in_sort_values in H.
  apply in_map_iff in H. destruct H as (r4 & <- & H).
  apply in_map_iff in H. destruct H as (r5 & <- & H).
  apply filter_In in H. destruct H as [H Hw]. apply andb_true_iff in Hw.
  exists r5. split; [exact H|].
  unfold clamp_week, assign_week, shift_year, rotate_month,
    set_year, set_doy, set_week_num, set_month_num. simpl.
  repeat match goal with
         | |- context [if ?b then _ else _] => destruct b; simpl
         end; tauto.
Qed.

(** ** The program computes the pipeline *)

Module Refinement.

Lemma nth_error_top (h ext : list Obj) (o : Obj) :
  nth_error (h ++ ext ++ [o]) (List.length (h ++ ext)) = Some o.
Proof.
  rewrite app_assoc, nth_error_app2 by lia.
  now rewrite Nat.sub_diag.
Qed.

Lemma update_app {A} (h t : list A) (o : A) :
  update (h ++ t) (List.length h) o = h ++ update t 0 o.
Proof. induction h as [|x h IH]; simpl; [reflexivity|]. now rewrite IH. Qed.

Lemma update_top (h ext : list Obj) (o o' : Obj) :
  update (h ++ ext ++ [o]) (List.length (h ++ ext)) o' = h ++ ext ++ [o'].
Proof. now rewrite !app_assoc, update_app. Qed.

Lemma at_top_over h s l o : at_top h s l o -> over h s.
Proof. intros (ext & E & _). exists (ext ++ [o]). exact E. Qed.

Lemma read_top h s l o : at_top h s l o -> read l s = (s, inr o).
Proof.
  intros (ext & E & ->). unfold read. now rewrite E, nth_error_top.
Qed.

Lemma read_frame_top h s l df :
  at_top h s l (ObjFrame df) -> read_frame l s = (s, inr df).
Proof.
  intros H. unfold read_frame, bind. now rewrite (read_top _ _ _ _ H).
Qed.

Lemma alloc_top h s o :
  over h s ->
  exists s' l', alloc o s = (s', inr l') /\ self s' = self s /\ log s' = log s
                /\ at_top h s' l' o.
Proof.
  intros (ext & E). unfold alloc.
  eexists _, _. split; [reflexivity|]. simpl. repeat split.
  exists ext. now rewrite E, app_assoc.
Qed.

Lemma write_top h s l o o' :
  at_top h s l o ->
  exists s', write l o' s = (s', inr tt) /\ self s' = self s /\ log s' = log s
             /\ at_top h s' l o'.
Proof.
  intros (ext & E & ->). unfold write.
  eexists. split; [reflexivity|]. simpl. repeat split.
  exists ext. now rewrite E, update_top.
Qed.

Lemma derive_top h s l df (f : Frame -> Frame) :
  at_top h s l (ObjFrame df) ->
  exists s' l', derive l f s = (s', inr l') /\ self s' = self s /\ log s' = log s
                /\ at_top h s' l' (ObjFrame (f df)).
Proof.
  intros H. unfold derive, bind. rewrite (read_frame_top _ _ _ _ H).
  apply alloc_top. eapply at_top_over; eassumption.
Qed.

Lemma update_frame_top h s l df (f : Frame -> Frame) :
  at_top h s l (ObjFrame df) ->
  exists s', update_frame l f s = (s', inr tt) /\ self s' = self s /\ log s' = log s
             /\ at_top h s' l (ObjFrame (f df)).
Proof.
  intros H. unfold update_frame, bind. rewrite (read_frame_top _ _ _ _ H).
  eapply write_top; eassumption.
Qed.

Lemma stage_ret : stage_ok ret (fun df => inr df).
Proof.
  intros h s l df H. exists s. repeat split. exists l. split; [reflexivity|exact H].
Qed.

Lemma stage_derive (f : Frame -> Frame) :
  stage_ok (fun l => derive l f) (fun df => inr (f df)).
Proof.
  intros h s l df H. destruct (derive_top _ _ _ _ f H) as (s' & l' & E & ? & ? & ?).
  exists s'. repeat split; try assumption. exists l'. now split.
Qed.

Lemma stage_bind (m1 m2 : loc -> M loc) (f1 f2 : Frame -> result Frame) :
  stage_ok m1 f1 -> stage_ok m2 f2 ->
  stage_ok (fun l => bind (m1 l) m2)
           (fun df => match f1 df with inl x => inl x | inr d => f2 d end).
Proof.
  intros H1 H2 h s l df H.
  destruct (H1 _ _ _ _ H) as (s1 & Es & El & K).
  destruct (f1 df) as [x|d].
  - destruct K as [E O]. exists s1. repeat split; try assumption.
    unfold bind. now rewrite E.
  - destruct K as (l1 & E & T).
    destruct (H2 _ _ _ _ T) as (s2 & Es2 & El2 & K2).
    exists s2. split; [congruence|]. split; [congruence|].
    unfold bind. rewrite E. exact K2.
Qed.

Lemma select_years_ok (a : Args) :
  stage_ok (select_years a) (fun df => inr (selected a df)).
Proof.
  unfold select_years, selected.
  destruct (a_year_min a) as [y0|], (a_year_max a) as [y1|]; simpl.
  - exact (stage_bind _ _ _ _ (stage_derive _) (stage_derive _)).
  - exact (stage_bind _ _ _ _ (stage_derive _) stage_ret).
  - exact (stage_bind _ _ _ _ stage_ret (stage_derive _)).
  - exact (stage_bind _ _ _ _ stage_ret stage_ret).
Qed.

Lemma fill_gaps_ok : stage_ok fill_gaps (fun df => inr (gap_fill df)).
Proof.
  intros h s l df H. unfold fill_gaps, bind.
  rewrite (read_frame_top _ _ _ _ H).
  destruct (complete_years df) as [|y ys] eqn:E.
  - exists s. repeat split. exists l. split; [reflexivity|].
    unfold gap_fill. now rewrite E.
  - destruct (derive_top _ _ _ _ gap_fill H) as (s' & l' & E' & ? & ? & ?).
    exists s'. repeat split; try assumption. exists l'. now split.
Qed.

Lemma normalize_ok (e : Engine) :
  stage_ok (normalize e) (normalized (start_month e)).
Proof.
  intros h s l df H. unfold normalize, normalized, bind.
  destruct (derive_top _ _ _ _ calendar_columns H) as (s1 & l1 & E1 & Es & El & T1).
  rewrite E1.
  destruct (start_month e) as [sm|].
  - rewrite (read_frame_top _ _ _ _ T1).
    destruct (fiscal_window sm (calendar_columns df)) as [x|w]; simpl.
    + exists s1. repeat split; try assumption.
      eapply at_top_over; eassumption.
    + destruct (derive_top _ _ _ _ (fiscal_columns sm w) T1)
        as (s2 & l2 & E2 & Es2 & El2 & T2).
      exists s2. split; [congruence|]. split; [congruence|].
      exists l2. now split.
  - exists s1. repeat split; try assumption. exists l1. now split.
Qed.

Lemma resample_ok (e : Engine) :
  stage_ok (resample e) (fun an => inr (resampled (e_freq e) (start_month e) an)).
Proof.
  intros h s l an H. unfold resample, resampled.
  set (f := fun an : Frame =>
              if freq_is (e_freq e) "W" then resample_weekly an
              else if freq_is (e_freq e) "ME" then resample_monthly an else an).
  assert (S1 : exists s1 l1,
             (if freq_is (e_freq e) "W" then derive l resample_weekly
              else if freq_is (e_freq e) "ME" then derive l resample_monthly
              else ret l) s = (s1, inr l1)
             /\ self s1 = self s /\ log s1 = log s /\ at_top h s1 l1 (ObjFrame (f an))).
  { unfold f. destruct (freq_is (e_freq e) "W").
    - apply derive_top, H.
    - destruct (freq_is (e_freq e) "ME").
      + apply derive_top, H.
      + exists s, l. repeat split. exact H. }
  destruct S1 as (s1 & l1 & E1 & Es & El & T1).
  unfold bind at 1. rewrite E1. fold (f an).
  destruct (start_month e) as [sm|].
  - destruct (update_frame_top _ _ _ _ (map assign_month_real) T1)
      as (s2 & E2 & Es2 & El2 & T2).
    unfold bind. rewrite E2.
    exists s2. split; [congruence|]. split; [congruence|].
    exists l1. now split.
  - exists s1. repeat split; try assumption. exists l1. now split.
Qed.

Lemma accumulate_ok (e : Engine) :
  stage_ok (accumulate e) (fun df => inr (accumulated e df)).
Proof.
  intros h s l df H. unfold accumulate, accumulated, bind.
  destruct (cumul e && is_annual_or_statistics (mode e)).
  - destruct (update_frame_top _ _ _ _ (cumulate (x_col_of (e_freq e))) H)
      as (s2 & E2 & Es2 & El2 & T2).
    rewrite E2. exists s2. repeat split; try assumption. exists l. now split.
  - exists s. repeat split. exists l. now split.
Qed.

(** Lines 210-337 compute [prepared]. *)
Lemma stages_ok (e : Engine) (a : Args) :
  stage_ok (fun df =>
              df <- select_years a df ;;
              df <- fill_gaps df ;;
              df_analysis <- normalize e df ;;
              df <- resample e df_analysis ;;
              accumulate e df)
           (prepared e a).
Proof.
  exact (stage_bind _ _ _ _ (select_years_ok a)
           (stage_bind _ _ _ _ fill_gaps_ok
              (stage_bind _ _ _ _ (normalize_ok e)
                 (stage_bind _ _ _ _ (resample_ok e) (accumulate_ok e))))).
Qed.

Lemma bind_ok {A B} (m : M A) (k : A -> M B) (s s1 : State) (a : A) :
  m s = (s1, inr a) -> bind m k s = k a s1.
Proof. intros E. unfold bind. now rewrite E. Qed.

Lemma bind_err {A B} (m : M A) (k : A -> M B) (s s1 : State) (x : exn) :
  m s = (s1, inl x) -> bind m k s = (s1, inl x).
Proof. intros E. unfold bind. now rewrite E. Qed.

Lemma nth_error_last (h : list Obj) (o : Obj) :
  nth_error (h ++ [o]) (List.length h) = Some o.
Proof. rewrite nth_error_app2 by lia. now rewrite Nat.sub_diag. Qed.

Lemma update_last (h : list Obj) (o o' : Obj) :
  update (h ++ [o]) (List.length h) o' = h ++ [o'].
Proof. now rewrite update_app. Qed.

Lemma at_top_fresh (h : list Obj) (e : Engine) (lg : list string) (o : Obj) :
  at_top h (mkState (h ++ [o]) e lg) (List.length h) o.
Proof. exists []. simpl. now rewrite app_nil_r. Qed.

Lemma enter_run (s : State) (l : loc) (a : Args) (o : Obj) :
  nth_error (heap s) l = Some o ->
  exists s',
    match as_frame o with
    | inl x =>
        enter l a s = (s', inl x) /\ log s' = log s /\
        self s' = set_call_attrs (self s) (a_freq a) (a_legend_name a) (a_rolling_window a)
    | inr df0 =>
        exists l', enter l a s = (s', inr l') /\
                   at_top (heap s) s' l' (ObjFrame df0) /\
                   self s' = fst (entered (self s) a) /\
                   log s' = log s ++ snd (entered (self s) a)
    end /\ over (heap s) s'.
Proof.
  intros Hl. destruct s as [h e lg]. simpl in *.
  unfold enter, copy, to_datetime_inplace, read, alloc, write, modify_self,
    get_self, warning, bind, entered, as_frame; simpl.
  rewrite Hl; simpl.
  rewrite nth_error_last; simpl.
  assert (Fin : forall (e' : Engine) (lg' : list string) (o' : Obj),
             at_top h (mkState (h ++ [o']) e' lg') (List.length h) o'
             /\ over h (mkState (h ++ [o']) e' lg')).
  { intros. split; [apply at_top_fresh|]. eexists; reflexivity. }
  destruct o as [rows|df]; simpl.
  - destruct (to_datetime rows) as [df|]; simpl.
    + rewrite update_last; simpl.
      destruct (String.eqb (mode e) "statistics" && is_some (a_rolling_window a));
        simpl; eexists; (split; [eexists; split; [reflexivity|] |]);
        try apply Fin; (split; [apply Fin|]); split; try reflexivity.
      simpl. now rewrite app_nil_r.
    + eexists. split; [repeat split|]. eexists; reflexivity.
  - destruct (String.eqb (mode e) "statistics" && is_some (a_rolling_window a));
      simpl; eexists; (split; [eexists; split; [reflexivity|] |]);
      try apply Fin; (split; [apply Fin|]); split; try reflexivity.
    simpl. now rewrite app_nil_r.
Qed.

Lemma finish_run (h : list Obj) (s : State) (l : loc) (a : Args) (df : Frame) :
  at_top h s l (ObjFrame df) ->
  exists s',
    over h s' /\ log s' = log s /\
    match finished (self s) a df with
    | inl x => finish l a s = (s', inl x) /\ self s' = self s
    | inr e2 => finish l a s = (s', inr tt) /\ self s' = e2
    end.
Proof.
  intros H. unfold finish, finished, rolled.
  rewrite !(bind_ok _ _ _ _ _ (eq_refl : get_self s = (s, inr (self s)))).
  assert (S1 : exists s1, self s1 = self s /\ log s1 = log s /\
             match (match e_rolling_window (self s) with
                    | None => inr df
                    | Some w => rolling (e_freq (self s)) w df
                    end) with
             | inl x =>
                 (match e_rolling_window (self s) with
                  | None => ret l
                  | Some w =>
                      cur <- read_frame l ;;
                      out <- lift (rolling (e_freq (self s)) w cur) ;;
                      alloc (ObjFrame out)
                  end) s = (s1, inl x) /\ over h s1
             | inr d =>
                 exists l1,
                 (match e_rolling_window (self s) with
                  | None => ret l
                  | Some w =>
                      cur <- read_frame l ;;
                      out <- lift (rolling (e_freq (self s)) w cur) ;;
                      alloc (ObjFrame out)
                  end) s = (s1, inr l1) /\ at_top h s1 l1 (ObjFrame d)
             end).
  { destruct (e_rolling_window (self s)) as [w|].
    - unfold bind. rewrite (read_frame_top _ _ _ _ H).
      destruct (rolling (e_freq (self s)) w df) as [x|d]; simpl.
      + exists s. repeat split. eapply at_top_over; eassumption.
      + destruct (alloc_top h s (ObjFrame d) (at_top_over _ _ _ _ H))
          as (s1 & l1 & E1 & ? & ? & ?).
        exists s1. repeat split; try assumption. exists l1. now split.
    - exists s. repeat split. exists l. now split. }
  destruct S1 as (s1 & Es & El & K).
  destruct (match e_rolling_window (self s) with
            | None => inr df
            | Some w => rolling (e_freq (self s)) w df
            end) as [x|d].
  - destruct K as [E O]. exists s1. split; [exact O|]. split; [exact El|].
    rewrite (bind_err _ _ _ _ _ E). now split.
  - destruct K as (l1 & E & T).
    rewrite (bind_ok _ _ _ _ _ E).
    rewrite (bind_ok _ _ _ _ _ (read_frame_top _ _ _ _ T)).
    assert (O1 : over h s1) by (eapply at_top_over; eassumption).
    destruct (project (self s) a d) as [x|new].
    + exists s1. split; [exact O1|]. split; [exact El|].
      split; [reflexivity|exact Es].
    + destruct s1 as [h1 e1 lg1]. simpl in Es, El. subst e1 lg1.
      unfold bind, lift, ret, modify_self, get_self, with_title; simpl.
      destruct (title (self s)) as [t|]; simpl;
        eexists; (split; [|split; [|split; reflexivity]]);
        try reflexivity; destruct O1 as (ext & EO); exists ext; exact EO.
Qed.

(** [add_series] ends as [outcome] says, and leaves the caller's objects alone. *)
Theorem add_series_run (s : State) (l : loc) (a : Args) (o : Obj) :
  nth_error (heap s) l = Some o ->
  exists s',
    add_series l a s = (s', snd (outcome (self s) a o)) /\
    self s' = fst (fst (outcome (self s) a o)) /\
    log s' = log s ++ snd (fst (outcome (self s) a o)) /\
    over (heap s) s'.
Proof.
  intros Hl. unfold add_series, outcome.
  destruct (enter_run s l a o Hl) as (s1 & K & O1).
  destruct (as_frame o) as [x|df0].
  - destruct K as (E & El & Es). exists s1.
    assert (P : prepare l a s = (s1, inl x)).
    { unfold prepare. now rewrite (bind_err _ _ _ _ _ E). }
    rewrite (bind_err _ _ _ _ _ P).
    simpl. rewrite app_nil_r. now repeat split.
  - destruct K as (l1 & E & T & Es & El).
    destruct (stages_ok (self s1) a _ _ _ _ T) as (s2 & Es2 & El2 & K2).
    assert (G : get_self s1 = (s1, inr (self s1))) by reflexivity.
    rewrite <- Es.
    destruct (prepared (self s1) a df0) as [x|df].
    + destruct K2 as [E2 O2]. exists s2.
      assert (P : prepare l a s = (s2, inl x)).
      { unfold prepare.
        rewrite (bind_ok _ _ _ _ _ E), (bind_ok _ _ _ _ _ G). exact E2. }
      rewrite (bind_err _ _ _ _ _ P).
      simpl. repeat split; congruence.
    + destruct K2 as (l2 & E2 & T2).
      assert (P : prepare l a s = (s2, inr l2)).
      { unfold prepare.
        rewrite (bind_ok _ _ _ _ _ E), (bind_ok _ _ _ _ _ G). exact E2. }
      rewrite (bind_ok _ _ _ _ _ P).
      destruct (finish_run _ _ _ a _ T2) as (s3 & O3 & El3 & K3).
      rewrite Es2 in K3.
      destruct (finished (self s1) a df) as [x|e2]; destruct K3 as [E3 Es3];
        exists s3; rewrite E3; simpl; repeat split; congruence.
Qed.

Lemma over_nth_error (h : list Obj) (s : State) (i : nat) (o : Obj) :
  over h s -> nth_error h i = Some o -> nth_error (heap s) i = Some o.
Proof.
  intros (ext & E) H. rewrite E, nth_error_app1; [exact H|].
  apply nth_error_Some. congruence.
Qed.

Lemma at_top_nth_error (h : list Obj) (s : State) (l : loc) (o : Obj) :
  at_top h s l o -> nth_error (heap s) l = Some o.
Proof. intros (ext & E & ->). rewrite E. apply nth_error_top. Qed.

(** Lines 199-337 on a DataFrame whose dates can be read. *)
Lemma prepare_run (s : State) (l : loc) (a : Args) (o : Obj) (df0 : Frame) :
  nth_error (heap s) l = Some o ->
  as_frame o = inr df0 ->
  exists s1,
    self s1 = fst (entered (self s) a) /\
    match prepared (fst (entered (self s) a)) a df0 with
    | inl x => prepare l a s = (s1, inl x)
    | inr df => exists l1, prepare l a s = (s1, inr l1)
                           /\ at_top (heap s) s1 l1 (ObjFrame df)
    end.
Proof.
  intros Hl Ho.
  destruct (enter_run s l a o Hl) as (s1 & K & O1). rewrite Ho in K.
  destruct K as (l1 & E & T & Es & El).
  destruct (stages_ok (self s1) a _ _ _ _ T) as (s2 & Es2 & El2 & K2).
  assert (G : get_self s1 = (s1, inr (self s1))) by reflexivity.
  exists s2. split; [congruence|]. rewrite <- Es.
  destruct (prepared (self s1) a df0) as [x|df].
  - destruct K2 as [E2 O2]. unfold prepare.
    rewrite (bind_ok _ _ _ _ _ E), (bind_ok _ _ _ _ _ G). exact E2.
  - destruct K2 as (l2 & E2 & T2). exists l2. split; [|exact T2].
    unfold prepare.
    rewrite (bind_ok _ _ _ _ _ E), (bind_ok _ _ _ _ _ G). exact E2.
Qed.

Lemma prepare_refused (s : State) (l : loc) (a : Args) (o : Obj) (x : exn) :
  nth_error (heap s) l = Some o ->
  as_frame o = inl x ->
  snd (prepare l a s) = inl x.
Proof.
  intros Hl Ho.
  destruct (enter_run s l a o Hl) as (s1 & K & O1). rewrite Ho in K.
  destruct K as (E & _). unfold prepare. now rewrite (bind_err _ _ _ _ _ E).
Qed.

Lemma prepare_dangling (s : State) (l : loc) (a : Args) :
  nth_error (heap s) l = None ->
  snd (prepare l a s) = inl InvalidReference.
Proof.
  intros Hl. unfold prepare, enter, copy, read, modify_self, bind; simpl.
  now rewrite Hl.
Qed.

End Refinement.

(* ------------------------------------------------------------------ *)
(** * The claims of the specification *)

(** ** C10: the caller's DataFrame *)

(** C10.  [add_series] never changes the caller's input: whatever the call
    does, and however it ends, the object the caller passed (and every other
    object the caller holds) is afterwards the object it was, because line 203
    rebinds [df] to a copy and every later assignment goes to that copy or to
    a frame derived from it. *)
Theorem add_series_keeps_input (s : State) (l : loc) (a : Args) (df : Obj) :
  nth_error (heap s) l = Some df ->
  nth_error (heap (fst (add_series l a s))) l = Some df
  /\ forall i o, nth_error (heap s) i = Some o ->
                 nth_error (heap (fst (add_series l a s))) i = Some o.
Proof.
  intros Hl.
  destruct (Refinement.add_series_run s l a df Hl) as (s' & E & _ & _ & O).
  rewrite E. simpl.
  split; [|intros i o Hi]; eapply Refinement.over_nth_error; eassumption.
Qed.

Lemma add_series_keeps_input_witness :
  nth_error (heap (Samples.caller (Samples.engine "historical" None (Some 10) false)
                                  Samples.two_dates)) 0%nat
  = Some (ObjRaw Samples.two_dates)
  /\ nth_error
       (heap (fst (add_series 0%nat (Samples.args None None)
                     (Samples.caller (Samples.engine "historical" None (Some 10) false)
                                     Samples.two_dates)))) 0%nat
     = Some (ObjRaw Samples.two_dates).
Proof.
  split; [reflexivity|].
  exact (proj1 (add_series_keeps_input
                  (Samples.caller (Samples.engine "historical" None (Some 10) false)
                                  Samples.two_dates)
                  0%nat (Samples.args None None) (ObjRaw Samples.two_dates)
                  eq_refl)).
Defined.

(** ** C7: statistics without a focus year *)

Lemma add_series_dangling (s : State) (l : loc) (a : Args) :
  nth_error (heap s) l = None ->
  add_series l a s
  = (mkState (heap s)
             (set_call_attrs (self s) (a_freq a) (a_legend_name a) (a_rolling_window a))
             (log s),
     inl InvalidReference).
Proof.
  intros Hl.
  unfold add_series, prepare, enter, copy, read, modify_self, bind; simpl.
  now rewrite Hl.
Qed.

(** In historical mode a call does not look at the cumulative flag, except to
    write the title. *)
Lemma outcome_ignores_cumul (e : Engine) (c : bool) (a : Args) (o : Obj) :
  mode e = "historical"%string ->
  snd (outcome (set_cumul e c) a o) = snd (outcome e a o)
  /\ series_list (fst (fst (outcome (set_cumul e c) a o)))
     = series_list (fst (fst (outcome e a o))).
Proof.
  intros Hm. destruct e as [t xa ya xr lx ly m fy sm cu sl fr ln rw].
  simpl in Hm. subst m.
  unfold outcome, entered, prepared, accumulated, finished, rolled, project,
    with_title, set_cumul; simpl.
  change (is_annual_or_statistics "historical") with false.
  rewrite !andb_false_r.
  destruct (as_frame o) as [x|df0]; simpl; [now split|].
  destruct (normalized sm (gap_fill (selected a df0))) as [x|an]; simpl; [now split|].
  destruct (a_rolling_window a) as [w|]; simpl.
  - destruct (rolling (a_freq a) w _) as [x|d]; simpl; [now split|].
    destruct t; simpl; now split.
  - destruct t; simpl; now split.
Qed.

(** C7.  Constructed with [mode = 'statistics'] and no focus year, the engine
    does not fail: it logs the warning of line 142 and is in historical mode.
    It is the engine constructed directly with [mode = 'historical'], the
    cumulative flag apart (line 137 resets the flag only for a mode that is
    historical at construction), and a later [add_series] on the same inputs
    ends the same way and leaves the same [series_list] as on that engine. *)
Theorem statistics_without_focus_is_historical
    (t : option string) (xa ya : string) (xr : option (Z * Z)) (lx ly : bool)
    (sm : option Z) (c : bool) :
  let i1 := init t xa ya xr lx ly "statistics" None sm c in
  let i2 := init t xa ya xr lx ly "historical" None sm c in
  snd i1 = [warn_statistics]
  /\ mode (fst i1) = "historical"%string
  /\ fst i1 = set_cumul (fst i2) c
  /\ forall (h : list Obj) (lg : list string) (l : loc) (a : Args),
       let r1 := add_series l a (mkState h (fst i1) lg) in
       let r2 := add_series l a (mkState h (fst i2) lg) in
       snd r1 = snd r2
       /\ series_list (self (fst r1)) = series_list (self (fst r2)).
Proof.
  intros i1 i2.
  assert (E1 : fst i1 = set_cumul (fst i2) c).
  { unfold i1, i2, init. destruct c; reflexivity. }
  assert (M2 : mode (fst i2) = "historical"%string).
  { unfold i2, init. destruct c; reflexivity. }
  split; [unfold i1, init; destruct c; reflexivity|].
  split; [unfold i1, init; destruct c; reflexivity|].
  split; [exact E1|].
  intros h lg l a r1 r2. unfold r1, r2. rewrite E1.
  destruct (nth_error h l) as [o|] eqn:Hl.
  - destruct (Refinement.add_series_run (mkState h (set_cumul (fst i2) c) lg) l a o Hl)
      as (s1 & R1 & S1 & _).
    destruct (Refinement.add_series_run (mkState h (fst i2) lg) l a o Hl)
      as (s2 & R2 & S2 & _).
    rewrite R1, R2. simpl in *. rewrite S1, S2.
    apply outcome_ignores_cumul, M2.
  - rewrite !add_series_dangling by exact Hl. simpl. split; reflexivity.
Qed.

(** ** C9: the rolling average, its frequency and its years *)

Section SortedFacts.
Context {A : Type}.
Variable leb : A -> A -> bool.
Hypothesis leb_total : forall a b, leb a b = true \/ leb b a = true.
Hypothesis leb_trans : forall a b c, leb a b = true -> leb b c = true -> leb a c = true.

Lemma ascending_insert (a : A) (l : list A) :
  ascending leb l -> ascending leb (insert_sorted leb a l).
Proof.
  induction l as [|x t IH]; simpl; intros H.
  - split; [intros ? []|exact I].
  - destruct H as [Hx Ht]. destruct (leb a x) eqn:E; simpl.
    + split; [|split; assumption].
      intros y [<-|Hy]; [exact E|]. eapply leb_trans; [exact E|]. now apply Hx.
    + split; [|now apply IH].
      intros y Hy. apply in_insert_sorted in Hy. destruct Hy as [->|Hy].
      * destruct (leb_total a x) as [C|C]; [congruence|exact C].
      * now apply Hx.
Qed.

Lemma ascending_sort (l : list A) : ascending leb (sort leb l).
Proof.
  induction l as [|x t IH]; simpl; [exact I|].
  now apply ascending_insert.
Qed.

End SortedFacts.

Lemma Zleb_total (a b : Z) : (a <=? b) = true \/ (b <=? a) = true.
Proof. destruct (Z.leb_spec a b); [now left|right; apply Z.leb_le; lia]. Qed.

Lemma Zleb_trans (a b c : Z) :
  (a <=? b) = true -> (b <=? c) = true -> (a <=? c) = true.
Proof. rewrite !Z.leb_le. lia. Qed.

Lemma unique_years_head (df : Frame) (y x : Z) (ys : list Z) :
  unique_years df = y :: ys -> In x (unique_years df) -> y <= x.
Proof.
  intros E Hx. unfold unique_years, group_keys in *.
  pose proof (ascending_sort Z.leb Zleb_total Zleb_trans
                (unique Z.eqb (map year df))) as S.
  rewrite E in S, Hx. destruct S as [S _].
  destruct Hx as [<-|Hx]; [lia|]. apply Z.leb_le. now apply S.
Qed.

Lemma py_index_some {A} (l : list A) (i : Z) (x : A) :
  py_index l i = Some x ->
  In x l /\ - Z.of_nat (List.length l) <= i < Z.of_nat (List.length l).
Proof.
  unfold py_index.
  destruct ((0 <=? i) && (i <? Z.of_nat (List.length l))) eqn:E1.
  - intros H. split; [eapply nth_error_In; eassumption|].
    apply andb_true_iff in E1. destruct E1 as [E1 E2].
    apply Z.leb_le in E1. apply Z.ltb_lt in E2. lia.
  - destruct ((i <? 0) && (- Z.of_nat (List.length l) <=? i)) eqn:E2; [|discriminate].
    intros H. split; [eapply nth_error_In; eassumption|].
    apply andb_true_iff in E2. destruct E2 as [E2 E3].
    apply Z.leb_le in E3. apply Z.ltb_lt in E2. lia.
Qed.

Lemma py_index_in_range {A} (l : list A) (i : Z) :
  - Z.of_nat (List.length l) <= i < Z.of_nat (List.length l) ->
  exists x, py_index l i = Some x.
Proof.
  intros H. unfold py_index.
  destruct ((0 <=? i) && (i <? Z.of_nat (List.length l))) eqn:E1.
  - apply andb_true_iff in E1. destruct E1 as [E1 E2].
    apply Z.leb_le in E1. apply Z.ltb_lt in E2.
    destruct (nth_error l (Z.to_nat i)) eqn:N; [eauto|].
    apply nth_error_None in N. lia.
  - assert (i < 0).
    { apply andb_false_iff in E1. destruct E1 as [E1|E1].
      - apply Z.leb_gt in E1. lia.
      - apply Z.ltb_ge in E1. lia. }
    replace (i <? 0) with true by (symmetry; apply Z.ltb_lt; lia).
    replace (- Z.of_nat (List.length l) <=? i) with true
      by (symmetry; apply Z.leb_le; lia).
    simpl.
    destruct (nth_error l (Z.to_nat (Z.of_nat (List.length l) + i))) eqn:N; [eauto|].
    apply nth_error_None in N. lia.
Qed.

Lemma py_index_below {A} (l : list A) (i : Z) :
  i < - Z.of_nat (List.length l) -> py_index l i = None.
Proof.
  intros H. unfold py_index.
  replace (0 <=? i) with false by (symmetry; apply Z.leb_gt; lia).
  replace (- Z.of_nat (List.length l) <=? i) with false
    by (symmetry; apply Z.leb_gt; lia).
  simpl. now rewrite andb_false_r.
Qed.

Lemma rolling_col_some (freq : option string) :
  rolling_col freq <> None <-> In freq explicit_freqs.
Proof.
  unfold rolling_col, freq_is, explicit_freqs. destruct freq as [f|]; simpl.
  - destruct (String.eqb_spec f "D"); [subst; split; [tauto|discriminate]|].
    destruct (String.eqb_spec f "W"); [subst; split; [tauto|discriminate]|].
    destruct (String.eqb_spec f "ME"); [subst; split; [tauto|discriminate]|].
    split; [congruence|]. intros [H|[H|[H|[]]]]; congruence.
  - split; [congruence|]. intros [H|[H|[H|[]]]]; discriminate.
Qed.

Lemma rolling_ok_inv (freq : option string) (w : Z) (df out : Frame) :
  rolling freq w df = inr out ->
  In freq explicit_freqs /\ w <= n_years df.
Proof.
  unfold rolling, n_years.
  destruct (py_index (unique_years df) (- w)) as [ms|] eqn:P; [|discriminate].
  apply py_index_some in P. destruct P as [Hin Hr].
  intros H. split; [|lia].
  apply rolling_col_some.
  destruct (unique_years df) as [|y ys]; [destruct Hin|].
  simpl in H. destruct (ms <? y); [discriminate|].
  destruct (rolling_col freq); [discriminate|discriminate].
Qed.

Lemma rolling_too_few (freq : option string) (w : Z) (df : Frame) :
  n_years df < w -> rolling freq w df = inl IndexError.
Proof.
  unfold rolling, n_years. intros H.
  rewrite py_index_below by lia. reflexivity.
Qed.

Lemma rolling_unbound (freq : option string) (w : Z) (df : Frame) :
  ~ In freq explicit_freqs -> 1 <= w <= n_years df ->
  rolling freq w df = inl UnboundLocalError.
Proof.
  unfold rolling, n_years. intros Hf Hw.
  destruct (py_index_in_range (unique_years df) (- w)) as [ms P]; [lia|].
  rewrite P. apply py_index_some in P. destruct P as [Hin _].
  destruct (unique_years df) as [|y ys] eqn:E; [destruct Hin|].
  assert (y <= ms) by (eapply unique_years_head; [exact E|now rewrite E]).
  simpl. replace (ms <? y) with false by (symmetry; apply Z.ltb_ge; lia).
  destruct (rolling_col freq) eqn:C; [|reflexivity].
  exfalso. apply Hf, rolling_col_some. congruence.
Qed.

Lemma entered_freq (e : Engine) (a : Args) : e_freq (fst (entered e a)) = a_freq a.
Proof.
  unfold entered.
  destruct (String.eqb _ _ && is_some _); reflexivity.
Qed.

(** What [add_series] returns once lines 199-337 have built [df]. *)
Lemma add_series_after_prepare (s s1 : State) (l ldf : loc) (a : Args) (df : Frame) :
  prepare l a s = (s1, inr ldf) ->
  nth_error (heap s1) ldf = Some (ObjFrame df) ->
  e_freq (self s1) = a_freq a
  /\ snd (add_series l a s)
     = match finished (self s1) a df with
       | inl x => inl x
       | inr _ => inr tt
       end.
Proof.
  intros P N.
  destruct (nth_error (heap s) l) as [o|] eqn:Hl.
  2:{ pose proof (Refinement.prepare_dangling s l a Hl) as D.
      rewrite P in D. discriminate. }
  destruct (as_frame o) as [x|df0] eqn:Ho.
  { pose proof (Refinement.prepare_refused s l a o x Hl Ho) as D.
    rewrite P in D. discriminate. }
  destruct (Refinement.prepare_run s l a o df0 Hl Ho) as (s1' & Es & K).
  destruct (prepared (fst (entered (self s) a)) a df0) as [x|df'].
  { rewrite P in K. discriminate. }
  destruct K as (l1 & K & T). rewrite P in K. inversion K; subst s1' l1.
  pose proof (Refinement.at_top_nth_error _ _ _ _ T) as N'.
  rewrite N in N'. inversion N'; subst df'.
  split; [rewrite Es; apply entered_freq|].
  unfold add_series. rewrite (Refinement.bind_ok _ _ _ _ _ P).
  destruct (Refinement.finish_run _ _ _ a _ T) as (s3 & _ & _ & K3).
  destruct (finished (self s1) a df); destruct K3 as [E3 _]; now rewrite E3.
Qed.

Lemma add_series_ok_prepare (s : State) (l : loc) (a : Args) :
  snd (add_series l a s) = inr tt ->
  exists s1 ldf df,
    prepare l a s = (s1, inr ldf) /\ nth_error (heap s1) ldf = Some (ObjFrame df).
Proof.
  intros H.
  destruct (nth_error (heap s) l) as [o|] eqn:Hl.
  2:{ rewrite add_series_dangling in H by exact Hl. discriminate. }
  destruct (as_frame o) as [x|df0] eqn:Ho.
  { unfold add_series in H.
    pose proof (Refinement.prepare_refused s l a o x Hl Ho) as D.
    destruct (prepare l a s) as [s1 r] eqn:P. simpl in D. subst r.
    rewrite (Refinement.bind_err _ _ _ _ _ P) in H. discriminate. }
  destruct (Refinement.prepare_run s l a o df0 Hl Ho) as (s1 & Es & K).
  destruct (prepared (fst (entered (self s) a)) a df0) as [x|df].
  { unfold add_series in H. rewrite (Refinement.bind_err _ _ _ _ _ K) in H.
    discriminate. }
  destruct K as (l1 & K & T). exists s1, l1, df. split; [exact K|].
  eapply Refinement.at_top_nth_error; eassumption.
Qed.

(** C9.  With a rolling window set ([self.rolling_window] at line 339),
    [add_series] returns normally only if [freq] is one of 'D', 'W', 'ME' and
    [df] has at least that many distinct fiscal years.  With fewer years
    [unique_years[-rolling_window]] raises IndexError; with enough years and
    any other [freq] -- [None], the documented daily default, among them --
    the first window reaches the unassigned [result_df] and the call raises
    UnboundLocalError. *)
Theorem rolling_needs_freq_and_years (s : State) (l : loc) (a : Args) :
  (snd (add_series l a s) = inr tt ->
   exists s1 ldf df,
     prepare l a s = (s1, inr ldf)
     /\ nth_error (heap s1) ldf = Some (ObjFrame df)
     /\ forall w, e_rolling_window (self s1) = Some w ->
                  In (a_freq a) explicit_freqs /\ w <= n_years df)
  /\ (forall s1 ldf df w,
        prepare l a s = (s1, inr ldf) ->
        nth_error (heap s1) ldf = Some (ObjFrame df) ->
        e_rolling_window (self s1) = Some w ->
        (n_years df < w -> snd (add_series l a s) = inl IndexError)
        /\ (~ In (a_freq a) explicit_freqs -> 1 <= w <= n_years df ->
            snd (add_series l a s) = inl UnboundLocalError)
        /\ (a_freq a = None -> 1 <= w <= n_years df ->
            snd (add_series l a s) = inl UnboundLocalError)).
Proof.
  split.
  - intros H. destruct (add_series_ok_prepare s l a H) as (s1 & ldf & df & P & N).
    exists s1, ldf, df. split; [exact P|]. split; [exact N|].
    intros w Hw.
    destruct (add_series_after_prepare s s1 l ldf a df P N) as [Ef R].
    rewrite H in R. unfold finished, rolled in R. rewrite Hw, Ef in R.
    destruct (rolling (a_freq a) w df) as [x|out] eqn:Ro; [discriminate|].
    eapply rolling_ok_inv; eassumption.
  - intros s1 ldf df w P N Hw.
    destruct (add_series_after_prepare s s1 l ldf a df P N) as [Ef R].
    unfold finished, rolled in R. rewrite Hw, Ef in R.
    assert (U : ~ In (a_freq a) explicit_freqs -> 1 <= w <= n_years df ->
                snd (add_series l a s) = inl UnboundLocalError).
    { intros Hf Hr. now rewrite R, rolling_unbound. }
    split; [|split; [exact U|]].
    + intros Hlt. now rewrite R, rolling_too_few.
    + intros Hn. apply U. rewrite Hn. unfold explicit_freqs.
      intros [C|[C|[C|[]]]]; discriminate.
Qed.

Lemma rolling_needs_freq_and_years_witness :
  snd (add_series 0%nat (Samples.args None (Some 5))
         (Samples.caller (Samples.engine "annual_cycle" None None false)
                         Samples.eleven_years))
  = inl UnboundLocalError.
Proof.
  pose (s := Samples.caller (Samples.engine "annual_cycle" None None false)
                            Samples.eleven_years).
  pose (a := Samples.args None (Some 5)).
  pose (s1 := fst (prepare 0%nat a s)).
  refine (proj2 (proj2 (proj2 (rolling_needs_freq_and_years s 0%nat a)
                          s1 2%nat (Samples.frame_at s1 2%nat) 5 _ _ _)) _ _).
  - vm_compute. reflexivity.
  - vm_compute. reflexivity.
  - vm_compute. reflexivity.
  - reflexivity.
  - vm_compute. split; discriminate.
Defined.

(** ** C8: empty data *)

Lemma entered_config (e : Engine) (a : Args) :
  mode (fst (entered e a)) = mode e
  /\ start_month (fst (entered e a)) = start_month e
  /\ cumul (fst (entered e a)) = cumul e
  /\ focus_year (fst (entered e a)) = focus_year e
  /\ title (fst (entered e a)) = title e
  /\ series_list (fst (entered e a)) = series_list e.
Proof.
  unfold entered. destruct (String.eqb _ _ && is_some _); simpl; tauto.
Qed.

Lemma prepared_nil (e : Engine) (a : Args) (df0 : Frame) :
  selected a df0 = [] ->
  prepared e a df0
  = match start_month e with
    | None => inr []
    | Some _ => inl TypeError
    end.
Proof.
  intros E. unfold prepared. rewrite E.
  destruct (start_month e) as [sm|]; simpl; [reflexivity|].
  unfold accumulated, resampled.
  destruct (freq_is (e_freq e) "W"); [|destruct (freq_is (e_freq e) "ME")];
    destruct (cumul e && is_annual_or_statistics (mode e)); reflexivity.
Qed.

Lemma prepared_outside_window (e : Engine) (a : Args) (df0 : Frame) (sm : Z)
      (w : Timestamp * Timestamp) :
  start_month e = Some sm ->
  fiscal_window sm (calendar_columns (gap_fill (selected a df0))) = inr w ->
  restrict_window (fst w) (snd w) (calendar_columns (gap_fill (selected a df0))) = [] ->
  prepared e a df0 = inr [].
Proof.
  intros Hs Hw Hr. unfold prepared, normalized. rewrite Hs, Hw.
  unfold fiscal_columns. rewrite Hr. simpl.
  unfold accumulated, resampled.
  destruct (freq_is (e_freq e) "W"); [|destruct (freq_is (e_freq e) "ME")];
    destruct (cumul e && is_annual_or_statistics (mode e)); reflexivity.
Qed.

Lemma py_index_nil {A} (i : Z) : py_index (@nil A) i = None.
Proof.
  unfold py_index.
  destruct ((0 <=? i) && _); [now destruct (Z.to_nat i)|].
  destruct ((i <? 0) && _); [|reflexivity].
  now destruct (Z.to_nat _).
Qed.

Lemma rolling_nil (freq : option string) (w : Z) : rolling freq w [] = inl IndexError.
Proof.
  unfold rolling. change (unique_years []) with (@nil Z).
  now rewrite py_index_nil.
Qed.

(** C8, as the specification states it, fails: on a DataFrame without rows
    the historical engine of the calendar year returns normally and appends a
    series whose table is empty. *)
Lemma empty_input_is_accepted :
  snd (add_series 0%nat (Samples.args None None)
         (Samples.caller (Samples.engine "historical" None None false) []))
  = inr tt
  /\ map s_df
       (series_list
          (self (fst (add_series 0%nat (Samples.args None None)
                        (Samples.caller (Samples.engine "historical" None None false) [])))))
     = [TRows []].
Proof. vm_compute. split; reflexivity. Qed.

Lemma outcome_of_prepared (e : Engine) (a : Args) (o : Obj) (df0 df : Frame) :
  as_frame o = inr df0 ->
  prepared (fst (entered e a)) a df0 = inr df ->
  outcome e a o
  = match finished (fst (entered e a)) a df with
    | inl x => (fst (entered e a), snd (entered e a), inl x)
    | inr e2 => (e2, snd (entered e a), inr tt)
    end.
Proof. intros Ho Hp. unfold outcome. now rewrite Ho, Hp. Qed.

Lemma finished_nil_historical (e : Engine) (a : Args) :
  a_rolling_window a = None ->
  mode e = "historical"%string ->
  exists e2, finished (fst (entered e a)) a [] = inr e2
             /\ series_list e2 = series_list e ++ [empty_series a].
Proof.
  intros Hr Hm. destruct e as [t xa ya xr lx ly m fy sm cu sl fr ln rw].
  simpl in Hm. subst m.
  unfold finished, rolled, entered, project, with_title, empty_series; simpl.
  rewrite Hr. simpl.
  destruct t; simpl; eexists; split; reflexivity.
Qed.

(** C8, amended.  [add_series] refuses no input as unusable (there is no
    DataError in the engine).  When no row is left after the year filter: with
    the calendar year and no rolling window the historical mode returns
    normally and appends a series with an empty table; with a custom start
    month [pd.Timestamp] fails on the missing year (TypeError); with a rolling
    window outside the statistics mode the index [unique_years[-rolling_window]]
    fails (IndexError).  When rows are left but none lies in the custom fiscal
    window, the historical mode without rolling window again returns normally
    with an empty table. *)
Theorem empty_data_is_not_refused
    (s : State) (l : loc) (a : Args) (o : Obj) (df0 : Frame) :
  nth_error (heap s) l = Some o ->
  as_frame o = inr df0 ->
  (selected a df0 = [] ->
     (start_month (self s) = None -> a_rolling_window a = None ->
      mode (self s) = "historical"%string ->
      snd (add_series l a s) = inr tt
      /\ series_list (self (fst (add_series l a s)))
         = series_list (self s) ++ [empty_series a])
     /\ (start_month (self s) <> None -> snd (add_series l a s) = inl TypeError)
     /\ (start_month (self s) = None -> a_rolling_window a <> None ->
         mode (self s) <> "statistics"%string ->
         snd (add_series l a s) = inl IndexError))
  /\ (forall sm w,
        start_month (self s) = Some sm ->
        fiscal_window sm (calendar_columns (gap_fill (selected a df0))) = inr w ->
        restrict_window (fst w) (snd w) (calendar_columns (gap_fill (selected a df0))) = [] ->
        a_rolling_window a = None ->
        mode (self s) = "historical"%string ->
        snd (add_series l a s) = inr tt
        /\ series_list (self (fst (add_series l a s)))
           = series_list (self s) ++ [empty_series a]).
Proof.
  intros Hl Ho.
  destruct (Refinement.add_series_run s l a o Hl) as (s' & R & S & _).
  rewrite R. simpl. rewrite S. clear R S s'.
  destruct (entered_config (self s) a) as (Em & Es & _).
  split.
  - intros Hsel.
    pose proof (prepared_nil (fst (entered (self s) a)) a df0 Hsel) as P.
    rewrite Es in P.
    split; [|split].
    + intros Hsm Hr Hm. rewrite Hsm in P.
      rewrite (outcome_of_prepared _ _ _ _ _ Ho P).
      destruct (finished_nil_historical (self s) a Hr Hm) as (e2 & F & L).
      rewrite F. simpl. now split.
    + intros Hsm. destruct (start_month (self s)); [|congruence].
      unfold outcome. now rewrite Ho, P.
    + intros Hsm Hr Hm. rewrite Hsm in P.
      rewrite (outcome_of_prepared _ _ _ _ _ Ho P).
      assert (F : finished (fst (entered (self s) a)) a [] = inl IndexError).
      { unfold finished, rolled, entered. simpl.
        destruct (String.eqb_spec (mode (self s)) "statistics"); [contradiction|].
        simpl. destruct (a_rolling_window a) as [w|]; [|congruence].
        now rewrite rolling_nil. }
      now rewrite F.
  - intros sm w Hsm Hw Hrw Hr Hm.
    assert (P : prepared (fst (entered (self s) a)) a df0 = inr []).
    { eapply prepared_outside_window; [rewrite Es|..]; eassumption. }
    rewrite (outcome_of_prepared _ _ _ _ _ Ho P).
    destruct (finished_nil_historical (self s) a Hr Hm) as (e2 & F & L).
    rewrite F. simpl. now split.
Qed.

Lemma empty_data_is_not_refused_witness :
  snd (add_series 0%nat (Samples.args None None)
         (Samples.caller (Samples.engine "historical" None (Some 10) false)
                         [Samples.obs 2016 1 5 1]))
  = inr tt
  /\ series_list
       (self (fst (add_series 0%nat (Samples.args None None)
                     (Samples.caller (Samples.engine "historical" None (Some 10) false)
                                     [Samples.obs 2016 1 5 1]))))
     = [] ++ [empty_series (Samples.args None None)].
Proof.
  refine (proj2 (empty_data_is_not_refused
                   (Samples.caller (Samples.engine "historical" None (Some 10) false)
                                   [Samples.obs 2016 1 5 1])
                   0%nat (Samples.args None None)
                   (ObjRaw [Samples.obs 2016 1 5 1])
                   [plain_row (mkTs 2016 1 5) (Some 1%Q)] eq_refl eq_refl)
                10 (mkTs 2016 10 1, mkTs 2016 9 30) _ _ _ _ _);
    vm_compute; reflexivity.
Defined.

(** ** C3: the fiscal year of a date *)

(** C3.  With start month 10 the dates 2017-01-15 and 2016-10-05 both get
    fiscal year 2017 (here through a whole call of [add_series]).  In general
    every row of the normalized frame of a start month [sm] carries the calendar
    year of its date, decremented for a month before [sm] when [sm <= 6],
    incremented for a month from [sm] on when [sm > 6]. *)
Theorem fiscal_year_assignment :
  map (fun r => (time r, year r))
      (Samples.frame_at
         (fst (add_series 0%nat (Samples.args None None)
                 (Samples.caller (Samples.engine "historical" None (Some 10) false)
                                 Samples.two_dates)))
         3%nat)
  = [(mkTs 2016 10 5, 2017); (mkTs 2017 1 15, 2017)]
  /\ forall (sm : Z) (df an : Frame) (r : Row),
       normalized (Some sm) df = inr an ->
       In r an ->
       (sm <= 6 -> ts_month (time r) < sm -> year r = ts_year (time r) - 1)
       /\ (sm <= 6 -> sm <= ts_month (time r) -> year r = ts_year (time r))
       /\ (6 < sm -> sm <= ts_month (time r) -> year r = ts_year (time r) + 1)
       /\ (6 < sm -> ts_month (time r) < sm -> year r = ts_year (time r)).
Proof.
  split; [vm_compute; reflexivity|].
  intros sm df an r Hn Hr. unfold normalized in Hn.
  destruct (fiscal_window sm (calendar_columns df)) as [x|w]; [discriminate|].
  inversion Hn; subst an; clear Hn.
  apply fiscal_columns_in in Hr.
  destruct Hr as (r0 & H0 & Ht & _ & Hy & _).
  apply calendar_columns_in in H0.
  destruct H0 as (r1 & _ & Ht1 & _ & Hy1 & _).
  rewrite Hy, Ht. unfold shift_year, set_year. rewrite Ht1.
  destruct (Z.leb_spec sm 6); destruct (Z.ltb_spec (ts_month (time r1)) sm);
    try destruct (Z.leb_spec sm (ts_month (time r1)));
    simpl; rewrite Hy1; repeat split; intros; lia.
Qed.

Lemma fiscal_year_assignment_witness :
  year (mkRow (mkTs 2016 10 5) (Some 2%Q) 2017 1 1 1 0) = 2016 + 1.
Proof.
  pose (df := [plain_row (mkTs 2017 1 15) (Some 1%Q);
               plain_row (mkTs 2016 10 5) (Some 2%Q)]).
  refine (proj1 (proj2 (proj2
            (proj2 fiscal_year_assignment 10 df
               [mkRow (mkTs 2016 10 5) (Some 2%Q) 2017 1 1 1 0;
                mkRow (mkTs 2017 1 15) (Some 1%Q) 2017 2 1 4 0]
               (mkRow (mkTs 2016 10 5) (Some 2%Q) 2017 1 1 1 0) _ _))) _ _);
    vm_compute; first [reflexivity | discriminate | left; reflexivity].
Defined.

(** ** The calendar: date ranges and the day of the year *)

Lemma in_zrange (lo n x : Z) : In x (zrange lo n) <-> lo <= x < lo + n.
Proof.
  unfold zrange. rewrite in_map_iff. split.
  - intros (i & <- & Hi). apply in_seq in Hi. lia.
  - intros H. exists (Z.to_nat (x - lo)). split; [lia|].
    apply in_seq. lia.
Qed.

Lemma in_month_days (y m : Z) (t : Timestamp) :
  In t (month_days y m)
  <-> ts_year t = y /\ ts_month t = m
      /\ 1 <= ts_day t <= days_in_month (is_leap_year y) m.
Proof.
  unfold month_days. rewrite in_map_iff. split.
  - intros (d & <- & Hd). apply in_zrange in Hd. simpl. lia.
  - intros (Hy & Hm & Hd). exists (ts_day t). split.
    + destruct t; simpl in *; congruence.
    + apply in_zrange. lia.
Qed.

Lemma valid_date_spec (t : Timestamp) :
  valid_date t = true
  <-> 1 <= ts_month t <= 12
      /\ 1 <= ts_day t <= days_in_month (is_leap_year (ts_year t)) (ts_month t).
Proof.
  unfold valid_date. rewrite !andb_true_iff, !Z.leb_le. tauto.
Qed.

Lemma in_year_days (y : Z) (t : Timestamp) :
  In t (year_days y) <-> ts_year t = y /\ valid_date t = true.
Proof.
  unfold year_days. rewrite in_flat_map, valid_date_spec. split.
  - intros (m & Hm & Ht). apply in_zrange in Hm. apply in_month_days in Ht.
    destruct Ht as (Hy & Hmm & Hd). subst. lia.
  - intros (Hy & Hm & Hd). exists (ts_month t). split.
    + apply in_zrange. lia.
    + apply in_month_days. subst. tauto.
Qed.

Lemma in_date_range (y0 y1 : Z) (t : Timestamp) :
  In t (date_range y0 y1) <-> y0 <= ts_year t <= y1 /\ valid_date t = true.
Proof.
  unfold date_range. rewrite in_flat_map. split.
  - intros (y & Hy & Ht). apply in_zrange in Hy. apply in_year_days in Ht.
    destruct Ht as [-> Hv]. split; [lia|exact Hv].
  - intros (Hy & Hv). exists (ts_year t). split.
    + apply in_zrange. lia.
    + now apply in_year_days.
Qed.

Lemma ts_eqb_eq (a b : Timestamp) : ts_eqb a b = true <-> a = b.
Proof.
  unfold ts_eqb. rewrite !andb_true_iff, !Z.eqb_eq. split.
  - destruct a, b; simpl. intros [[-> ->] ->]. reflexivity.
  - intros ->. tauto.
Qed.

Lemma is_feb29_false (t : Timestamp) :
  is_feb29 t = false <-> ~ (ts_month t = 2 /\ ts_day t = 29).
Proof.
  unfold is_feb29. rewrite andb_false_iff, !Z.eqb_neq. lia.
Qed.

Ltac calendar_cases :=
  cbv beta iota zeta delta [days_before_month days_in_month] in *;
  repeat match goal with
         | |- context [?a <? ?b] => destruct (Z.ltb_spec a b)
         | |- context [?a <=? ?b] => destruct (Z.leb_spec a b)
         end;
  cbv beta iota delta [andb] in *.

(** A date that exists and is no February 29 gets a day of the year in 1..365. *)
Lemma adjusted_doy_range (t : Timestamp) :
  valid_date t = true -> is_feb29 t = false -> 1 <= adjusted_doy t <= 365.
Proof.
  rewrite valid_date_spec, is_feb29_false. unfold adjusted_doy, dayofyear.
  intros (Hm & Hd) Hf.
  assert (M : ts_month t = 1 \/ ts_month t = 2 \/ ts_month t = 3 \/ ts_month t = 4
              \/ ts_month t = 5 \/ ts_month t = 6 \/ ts_month t = 7 \/ ts_month t = 8
              \/ ts_month t = 9 \/ ts_month t = 10 \/ ts_month t = 11
              \/ ts_month t = 12) by lia.
  destruct (is_leap_year (ts_year t));
    repeat (destruct M as [M|M]); rewrite M in *; calendar_cases; lia.
Qed.

(** Every number in 1..365 is the day of the year of a date, in any year. *)
Lemma date_of_doy_spec (y d : Z) :
  1 <= d <= 365 ->
  ts_year (date_of_doy y d) = y
  /\ valid_date (date_of_doy y d) = true
  /\ is_feb29 (date_of_doy y d) = false
  /\ adjusted_doy (date_of_doy y d) = d.
Proof.
  intros Hd. split; [reflexivity|].
  rewrite valid_date_spec, is_feb29_false.
  unfold adjusted_doy, dayofyear, date_of_doy, month_of_doy.
  cbv beta iota delta [ts_year ts_month ts_day].
  repeat match goal with
         | |- context [d <=? ?k] => destruct (Z.leb_spec d k)
         end;
    destruct (is_leap_year y); calendar_cases; repeat split; lia.
Qed.

(** ** The calendar columns, row by row *)

Lemma calendar_columns_map (df : Frame) :
  calendar_columns df
  = map calendar_row (filter (fun r => negb (is_feb29 (time r))) df).
Proof.
  unfold calendar_columns, drop_feb29, calendar_row.
  rewrite !map_map.
  induction df as [|r t IH]; simpl; [reflexivity|].
  assert (T : time (leap_adjust (set_year_doy r)) = time r).
  { unfold leap_adjust, set_year_doy. now destruct (_ && _). }
  rewrite T. destruct (negb (is_feb29 (time r))); simpl; now rewrite IH.
Qed.

Lemma calendar_row_spec (r : Row) :
  time (calendar_row r) = time r
  /\ value (calendar_row r) = value r
  /\ year (calendar_row r) = ts_year (time r)
  /\ doy (calendar_row r) = adjusted_doy (time r)
  /\ week_num (calendar_row r) = Z.min 52 ((adjusted_doy (time r) - 1) / 7 + 1)
  /\ month_num (calendar_row r) = ts_month (time r).
Proof.
  destruct r as [t v y d w m mr].
  unfold calendar_row, assign_month, clamp_week, assign_week, leap_adjust,
    set_year_doy, adjusted_doy, set_doy, set_year, set_week_num, set_month_num.
  cbn [time value year doy week_num month_num month_real].
  destruct (is_leap_year (ts_year t) && (59 <? dayofyear t));
    cbn [time value year doy week_num month_num month_real];
    match goal with
    | |- context [52 <? ?w] => destruct (Z.ltb_spec 52 w)
    end; cbn [time value year doy week_num month_num month_real];
    repeat split; lia.
Qed.

Lemma in_calendar_columns (df : Frame) (r : Row) :
  In r (calendar_columns df)
  <-> exists r0, In r0 df /\ is_feb29 (time r0) = false /\ r = calendar_row r0.
Proof.
  rewrite calendar_columns_map, in_map_iff. split.
  - intros (r0 & <- & H). apply filter_In in H. destruct H as [H F].
    apply negb_true_iff in F. eauto.
  - intros (r0 & H & F & ->). exists r0. split; [reflexivity|].
    apply filter_In. split; [exact H|]. now apply negb_true_iff.
Qed.

(** ** Where the rows of each stage come from *)

Lemma in_groupby {A K} (eqb leb : K -> K -> bool) (key : A -> K) (l : list A)
      (g : K * list A) :
  In g (groupby eqb leb key l) ->
  snd g = filter (fun r => eqb (fst g) (key r)) l.
Proof.
  unfold groupby. rewrite in_map_iff. intros (k & <- & _). reflexivity.
Qed.

Lemma group_head_in {A K} (eqb leb : K -> K -> bool) (key : A -> K) (l : list A)
      (g : K * list A) (r : A) (rest : list A) :
  In g (groupby eqb leb key l) -> snd g = r :: rest ->
  In r l /\ eqb (fst g) (key r) = true.
Proof.
  intros H E. apply in_groupby in H. rewrite E in H.
  assert (I : In r (filter (fun r => eqb (fst g) (key r)) l))
    by (rewrite <- H; now left).
  now apply filter_In in I.
Qed.

Lemma resample_weekly_in (df : Frame) (r : Row) :
  In r (resample_weekly df) -> exists r0, In r0 df /\ time r = time r0.
Proof.
  unfold resample_weekly. rewrite in_flat_map. intros (g & Hg & Hr).
  destruct (snd g) as [|r0 rest] eqn:E; [destruct Hr|].
  destruct Hr as [<-|[]].
  destruct (group_head_in _ _ _ _ _ _ _ Hg E) as [H _]. eauto.
Qed.

Lemma resample_monthly_in (df : Frame) (r : Row) :
  In r (resample_monthly df) -> exists r0, In r0 df /\ time r = time r0.
Proof.
  unfold resample_monthly. rewrite in_flat_map. intros (g & Hg & Hr).
  destruct (snd g) as [|r0 rest] eqn:E; [destruct Hr|].
  destruct Hr as [<-|[]].
  destruct (group_head_in _ _ _ _ _ _ _ Hg E) as [H _]. eauto.
Qed.

Lemma cumulate_year_in (c : Col) (df : Frame) (y : Z) (r : Row) :
  In r (cumulate_year c df y) -> exists r0, In r0 df /\ time r = time r0.
Proof.
  unfold cumulate_year. rewrite in_map_iff. intros (p & <- & Hp).
  destruct p as [i r0]. apply in_combine_r in Hp. exists r0. split; [exact Hp|].
  simpl. now destruct (find _ _).
Qed.

Lemma cumulate_in (c : Col) (df : Frame) (r : Row) :
  In r (cumulate c df) -> exists r0, In r0 df /\ time r = time r0.
Proof.
  unfold cumulate. generalize (unique Z.eqb (map year df)) as ys.
  intros ys. revert df r. induction ys as [|y ys IH]; simpl; intros df r H.
  - eauto.
  - apply IH in H. destruct H as (r1 & H1 & E1).
    apply cumulate_year_in in H1. destruct H1 as (r0 & H0 & E0).
    exists r0. split; [exact H0|congruence].
Qed.

Lemma window_frame_in (c : Col) (start w : Z) (df : Frame) (r : Row) :
  In r (window_frame c start w df) ->
  exists r0, In r0 df /\ time r = time r0.
Proof.
  unfold window_frame. rewrite in_flat_map. intros (g & Hg & Hr).
  destruct (snd g) as [|r0 rest] eqn:E; [destruct Hr|].
  destruct Hr as [<-|[]].
  destruct (group_head_in _ _ _ _ _ _ _ Hg E) as [H _].
  apply filter_In in H. exists r0. split; [tauto|].
  now destruct c.
Qed.

Lemma rolling_loop_in (freq : option string) (w ms : Z) (df : Frame)
      (years : list Z) (out res : list Frame) (f : Frame) :
  rolling_loop freq w ms df years out = inr res ->
  In f res ->
  In f out \/ exists c y, rolling_col freq = Some c /\ In y years /\ y <= ms
                          /\ f = window_frame c y w df.
Proof.
  revert out. induction years as [|y ys IH]; simpl; intros out H Hf.
  - inversion H; subst. now left.
  - destruct (Z.ltb_spec ms y).
    + inversion H; subst. now left.
    + destruct (rolling_col freq) as [c|] eqn:C; [|discriminate].
      destruct (IH _ H Hf) as [Ho|(c' & y' & Hc & Hy & Hle & ->)].
      * apply in_app_or in Ho. destruct Ho as [Ho|[<-|[]]]; [now left|].
        right. exists c, y. repeat split; auto.
      * right. exists c', y'. repeat split; auto.
Qed.

Lemma rolling_in (freq : option string) (w : Z) (df out : Frame) (r : Row) :
  rolling freq w df = inr out -> In r out ->
  exists r0, In r0 df /\ time r = time r0.
Proof.
  unfold rolling.
  destruct (py_index (unique_years df) (- w)) as [ms|]; [|discriminate].
  destruct (rolling_loop freq w ms df (unique_years df) []) as [x|res] eqn:L;
    [discriminate|].
  destruct res as [|f0 fs]; [discriminate|].
  intros H Hr. injection H as <-.
  change (In r (List.concat (f0 :: fs))) in Hr.
  apply in_concat in Hr. destruct Hr as (f & Hf & Hr).
  destruct (rolling_loop_in _ _ _ _ _ _ _ _ L Hf) as [[]|(c & y & _ & _ & _ & ->)].
  eapply window_frame_in; eassumption.
Qed.

Lemma normalized_in (sm : option Z) (df an : Frame) (r : Row) :
  normalized sm df = inr an -> In r an ->
  exists r0, In r0 (calendar_columns df) /\ time r = time r0.
Proof.
  unfold normalized. destruct sm as [m|].
  - destruct (fiscal_window m (calendar_columns df)) as [x|w]; [discriminate|].
    intros H Hr. injection H as <-.
    apply fiscal_columns_in in Hr. destruct Hr as (r0 & H0 & E & _). eauto.
  - intros H Hr. injection H as <-. eauto.
Qed.

Lemma resampled_in (freq : option string) (sm : option Z) (an : Frame) (r : Row) :
  In r (resampled freq sm an) -> exists r0, In r0 an /\ time r = time r0.
Proof.
  unfold resampled.
  assert (B : forall r,
             In r (if freq_is freq "W" then resample_weekly an
                   else if freq_is freq "ME" then resample_monthly an else an) ->
             exists r0, In r0 an /\ time r = time r0).
  { intros r1. destruct (freq_is freq "W"); [apply resample_weekly_in|].
    destruct (freq_is freq "ME"); [apply resample_monthly_in|]. eauto. }
  destruct sm; [|apply B].
  rewrite in_map_iff. intros (r1 & <- & H1). apply B in H1.
  destruct H1 as (r0 & H0 & E). exists r0. split; [exact H0|exact E].
Qed.

Lemma accumulated_in (e : Engine) (df : Frame) (r : Row) :
  In r (accumulated e df) -> exists r0, In r0 df /\ time r = time r0.
Proof.
  unfold accumulated. destruct (cumul e && _); [apply cumulate_in|eauto].
Qed.

Lemma prepared_in (e : Engine) (a : Args) (df0 df : Frame) (r : Row) :
  prepared e a df0 = inr df -> In r df ->
  exists r0, In r0 (calendar_columns (gap_fill (selected a df0)))
             /\ time r = time r0.
Proof.
  unfold prepared.
  destruct (normalized (start_month e) (gap_fill (selected a df0))) as [x|an] eqn:N;
    [discriminate|].
  intros H Hr. injection H as <-.
  apply accumulated_in in Hr. destruct Hr as (r1 & H1 & E1).
  apply resampled_in in H1. destruct H1 as (r2 & H2 & E2).
  destruct (normalized_in _ _ _ _ N H2) as (r3 & H3 & E3).
  exists r3. split; [exact H3|congruence].
Qed.

(** ** Day numbers under a custom start month *)

Lemma filter_insert_sorted_length {A} (leb : A -> A -> bool) (p : A -> bool)
      (a : A) (l : list A) :
  List.length (filter p (insert_sorted leb a l)) = List.length (filter p (a :: l)).
Proof.
  induction l as [|x t IH]; [reflexivity|].
  simpl. destruct (leb a x); [reflexivity|].
  simpl in *. destruct (p x), (p a); simpl in *; lia.
Qed.

Lemma filter_sort_length {A} (leb : A -> A -> bool) (p : A -> bool) (l : list A) :
  List.length (filter p (sort leb l)) = List.length (filter p l).
Proof.
  induction l as [|x t IH]; [reflexivity|].
  unfold sort in *. simpl fold_right. rewrite filter_insert_sorted_length.
  simpl. destruct (p x); simpl; now rewrite IH.
Qed.

Lemma zrange_succ (lo : Z) (n : nat) :
  zrange lo (Z.of_nat (S n)) = lo :: zrange (lo + 1) (Z.of_nat n).
Proof.
  unfold zrange. rewrite !Nat2Z.id. cbn [seq map]. f_equal; [lia|].
  rewrite <- seq_shift, map_map. apply map_ext. intros i. lia.
Qed.

Lemma renumber_doy_years (seen : list Z) (df : Frame) (y : Z) :
  map doy (filter (fun r => year r =? y) (renumber_doy seen df))
  = zrange (Z.of_nat (List.length (filter (Z.eqb y) seen)) + 1)
           (Z.of_nat (List.length (filter (fun r => year r =? y) df))).
Proof.
  revert seen. induction df as [|r t IH]; intros seen; [reflexivity|].
  cbn [renumber_doy filter].
  change (year (set_doy r (Z.of_nat (List.length (filter (Z.eqb (year r)) seen)) + 1)))
    with (year r).
  destruct (Z.eqb_spec (year r) y) as [E|E].
  - cbn [map List.length]. rewrite zrange_succ, IH. subst y.
    cbn [filter]. rewrite Z.eqb_refl. cbn [List.length doy set_doy].
    f_equal. f_equal. lia.
  - rewrite IH. cbn [filter].
    destruct (Z.eqb_spec y (year r)); [congruence|]. reflexivity.
Qed.

Lemma in_zrange_nat (lo : Z) (n : nat) (x : Z) :
  In x (zrange lo (Z.of_nat n)) <-> lo <= x < lo + Z.of_nat n.
Proof. apply in_zrange. Qed.

(** Under a custom start month, a fiscal year of [n] rows carries the day
    numbers 1..n. *)
Lemma fiscal_columns_doys (sm : Z) (w : Timestamp * Timestamp) (df : Frame) (y d : Z) :
  (exists r, In r (fiscal_columns sm w df) /\ year r = y /\ doy r = d)
  <-> 1 <= d <= Z.of_nat (List.length (filter (fun r => year r =? y)
                                              (fiscal_columns sm w df))).
Proof.
  unfold fiscal_columns.
  set (X := sort_values key2_leb (fun r => (month_num r, doy r))
              (map (shift_year sm)
                 (map (rotate_month sm) (restrict_window (fst w) (snd w) df)))).
  set (W := map clamp_week (map assign_week (renumber_doy [] X))).
  unfold sort_values. rewrite filter_sort_length.
  assert (F : map doy (filter (fun r => year r =? y) W)
              = zrange 1 (Z.of_nat (List.length (filter (fun r => year r =? y) X)))).
  { transitivity (map doy (filter (fun r => year r =? y) (renumber_doy [] X)));
      [|exact (renumber_doy_years [] X y)].
    unfold W. generalize (renumber_doy [] X) as l. intros l.
    induction l as [|r t IH]; [reflexivity|].
    cbn [map filter].
    assert (Y : year (clamp_week (assign_week r)) = year r).
    { unfold clamp_week, assign_week. now destruct (52 <? _). }
    assert (D : doy (clamp_week (assign_week r)) = doy r).
    { unfold clamp_week, assign_week. now destruct (52 <? _). }
    rewrite Y. destruct (year r =? y); cbn [map]; rewrite ?D, IH; reflexivity. }
  assert (L : List.length (filter (fun r => year r =? y) W)
              = List.length (filter (fun r => year r =? y) X)).
  { rewrite <- (length_map doy), F. unfold zrange.
    now rewrite length_map, length_seq, Nat2Z.id. }
  rewrite L.
  assert (Z : In d (map doy (filter (fun r => year r =? y) W))
              <-> 1 <= d <= Z.of_nat (List.length (filter (fun r => year r =? y) X))).
  { rewrite F, in_zrange. lia. }
  rewrite <- Z, in_map_iff. split.
  - intros (r & Hr & Hy & Hd). apply in_sort in Hr. exists r. split; [exact Hd|].
    apply filter_In. split; [exact Hr|]. now apply Z.eqb_eq.
  - intros (r & Hd & Hr). apply filter_In in Hr. destruct Hr as [Hr Hy].
    exists r. split; [now apply in_sort|]. split; [now apply Z.eqb_eq|exact Hd].
Qed.

(** ** C2: 365 day slots, no February 29 *)

(** C2, as the specification states it, fails: a year observed on one day
    only is present in the normalized output with a single day-of-year value,
    not 365. *)
Lemma one_observation_one_day :
  map (fun r => (year r, doy r))
      (Samples.frame_at
         (fst (add_series 0%nat (Samples.args None None)
                 (Samples.caller (Samples.engine "historical" None None false)
                                 [Samples.obs 2001 3 5 1])))
         2%nat)
  = [(2001, 64)].
Proof. vm_compute. reflexivity. Qed.

(** C2, amended.  No row [add_series] emits is a February 29.  Under the
    calendar year, the day of year of a row is the Gregorian one, decremented
    by 1 after February 28 of a leap year, and lies in 1..365; a year of which
    every day (February 29 apart) is in the frame has all 365 values, a year
    observed in part has only those of its observed days.  Under a custom
    start month, a fiscal year of [n] rows has exactly the values 1..n. *)
Theorem day_of_year_slots :
  (forall (e : Engine) (a : Args) (df0 df out : Frame) (r : Row),
      prepared e a df0 = inr df -> rolled e df = inr out -> In r out ->
      is_feb29 (time r) = false)
  /\ (forall (df : Frame) (r : Row),
         In r (calendar_columns df) -> valid_date (time r) = true ->
         doy r = adjusted_doy (time r) /\ 1 <= doy r <= 365)
  /\ (forall (df : Frame) (y : Z),
         (forall t, ts_year t = y -> valid_date t = true -> is_feb29 t = false ->
                    In t (map time df)) ->
         forall d, 1 <= d <= 365 ->
                   exists r, In r (calendar_columns df) /\ year r = y /\ doy r = d)
  /\ (forall (sm : Z) (w : Timestamp * Timestamp) (df : Frame) (y d : Z),
         (exists r, In r (fiscal_columns sm w df) /\ year r = y /\ doy r = d)
         <-> 1 <= d <= Z.of_nat (List.length (rows_of_year y (fiscal_columns sm w df)))).
Proof.
  split; [|split; [|split]].
  - intros e a df0 df out r P Ro Hr.
    assert (exists r1, In r1 df /\ time r = time r1) as (r1 & H1 & E1).
    { unfold rolled in Ro. destruct (e_rolling_window e) as [w|].
      - eapply rolling_in; eassumption.
      - injection Ro as <-. eauto. }
    destruct (prepared_in _ _ _ _ _ P H1) as (r2 & H2 & E2).
    apply calendar_columns_in in H2. destruct H2 as (r3 & _ & E3 & _ & _ & F).
    congruence.
  - intros df r Hr Hv. apply in_calendar_columns in Hr.
    destruct Hr as (r0 & _ & F & ->).
    destruct (calendar_row_spec r0) as (Et & _ & _ & Ed & _).
    rewrite Et in *. rewrite Ed. split; [reflexivity|].
    now apply adjusted_doy_range.
  - intros df y Hall d Hd.
    destruct (date_of_doy_spec y d Hd) as (Ey & Hv & Hf & Ea).
    specialize (Hall _ Ey Hv Hf). apply in_map_iff in Hall.
    destruct Hall as (r0 & Et & H0).
    exists (calendar_row r0).
    destruct (calendar_row_spec r0) as (_ & _ & Eyr & Ed & _).
    rewrite Eyr, Ed, Et. split; [|split; assumption].
    apply in_calendar_columns. exists r0. rewrite Et. auto.
  - intros sm w df y d. apply fiscal_columns_doys.
Qed.

Lemma day_of_year_slots_witness :
  doy (mkRow (mkTs 2004 3 1) (Some 1%Q) 2004 60 9 3 0)
  = adjusted_doy (time (mkRow (mkTs 2004 3 1) (Some 1%Q) 2004 60 9 3 0))
  /\ 1 <= doy (mkRow (mkTs 2004 3 1) (Some 1%Q) 2004 60 9 3 0) <= 365.
Proof.
  refine (proj1 (proj2 day_of_year_slots)
            [plain_row (mkTs 2004 2 29) (Some 5%Q); plain_row (mkTs 2004 3 1) (Some 1%Q)]
            (mkRow (mkTs 2004 3 1) (Some 1%Q) 2004 60 9 3 0) _ _);
    vm_compute; first [reflexivity | left; reflexivity].
Defined.

(** ** The frame after gap filling *)

Lemma zmin_zmax_bounds (l : list Z) (y x : Z) :
  In x (y :: l) -> zmin y l <= x <= zmax y l.
Proof.
  unfold zmin, zmax. revert y. induction l as [|z t IH]; intros y H.
  - destruct H as [H|[]]. simpl. lia.
  - assert (M : forall a, fold_left Z.min t a <= a).
    { clear. induction t as [|u t IH]; intros a; simpl; [lia|].
      specialize (IH (Z.min a u)). lia. }
    assert (N : forall a, a <= fold_left Z.max t a).
    { clear. induction t as [|u t IH]; intros a; simpl; [lia|].
      specialize (IH (Z.max a u)). lia. }
    simpl. destruct H as [H|[H|H]].
    + specialize (M (Z.min y z)). specialize (N (Z.max y z)). lia.
    + specialize (M (Z.min y z)). specialize (N (Z.max y z)). lia.
    + pose proof (IH (Z.min y z) (or_intror H)) as I1.
      pose proof (IH (Z.max y z) (or_intror H)) as I2. lia.
Qed.

Lemma interpolate_from_length (prev : option (nat * Q)) (l : list (option Q)) :
  List.length (interpolate_from prev l) = List.length l.
Proof.
  revert prev. induction l as [|[v|] t IH]; intros prev; simpl.
  - reflexivity.
  - now rewrite IH.
  - destruct prev as [[i a]|]; simpl; now rewrite IH.
Qed.

Lemma set_values_time (df : Frame) (vs : list (option Q)) :
  List.length vs = List.length df ->
  map time (set_values df vs) = map time df.
Proof.
  unfold set_values. revert vs. induction df as [|r t IH]; intros [|v vs] H;
    simpl in *; try discriminate; [reflexivity|].
  f_equal. apply IH. congruence.
Qed.

Lemma interpolate_frame_time (df : Frame) :
  map time (interpolate_frame df) = map time df.
Proof.
  unfold interpolate_frame, interpolate. apply set_values_time.
  now rewrite interpolate_from_length, length_map.
Qed.

Lemma in_join_on_time (dates : list Timestamp) (df : Frame) (t : Timestamp) :
  In t (map time (join_on dates df)) <-> In t dates.
Proof.
  unfold join_on. rewrite in_map_iff. split.
  - intros (r & <- & H). apply in_flat_map in H. destruct H as (d & Hd & Hr).
    destruct (filter (fun r => ts_eqb d (time r)) df) as [|m ms] eqn:F.
    + destruct Hr as [<-|[]]. exact Hd.
    + rewrite <- F in Hr. apply filter_In in Hr. destruct Hr as [_ E].
      apply ts_eqb_eq in E. now subst.
  - intros Hd.
    destruct (filter (fun r => ts_eqb t (time r)) df) as [|m ms] eqn:F.
    + exists (plain_row t None). split; [reflexivity|].
      apply in_flat_map. exists t. split; [exact Hd|]. rewrite F. now left.
    + assert (I : In m (filter (fun r => ts_eqb t (time r)) df))
        by (rewrite F; now left).
      exists m. split.
      * apply filter_In in I. destruct I as [_ E]. apply ts_eqb_eq in E. now subst.
      * apply in_flat_map. exists t. split; [exact Hd|]. rewrite F. now left.
Qed.

(** With a complete year, the frame holds exactly the days from January 1 of
    the first complete year to December 31 of the last. *)
Lemma gap_fill_dates (df : Frame) (y : Z) (ys : list Z) (t : Timestamp) :
  complete_years df = y :: ys ->
  (In t (map time (gap_fill df))
   <-> zmin y ys <= ts_year t <= zmax y ys /\ valid_date t = true).
Proof.
  intros E. unfold gap_fill. rewrite E.
  now rewrite interpolate_frame_time, in_join_on_time, in_date_range.
Qed.

Lemma complete_year_days (df : Frame) (y : Z) (t : Timestamp) :
  In y (complete_years df) ->
  ts_year t = y -> valid_date t = true -> In t (map time (gap_fill df)).
Proof.
  intros Hy Et Hv. destruct (complete_years df) as [|y0 ys] eqn:E; [destruct Hy|].
  apply (gap_fill_dates df y0 ys t E). split; [|exact Hv].
  rewrite Et. now apply zmin_zmax_bounds.
Qed.

Lemma gap_fill_valid (df : Frame) (y : Z) (r : Row) :
  In y (complete_years df) -> In r (gap_fill df) -> valid_date (time r) = true.
Proof.
  intros Hy Hr. destruct (complete_years df) as [|y0 ys] eqn:E; [destruct Hy|].
  apply (in_map time) in Hr. apply (gap_fill_dates df y0 ys _ E) in Hr. tauto.
Qed.

(** ** C5: the weeks of a complete year *)

Lemma week_of_day (d : Z) :
  1 <= d <= 365 ->
  1 <= Z.min 52 ((d - 1) / 7 + 1) <= 52
  /\ (Z.min 52 ((d - 1) / 7 + 1) = 52 <-> 358 <= d).
Proof. intros H. Z.div_mod_to_equations. lia. Qed.

Lemma first_day_of_week (k : Z) :
  1 <= k <= 52 ->
  1 <= 7 * (k - 1) + 1 <= 365 /\ Z.min 52 ((7 * (k - 1) + 1 - 1) / 7 + 1) = k.
Proof. intros H. Z.div_mod_to_equations. lia. Qed.

Lemma fiscal_columns_week (sm : Z) (w : Timestamp * Timestamp) (df : Frame) (r : Row) :
  In r (fiscal_columns sm w df) -> week_num r = Z.min 52 ((doy r - 1) / 7 + 1).
Proof.
  unfold fiscal_columns. intros H. apply in_sort_values in H.
  apply in_map_iff in H. destruct H as (r1 & <- & H).
  apply in_map_iff in H. destruct H as (r2 & <- & _).
  unfold clamp_week, assign_week, set_week_num.
  cbn [week_num doy].
  destruct (Z.ltb_spec 52 ((doy r2 - 1) / 7 + 1)); cbn [week_num doy]; lia.
Qed.

(** C5, as the specification states it, fails: 2001 is no leap year, and
    observed on January 1 and December 31 it is a complete year whose week 52
    holds the eight days 358..365. *)
Lemma week_52_of_2001 :
  is_leap_year 2001 = false
  /\ map doy
       (filter (fun r => week_num r =? 52)
          (Samples.frame_at
             (fst (add_series 0%nat (Samples.args None None)
                     (Samples.caller (Samples.engine "historical" None None false)
                                     [Samples.obs 2001 1 1 1; Samples.obs 2001 12 31 2])))
             3%nat))
     = [358; 359; 360; 361; 362; 363; 364; 365].
Proof. vm_compute. split; reflexivity. Qed.

(** C5, amended.  In every complete year, the week numbers of the normalized
    frame follow [week_num = min(52, floor((day_of_year - 1) / 7) + 1)] and
    range exactly over 1..52, and week 52 holds exactly the eight days
    358..365, in leap years and in the others.  The same rule gives the week
    of every row under a custom start month. *)
Theorem weeks_of_complete_year (df : Frame) (y : Z) :
  In y (complete_years df) ->
  (forall r, In r (calendar_columns (gap_fill df)) -> year r = y ->
             week_num r = Z.min 52 ((doy r - 1) / 7 + 1)
             /\ 1 <= week_num r <= 52
             /\ (week_num r = 52 <-> 358 <= doy r <= 365))
  /\ (forall k, 1 <= k <= 52 ->
                exists r, In r (calendar_columns (gap_fill df))
                          /\ year r = y /\ week_num r = k)
  /\ (forall d, 358 <= d <= 365 ->
                exists r, In r (calendar_columns (gap_fill df))
                          /\ year r = y /\ doy r = d /\ week_num r = 52)
  /\ (forall sm w df' r, In r (fiscal_columns sm w df') ->
                         week_num r = Z.min 52 ((doy r - 1) / 7 + 1)).
Proof.
  intros Hy.
  assert (Ex : forall d, 1 <= d <= 365 ->
             exists r, In r (calendar_columns (gap_fill df)) /\ year r = y
                       /\ doy r = d /\ week_num r = Z.min 52 ((d - 1) / 7 + 1)).
  { intros d Hd. destruct (date_of_doy_spec y d Hd) as (Ey & Hv & Hf & Ea).
    pose proof (complete_year_days df y _ Hy Ey Hv) as I.
    apply in_map_iff in I. destruct I as (r0 & Et & H0).
    exists (calendar_row r0).
    destruct (calendar_row_spec r0) as (_ & _ & Eyr & Ed & Ew & _).
    rewrite Eyr, Ed, Ew, Et, Ea. split; [|split; [exact Ey|split; reflexivity]].
    apply in_calendar_columns. exists r0. rewrite Et. auto. }
  split; [|split; [|split]].
  - intros r Hr Eyr. apply in_calendar_columns in Hr.
    destruct Hr as (r0 & H0 & F & ->).
    destruct (calendar_row_spec r0) as (_ & _ & _ & Ed & Ew & _).
    rewrite Ed, Ew.
    pose proof (adjusted_doy_range _ (gap_fill_valid df y r0 Hy H0) F) as R.
    destruct (week_of_day _ R) as (W1 & W2).
    split; [reflexivity|]. split; [exact W1|]. rewrite W2. lia.
  - intros k Hk. destruct (first_day_of_week k Hk) as (Hd & Ek).
    destruct (Ex _ Hd) as (r & Hr & Eyr & _ & Ew). exists r.
    repeat split; try assumption. now rewrite Ew.
  - intros d Hd. destruct (Ex d ltac:(lia)) as (r & Hr & Eyr & Ed & Ew).
    exists r. repeat split; try assumption. rewrite Ew.
    apply (week_of_day d); lia.
  - intros sm w df' r. apply fiscal_columns_week.
Qed.

Lemma weeks_of_complete_year_witness :
  In 2001 (complete_years [plain_row (mkTs 2001 1 1) (Some 1%Q);
                           plain_row (mkTs 2001 12 31) (Some 2%Q)])
  /\ exists r,
       In r (calendar_columns
               (gap_fill [plain_row (mkTs 2001 1 1) (Some 1%Q);
                          plain_row (mkTs 2001 12 31) (Some 2%Q)]))
       /\ year r = 2001 /\ doy r = 365 /\ week_num r = 52.
Proof.
  assert (H : In 2001 (complete_years [plain_row (mkTs 2001 1 1) (Some 1%Q);
                                       plain_row (mkTs 2001 12 31) (Some 2%Q)]))
    by (vm_compute; left; reflexivity).
  split; [exact H|].
  refine (proj1 (proj2 (proj2 (weeks_of_complete_year _ 2001 H))) 365 _).
  vm_compute. split; discriminate.
Defined.

(** ** C1: gap filling *)

Lemma interpolate_from_single_gap (prev : option (nat * Q))
      (pre post : list (option Q)) (a b : Q) :
  exists v,
    nth_error (interpolate_from prev (pre ++ Some a :: None :: Some b :: post))
              (S (List.length pre)) = Some (Some v)
    /\ (v == (a + b) / 2)%Q
    /\ nth_error (interpolate_from prev (pre ++ Some a :: None :: Some b :: post))
                 (List.length pre) = Some (Some a)
    /\ nth_error (interpolate_from prev (pre ++ Some a :: None :: Some b :: post))
                 (S (S (List.length pre))) = Some (Some b).
Proof.
  revert prev. induction pre as [|x pre IH]; intros prev.
  - cbn [app List.length interpolate_from next_valid nth_error Nat.add].
    eexists. split; [reflexivity|]. split; [|split; reflexivity].
    etransitivity; [apply Qred_correct|].
    change (inject_Z (Z.of_nat 1)) with 1%Q.
    change (inject_Z (Z.of_nat 2)) with 2%Q. field.
  - simpl. destruct x as [v|].
    + apply IH.
    + destruct prev as [[i c]|]; simpl; apply IH.
Qed.

Lemma nth_error_set_values (df : Frame) (vs : list (option Q)) (i : nat)
      (r : Row) (v : option Q) :
  nth_error df i = Some r -> nth_error vs i = Some v ->
  nth_error (set_values df vs) i = Some (set_value r v).
Proof.
  unfold set_values. revert vs i.
  induction df as [|x t IH]; intros [|u vs] [|i]; simpl; try discriminate.
  - intros H1 H2. injection H1 as <-. injection H2 as <-. reflexivity.
  - apply IH.
Qed.

Lemma set_value_same (r : Row) : set_value r (value r) = r.
Proof. now destruct r. Qed.

(** C1, as the specification states it, fails.  1999 and 2001 are observed
    on one day only, 2001 without a value; 2000 and 2002 are complete.  In the
    table [add_series] stores, 2001, which lies between the complete years,
    has 365 rows and its missing value of June 15 has been filled by
    interpolation, and 1999, which lies before them, has no row left. *)
Lemma incomplete_year_is_filled :
  complete_years (Samples.frame_at
                    (fst (add_series 0%nat (Samples.args None None)
                            (Samples.caller
                               (Samples.engine "historical" None None false)
                               Samples.sandwich)))
                    1%nat)
  = [2000; 2002]
  /\ List.length
       (rows_of_year 2001
          (Samples.frame_at
             (fst (add_series 0%nat (Samples.args None None)
                     (Samples.caller
                        (Samples.engine "historical" None None false)
                        Samples.sandwich)))
             3%nat))
     = 365%nat
  /\ map value
       (filter (fun r => ts_eqb (time r) (mkTs 2001 6 15))
          (Samples.frame_at
             (fst (add_series 0%nat (Samples.args None None)
                     (Samples.caller
                        (Samples.engine "historical" None None false)
                        Samples.sandwich)))
             3%nat))
     = [Some (449 # 183)]
  /\ rows_of_year 1999
       (Samples.frame_at
          (fst (add_series 0%nat (Samples.args None None)
                  (Samples.caller
                     (Samples.engine "historical" None None false)
                     Samples.sandwich)))
          3%nat)
     = [].
Proof. vm_compute. repeat split; reflexivity. Qed.

(** C1, amended.  With no complete year the frame passes through gap filling
    unmodified.  With complete years, the frame becomes the daily index from
    January 1 of the first complete year to December 31 of the last: observed
    days outside it are dropped, and every day of it has a row, whether its
    year is complete or not.  In that index a missing value between two
    non-null neighbours receives their linear interpolation, the midpoint, and
    the neighbours keep their values. *)
Theorem gap_filling :
  (forall df, complete_years df = [] -> gap_fill df = df)
  /\ (forall df y ys t,
         complete_years df = y :: ys ->
         (In t (map time (gap_fill df))
          <-> zmin y ys <= ts_year t <= zmax y ys /\ valid_date t = true))
  /\ (forall df y ys pre post r1 r2 r3 a b,
         complete_years df = y :: ys ->
         join_on (date_range (zmin y ys) (zmax y ys)) df
         = pre ++ r1 :: r2 :: r3 :: post ->
         value r1 = Some a -> value r2 = None -> value r3 = Some b ->
         exists v,
           nth_error (gap_fill df) (S (List.length pre)) = Some (set_value r2 (Some v))
           /\ (v == (a + b) / 2)%Q
           /\ nth_error (gap_fill df) (List.length pre) = Some r1
           /\ nth_error (gap_fill df) (S (S (List.length pre))) = Some r3).
Proof.
  split; [|split].
  - intros df E. unfold gap_fill. now rewrite E.
  - intros df y ys t E. now apply gap_fill_dates.
  - intros df y ys pre post r1 r2 r3 a b E J V1 V2 V3.
    unfold gap_fill. rewrite E, J. unfold interpolate_frame, interpolate.
    rewrite map_app. cbn [map]. rewrite V1, V2, V3.
    destruct (interpolate_from_single_gap None (map value pre) (map value post) a b)
      as (v & N2 & Ev & N1 & N3).
    rewrite length_map in N1, N2, N3.
    assert (L : forall k x, nth_error (x :: r2 :: r3 :: post) k
                            = nth_error (pre ++ x :: r2 :: r3 :: post)
                                        (List.length pre + k)).
    { intros k x. rewrite nth_error_app2 by lia. f_equal. lia. }
    exists v. split; [|split; [exact Ev|split]].
    + rewrite (nth_error_set_values _ _ _ r2 (Some v)); [reflexivity| |exact N2].
      rewrite <- (Nat.add_1_r (List.length pre)), <- L. reflexivity.
    + rewrite (nth_error_set_values _ _ _ r1 (Some a)); [| |exact N1].
      * now rewrite <- V1, set_value_same.
      * replace (List.length pre) with (List.length pre + 0)%nat by lia.
        rewrite <- L. reflexivity.
    + rewrite (nth_error_set_values _ _ _ r3 (Some b)); [| |exact N3].
      * now rewrite <- V3, set_value_same.
      * replace (S (S (List.length pre))) with (List.length pre + 2)%nat by lia.
        rewrite <- L. reflexivity.
Qed.

Lemma gap_filling_witness :
  exists v,
    nth_error (gap_fill Samples.one_gap) 2%nat
    = Some (set_value (plain_row (mkTs 2001 1 3) None) (Some v))
    /\ (v == (2 + 4) / 2)%Q
    /\ nth_error (gap_fill Samples.one_gap) 1%nat
       = Some (plain_row (mkTs 2001 1 2) (Some 2%Q))
    /\ nth_error (gap_fill Samples.one_gap) 3%nat
       = Some (plain_row (mkTs 2001 1 4) (Some 4%Q)).
Proof.
  refine (proj2 (proj2 gap_filling) Samples.one_gap 2001 []
            [plain_row (mkTs 2001 1 1) (Some 1%Q)]
            (skipn 4 (join_on (date_range 2001 2001) Samples.one_gap))
            (plain_row (mkTs 2001 1 2) (Some 2%Q))
            (plain_row (mkTs 2001 1 3) None)
            (plain_row (mkTs 2001 1 4) (Some 4%Q))
            2%Q 4%Q _ _ _ _ _);
    vm_compute; reflexivity.
Defined.

(** ** C6: the order of the statistics *)




















(** ** C4: the rolling windows *)

Section UniqueFacts.
Context {A : Type}.
Variable eqb : A -> A -> bool.
Hypothesis eqb_eq : forall a b, eqb a b = true <-> a = b.

Lemma unique_in (x : A) (l : list A) : In x (unique eqb l) <-> In x l.
Proof.
  split; [apply in_unique|].
  induction l as [|y t IH]; simpl; [tauto|].
  intros [->|H]; [now left|].
  destruct (eqb y x) eqn:E.
  - left. now apply eqb_eq.
  - right. apply filter_In. split; [now apply IH|]. now rewrite E.
Qed.

End UniqueFacts.

Lemma key2_eqb_eq (a b : Z * Z) : key2_eqb a b = true <-> a = b.
Proof.
  unfold key2_eqb. rewrite andb_true_iff, !Z.eqb_eq.
  destruct a, b; simpl. split; [intros [-> ->]; reflexivity|].
  intros H; injection H; auto.
Qed.

Lemma in_group_keys {A K} (eqb leb : K -> K -> bool) (key : A -> K) (l : list A) (k : K) :
  (forall a b, eqb a b = true <-> a = b) ->
  (In k (group_keys eqb leb key l) <-> exists x, In x l /\ key x = k).
Proof.
  intros R. unfold group_keys. rewrite in_sort, (unique_in eqb R), in_map_iff.
  split; intros (x & H1 & H2); exists x; tauto.
Qed.

Lemma increasing_filter (p : Z -> bool) (l : list Z) :
  increasing l -> increasing (filter p l).
Proof.
  induction l as [|x t IH]; simpl; [tauto|]. intros [Hx Ht].
  destruct (p x); simpl; [|now apply IH].
  split; [|now apply IH]. intros y Hy. apply filter_In in Hy. now apply Hx.
Qed.

Lemma unique_increasing (l : list Z) :
  ascending Z.leb l -> increasing (unique Z.eqb l).
Proof.
  induction l as [|x t IH]; simpl; [tauto|]. intros [Hx Ht]. split.
  - intros y Hy. apply filter_In in Hy. destruct Hy as [Hy Ne].
    apply in_unique in Hy. apply Hx in Hy. apply Z.leb_le in Hy.
    apply negb_true_iff, Z.eqb_neq in Ne. lia.
  - apply increasing_filter. now apply IH.
Qed.


Lemma nodup_unique (l : list Z) : NoDup (unique Z.eqb l).
Proof.
  induction l as [|x t IH]; simpl; constructor.
  - intros H. apply filter_In in H. destruct H as [_ H].
    now rewrite Z.eqb_refl in H.
  - now apply NoDup_filter.
Qed.

Lemma nodup_insert_sorted {A} (leb : A -> A -> bool) (a : A) (l : list A) :
  NoDup (a :: l) -> NoDup (insert_sorted leb a l).
Proof.
  induction l as [|x t IH]; simpl; intros H; [exact H|].
  destruct (leb a x); [exact H|].
  inversion H as [|? ? Ha Hl]; subst. inversion Hl as [|? ? Hx Ht]; subst.
  constructor.
  - intros I. apply in_insert_sorted in I. destruct I as [->|I]; [|contradiction].
    apply Ha. now left.
  - apply IH. constructor; [|exact Ht]. intros I. apply Ha. now right.
Qed.

Lemma nodup_sort {A} (leb : A -> A -> bool) (l : list A) :
  NoDup l -> NoDup (sort leb l).
Proof.
  induction l as [|x t IH]; simpl; intros H; [constructor|].
  inversion H; subst. apply nodup_insert_sorted. constructor.
  - now rewrite in_sort.
  - now apply IH.
Qed.

Lemma ascending_nodup_increasing (l : list Z) :
  ascending Z.leb l -> NoDup l -> increasing l.
Proof.
  induction l as [|x t IH]; simpl; [tauto|]. intros [Hx Ht] N.
  inversion N; subst. split; [|now apply IH].
  intros y Hy. pose proof (Hx y Hy) as L. apply Z.leb_le in L.
  assert (x <> y) by (intros ->; contradiction). lia.
Qed.

Lemma unique_years_increasing (df : Frame) : increasing (unique_years df).
Proof.
  unfold unique_years, group_keys. apply ascending_nodup_increasing.
  - apply ascending_sort; [apply Zleb_total|apply Zleb_trans].
  - apply nodup_sort, nodup_unique.
Qed.

Lemma in_unique_years (df : Frame) (y : Z) :
  In y (unique_years df) <-> exists r, In r df /\ year r = y.
Proof. apply in_group_keys. apply Z.eqb_eq. Qed.


(** ** The rows of a window *)




Lemma key2_leb_total (a b : Z * Z) : key2_leb a b = true \/ key2_leb b a = true.
Proof.
  unfold key2_leb.
  destruct (Z.ltb_spec (fst a) (fst b)); [now left|].
  destruct (Z.ltb_spec (fst b) (fst a)); [now right|].
  assert (E : fst a = fst b) by lia. rewrite E, Z.eqb_refl. simpl.
  destruct (Z.leb_spec (snd a) (snd b)); [now left|right].
  apply Z.leb_le. lia.
Qed.

Lemma key2_leb_le (a b : Z * Z) : key2_leb a b = true -> fst a <= fst b.
Proof.
  unfold key2_leb. rewrite orb_true_iff, andb_true_iff, Z.ltb_lt, Z.eqb_eq. lia.
Qed.

Lemma key2_leb_trans (a b c : Z * Z) :
  key2_leb a b = true -> key2_leb b c = true -> key2_leb a c = true.
Proof.
  unfold key2_leb.
  rewrite !orb_true_iff, !andb_true_iff, !Z.ltb_lt, !Z.eqb_eq, !Z.leb_le. lia.
Qed.

Lemma ascending_fst (l : list (Z * Z)) :
  ascending key2_leb l -> ascending Z.leb (map fst l).
Proof.
  induction l as [|x t IH]; simpl; [tauto|]. intros [Hx Ht]. split; [|now apply IH].
  intros y Hy. apply in_map_iff in Hy. destruct Hy as (k & <- & Hk).
  apply Z.leb_le, key2_leb_le. now apply Hx.
Qed.







(* ------------------------------------------------------------------ *)
(** * Further properties of the engine, the ticks and the figure *)

(** ** What a call leaves in the engine *)

Lemma with_title_series (e : Engine) : series_list (with_title e) = series_list e.
Proof. unfold with_title. now destruct (title e). Qed.

(** A call that returns has gone through every stage. *)
Lemma outcome_ok (e : Engine) (a : Args) (o : Obj) :
  snd (outcome e a o) = inr tt ->
  exists df0 df out new,
    as_frame o = inr df0
    /\ prepared (fst (entered e a)) a df0 = inr df
    /\ rolled (fst (entered e a)) df = inr out
    /\ project (fst (entered e a)) a out = inr new
    /\ fst (fst (outcome e a o))
       = with_title (set_series_list (fst (entered e a))
                                     (series_list (fst (entered e a)) ++ new)).
Proof.
  unfold outcome, finished.
  destruct (as_frame o) as [x|df0]; simpl; [discriminate|].
  destruct (prepared _ a df0) as [x|df] eqn:P; simpl; [discriminate|].
  destruct (rolled _ df) as [x|out] eqn:R; simpl; [discriminate|].
  destruct (project _ a out) as [x|new] eqn:J; simpl; [discriminate|].
  intros _. exists df0, df, out, new. now rewrite P, R, J.
Qed.

(** A call that raises leaves the series and the title as they were. *)
Lemma outcome_err (e : Engine) (a : Args) (o : Obj) (x : exn) :
  snd (outcome e a o) = inl x ->
  series_list (fst (fst (outcome e a o))) = series_list e
  /\ title (fst (fst (outcome e a o))) = title e.
Proof.
  destruct (entered_config e a) as (_ & _ & _ & _ & Et & Es).
  unfold outcome, finished.
  destruct (as_frame o) as [y|df0]; simpl; [now split|].
  destruct (prepared _ a df0) as [y|df]; simpl; [now split|].
  destruct (rolled _ df) as [y|out]; simpl; [now split|].
  destruct (project _ a out) as [y|new]; simpl; [now split|discriminate].
Qed.

(** The engine and the result of a call, whatever the location holds. *)
Lemma add_series_result (s : State) (l : loc) (a : Args) :
  match nth_error (heap s) l with
  | Some o =>
      snd (add_series l a s) = snd (outcome (self s) a o)
      /\ self (fst (add_series l a s)) = fst (fst (outcome (self s) a o))
      /\ log (fst (add_series l a s)) = (log s ++ snd (fst (outcome (self s) a o)))%list
  | None =>
      snd (add_series l a s) = inl InvalidReference
      /\ self (fst (add_series l a s))
         = set_call_attrs (self s) (a_freq a) (a_legend_name a) (a_rolling_window a)
      /\ log (fst (add_series l a s)) = log s
  end.
Proof.
  destruct (nth_error (heap s) l) as [o|] eqn:Hl.
  - destruct (Refinement.add_series_run s l a o Hl) as (s' & R & S & L & _).
    rewrite R. simpl. now repeat split.
  - rewrite add_series_dangling by exact Hl. simpl. now repeat split.
Qed.

(** X1.  [add_series] only appends to [series_list]: the entries that were
    there stay, in order.  A call that raises appends nothing; a call that
    returns in the historical or the statistics mode appends exactly one
    entry. *)
Theorem add_series_appends (s : State) (l : loc) (a : Args) :
  exists new,
    series_list (self (fst (add_series l a s))) = (series_list (self s) ++ new)%list
    /\ (snd (add_series l a s) <> inr tt -> new = [])
    /\ (snd (add_series l a s) = inr tt ->
        mode (self s) = "historical"%string \/ mode (self s) = "statistics"%string ->
        List.length new = 1%nat).
Proof.
  pose proof (add_series_result s l a) as R.
  destruct (nth_error (heap s) l) as [o|].
  - destruct R as (R & S & _). rewrite R, S.
    destruct (snd (outcome (self s) a o)) as [x|[]] eqn:E.
    + exists []. rewrite app_nil_r.
      split; [apply (outcome_err _ _ _ _ E)|]. split; [reflexivity|discriminate].
    + destruct (outcome_ok _ _ _ E) as (df0 & df & out & new & _ & _ & _ & P & F).
      destruct (entered_config (self s) a) as (Em & _ & _ & _ & _ & Es).
      exists new. rewrite F, with_title_series. simpl. rewrite Es.
      split; [reflexivity|]. split; [congruence|].
      intros _ Hm. unfold project in P. rewrite Em in P.
      destruct Hm as [Hm|Hm]; rewrite Hm in P; simpl in P.
      * injection P as <-. reflexivity.
      * destruct (stats_table _ _ out); [discriminate|]. injection P as <-. reflexivity.
  - destruct R as (R & S & _). rewrite R, S. exists []. rewrite app_nil_r.
    split; [reflexivity|]. split; [reflexivity|discriminate].
Qed.

Lemma add_series_appends_witness :
  exists new,
    series_list
      (self (fst (add_series 0%nat (Samples.args None None)
                    (Samples.caller (Samples.engine "historical" None None false)
                                    [Samples.obs 2001 3 5 1]))))
    = ([] ++ new)%list
    /\ List.length new = 1%nat.
Proof.
  destruct (add_series_appends
              (Samples.caller (Samples.engine "historical" None None false)
                              [Samples.obs 2001 3 5 1])
              0%nat (Samples.args None None)) as (new & E & _ & H).
  exists new. split; [exact E|].
  apply H; [vm_compute; reflexivity|left; reflexivity].
Defined.

(** ** The title *)

Lemma generate_auto_title_series (e : Engine) (l : list Series) :
  generate_auto_title (set_series_list e l) = generate_auto_title e.
Proof. reflexivity. Qed.

(** X2.  The title is written at most once: a title the object has is never
    changed by [add_series]; without one, a call that raises leaves it unset,
    and a call that returns sets it to the automatic title of the attributes
    of this call (lines 500-502), which every later call then keeps. *)
Theorem title_is_set_once (s : State) (l : loc) (a : Args) :
  (forall t, title (self s) = Some t ->
             title (self (fst (add_series l a s))) = Some t)
  /\ (title (self s) = None -> snd (add_series l a s) <> inr tt ->
      title (self (fst (add_series l a s))) = None)
  /\ (title (self s) = None -> snd (add_series l a s) = inr tt ->
      title (self (fst (add_series l a s)))
      = Some (generate_auto_title (fst (entered (self s) a)))).
Proof.
  pose proof (add_series_result s l a) as R.
  destruct (nth_error (heap s) l) as [o|].
  - destruct R as (R & S & _). rewrite R, S. clear R S.
    destruct (entered_config (self s) a) as (_ & _ & _ & _ & Et & _).
    destruct (snd (outcome (self s) a o)) as [x|[]] eqn:E.
    + destruct (outcome_err _ _ _ _ E) as [_ T]. rewrite T.
      split; [tauto|]. split; [tauto|discriminate].
    + destruct (outcome_ok _ _ _ E) as (df0 & df & out & new & _ & _ & _ & _ & F).
      rewrite F. unfold with_title. simpl. rewrite Et.
      split; [|split].
      * intros t Ht. rewrite Ht. simpl. now rewrite Et.
      * congruence.
      * intros Ht _. rewrite Ht. reflexivity.
  - destruct R as (R & S & _). rewrite R, S. simpl.
    split; [tauto|]. split; [tauto|discriminate].
Qed.

Lemma title_is_set_once_witness :
  title (self (fst (add_series 0%nat (Samples.args (Some "W"%string) None)
                      (Samples.caller (Samples.engine "annual_cycle" None None true)
                                      [Samples.obs 2001 3 5 1]))))
  = Some "Annual Cycle (Cumulative)"%string.
Proof.
  exact (proj2 (proj2 (title_is_set_once
                         (Samples.caller (Samples.engine "annual_cycle" None None true)
                                         [Samples.obs 2001 3 5 1])
                         0%nat (Samples.args (Some "W"%string) None)))
               eq_refl eq_refl).
Defined.

(** ** The year filter *)

Lemma zmin_in (l : list Z) (y : Z) : In (zmin y l) (y :: l).
Proof.
  unfold zmin. revert y. induction l as [|x t IH]; intros y; simpl; [now left|].
  destruct (IH (Z.min y x)) as [E|I]; [|now right; right].
  rewrite <- E. destruct (Z.min_spec y x) as [[_ ->]|[_ ->]]; [now left|now right; left].
Qed.

Lemma zmax_in (l : list Z) (y : Z) : In (zmax y l) (y :: l).
Proof.
  unfold zmax. revert y. induction l as [|x t IH]; intros y; simpl; [now left|].
  destruct (IH (Z.max y x)) as [E|I]; [|now right; right].
  rewrite <- E. destruct (Z.max_spec y x) as [[_ ->]|[_ ->]]; [now right; left|now left].
Qed.

Lemma complete_years_in (df : Frame) (y : Z) :
  In y (complete_years df) -> exists r, In r df /\ ts_year (time r) = y.
Proof.
  unfold complete_years. intros H. apply in_map_iff in H.
  destruct H as (g & <- & Hg). apply filter_In in Hg. destruct Hg as [Hg _].
  unfold groupby in Hg. apply in_map_iff in Hg. destruct Hg as (k & <- & Hk).
  simpl. apply in_group_keys in Hk; [exact Hk|apply Z.eqb_eq].
Qed.

Lemma selected_in (a : Args) (df : Frame) (r : Row) :
  In r (selected a df) ->
  In r df
  /\ (forall y, a_year_min a = Some y -> y <= ts_year (time r))
  /\ (forall y, a_year_max a = Some y -> ts_year (time r) <= y).
Proof.
  unfold selected, filter_year_max, filter_year_min. intros H.
  destruct (a_year_max a) as [y1|]; destruct (a_year_min a) as [y0|];
    repeat (apply filter_In in H; destruct H as [H ?]);
    (split; [exact H|]); split; intros y E; inversion E; subst; lia.
Qed.

Lemma gap_fill_years (df : Frame) (r : Row) :
  In r (gap_fill df) ->
  exists r1 r2, In r1 df /\ In r2 df
                /\ ts_year (time r1) <= ts_year (time r) <= ts_year (time r2).
Proof.
  intros H. destruct (complete_years df) as [|y ys] eqn:C.
  - unfold gap_fill in H. rewrite C in H. exists r, r. repeat split; auto; lia.
  - assert (T : In (time r) (map time (gap_fill df))) by now apply in_map.
    apply (gap_fill_dates df y ys (time r) C) in T. destruct T as [T _].
    destruct (complete_years_in df (zmin y ys)) as (r1 & H1 & E1);
      [rewrite C; apply zmin_in|].
    destruct (complete_years_in df (zmax y ys)) as (r2 & H2 & E2);
      [rewrite C; apply zmax_in|].
    exists r1, r2. repeat split; auto; lia.
Qed.

Lemma rolled_in (e : Engine) (df out : Frame) (r : Row) :
  rolled e df = inr out -> In r out -> exists r0, In r0 df /\ time r = time r0.
Proof.
  unfold rolled. destruct (e_rolling_window e) as [w|].
  - apply rolling_in.
  - intros E H. injection E as <-. eauto.
Qed.

(** The rows the projections read carry dates of the selected years. *)
Lemma projected_rows_years (e : Engine) (a : Args) (df0 df out : Frame) (r : Row) :
  prepared e a df0 = inr df -> rolled e df = inr out -> In r out ->
  (forall y, a_year_min a = Some y -> y <= ts_year (time r))
  /\ (forall y, a_year_max a = Some y -> ts_year (time r) <= y).
Proof.
  intros P R H.
  destruct (rolled_in _ _ _ _ R H) as (r0 & H0 & ->).
  destruct (prepared_in _ _ _ _ _ P H0) as (r1 & H1 & ->).
  destruct (calendar_columns_in _ _ H1) as (r2 & H2 & -> & _).
  destruct (gap_fill_years _ _ H2) as (ra & rb & Ha & Hb & Hy).
  apply selected_in in Ha. apply selected_in in Hb.
  destruct Ha as (_ & Ha & _). destruct Hb as (_ & _ & Hb).
  split; intros y E; [specialize (Ha y E)|specialize (Hb y E)]; lia.
Qed.

(** X3.  In the historical mode a call that returns appends one entry, whose
    table holds only dates of the years [year_min] to [year_max] (lines
    210-213): gap filling and the later stages bring in no date outside the
    selected years. *)
Theorem stored_rows_within_year_bounds (s : State) (l : loc) (a : Args) :
  mode (self s) = "historical"%string ->
  snd (add_series l a s) = inr tt ->
  exists out sr,
    series_list (self (fst (add_series l a s))) = (series_list (self s) ++ [sr])%list
    /\ s_df sr = TRows out
    /\ forall r, In r out ->
         (forall y, a_year_min a = Some y -> y <= ts_year (time r))
         /\ (forall y, a_year_max a = Some y -> ts_year (time r) <= y).
Proof.
  intros Hm Hr.
  pose proof (add_series_result s l a) as R.
  destruct (nth_error (heap s) l) as [o|]; [|destruct R as (R & _); congruence].
  destruct R as (R & S & _). rewrite R in Hr. rewrite S.
  destruct (outcome_ok _ _ _ Hr) as (df0 & df & out & new & _ & P & Ro & J & F).
  destruct (entered_config (self s) a) as (Em & _ & _ & _ & _ & Es).
  unfold project in J. rewrite Em, Hm in J. simpl in J. injection J as <-.
  eexists out, _. rewrite F, with_title_series. simpl. rewrite Es.
  split; [reflexivity|]. split; [reflexivity|].
  intros r H. exact (projected_rows_years _ _ _ _ _ _ P Ro H).
Qed.

Lemma stored_rows_within_year_bounds_witness :
  exists out sr,
    series_list
      (self (fst (add_series 0%nat
                    (mkArgs "time" "volume" None (Some 2001) (Some 2001) None None)
                    (Samples.caller (Samples.engine "historical" None None false)
                                    [Samples.obs 2000 7 1 1; Samples.obs 2001 3 5 2;
                                     Samples.obs 2002 1 9 3]))))
    = ([] ++ [sr])%list
    /\ s_df sr = TRows out
    /\ forall r, In r out ->
         (forall y, Some 2001 = Some y -> y <= ts_year (time r))
         /\ (forall y, Some 2001 = Some y -> ts_year (time r) <= y).
Proof.
  apply (stored_rows_within_year_bounds
           (Samples.caller (Samples.engine "historical" None None false)
                           [Samples.obs 2000 7 1 1; Samples.obs 2001 3 5 2;
                            Samples.obs 2002 1 9 3])
           0%nat (mkArgs "time" "volume" None (Some 2001) (Some 2001) None None));
    vm_compute; reflexivity.
Defined.

(** ** The rolling window of the statistics mode *)

(** X4.  In the statistics mode a rolling window is ignored (lines 206-208):
    when the time column converts, the call ends as the call without
    [rolling_window] ends and leaves the same object, and it logs the warning
    once, which the other call does not. *)
Theorem statistics_ignores_rolling_window
    (s : State) (l : loc) (a : Args) (o : Obj) (df0 : Frame) (w : Z) :
  mode (self s) = "statistics"%string ->
  nth_error (heap s) l = Some o ->
  as_frame o = inr df0 ->
  a_rolling_window a = Some w ->
  snd (add_series l a s) = snd (add_series l (without_rolling_window a) s)
  /\ self (fst (add_series l a s))
     = self (fst (add_series l (without_rolling_window a) s))
  /\ log (fst (add_series l a s)) = (log s ++ [warn_rolling])%list
  /\ log (fst (add_series l (without_rolling_window a) s)) = log s.
Proof.
  intros Hm Hl Ho Hw.
  pose proof (add_series_result s l a) as R1.
  pose proof (add_series_result s l (without_rolling_window a)) as R2.
  rewrite Hl in R1, R2.
  destruct R1 as (R1 & S1 & L1). destruct R2 as (R2 & S2 & L2).
  rewrite R1, R2, S1, S2, L1, L2. clear R1 R2 S1 S2 L1 L2.
  assert (E1 : entered (self s) a
               = (set_call_attrs (self s) (a_freq a) (a_legend_name a) None, [warn_rolling])).
  { unfold entered. simpl. rewrite Hm, Hw. reflexivity. }
  assert (E2 : entered (self s) (without_rolling_window a)
               = (set_call_attrs (self s) (a_freq a) (a_legend_name a) None, [])).
  { unfold entered. simpl. rewrite Hm. reflexivity. }
  unfold outcome. rewrite Ho, E1, E2. simpl.
  change (prepared ?e (without_rolling_window a) df0) with (prepared e a df0).
  destruct (prepared _ a df0) as [x|df]; simpl.
  - rewrite app_nil_r. now repeat split.
  - change (finished ?e (without_rolling_window a) df) with (finished e a df).
    destruct (finished _ a df) as [x|e2]; simpl; rewrite app_nil_r; now repeat split.
Qed.

Lemma statistics_ignores_rolling_window_witness :
  snd (add_series 0%nat (Samples.args (Some "D"%string) (Some 3))
         (Samples.caller (Samples.engine "statistics" (Some 2020) None false)
                         [Samples.obs 2019 3 5 1; Samples.obs 2020 3 5 2]))
  = inr tt
  /\ log (fst (add_series 0%nat (Samples.args (Some "D"%string) (Some 3))
                 (Samples.caller (Samples.engine "statistics" (Some 2020) None false)
                                 [Samples.obs 2019 3 5 1; Samples.obs 2020 3 5 2])))
     = [warn_rolling].
Proof.
  destruct (statistics_ignores_rolling_window
              (Samples.caller (Samples.engine "statistics" (Some 2020) None false)
                              [Samples.obs 2019 3 5 1; Samples.obs 2020 3 5 2])
              0%nat (Samples.args (Some "D"%string) (Some 3))
              (ObjRaw [Samples.obs 2019 3 5 1; Samples.obs 2020 3 5 2])
              [plain_row (mkTs 2019 3 5) (Some 1%Q); plain_row (mkTs 2020 3 5) (Some 2%Q)]
              3 eq_refl eq_refl eq_refl eq_refl) as (R & _ & L & _).
  split; [rewrite R; vm_compute; reflexivity|exact L].
Defined.

(** ** The constructor *)

(** The object [__init__] builds, attribute by attribute. *)
Lemma init_engine
    (t : option string) (xa ya : string) (xr : option (Z * Z)) (lx ly : bool)
    (m : string) (fy sm : option Z) (c : bool) :
  fst (init t xa ya xr lx ly m fy sm c)
  = mkEngine t xa ya xr lx ly
             (if String.eqb m "statistics" && negb (is_some fy) then "historical" else m)
             fy
             (match sm with Some k => if 1 <? k then Some k else None | None => None end)
             (if c && String.eqb m "historical" then false else c)
             [] None None None.
Proof.
  unfold init.
  destruct (c && String.eqb m "historical"); cbn [set_cumul mode focus_year
    title x_axis_title y_axis_title x_range log_x log_y start_month cumul series_list
    e_freq e_legend_name e_rolling_window];
    destruct (String.eqb m "statistics"); destruct fy; reflexivity.
Qed.

(** X5.  What [__init__] guarantees: no series; a start month only if it is
    at least 2 (1 and below mean the calendar year); the focus year as given;
    the statistics mode only with a focus year; and, the cumulative flag being
    checked before the mode is downgraded (lines 137-143), the flag is left on
    in the historical mode exactly when the constructor was called with
    [cumul], mode 'statistics' and no focus year. *)
Theorem init_invariants
    (t : option string) (xa ya : string) (xr : option (Z * Z)) (lx ly : bool)
    (m : string) (fy sm : option Z) (c : bool) :
  let e := fst (init t xa ya xr lx ly m fy sm c) in
  series_list e = []
  /\ (forall k, start_month e = Some k -> 2 <= k /\ sm = Some k)
  /\ (start_month e = None -> sm = None \/ exists k, sm = Some k /\ k <= 1)
  /\ focus_year e = fy
  /\ (mode e = "statistics"%string -> focus_year e <> None)
  /\ (mode e = m \/ (m = "statistics"%string /\ fy = None
                     /\ mode e = "historical"%string))
  /\ (cumul e = true /\ mode e = "historical"%string
      <-> c = true /\ m = "statistics"%string /\ fy = None).
Proof.
  intros e. subst e. rewrite init_engine. cbn [series_list start_month focus_year mode cumul].
  split; [reflexivity|].
  split.
  { intros k. destruct sm as [k'|]; [|discriminate].
    destruct (Z.ltb_spec 1 k'); [|discriminate]. intros E; inversion E; subst.
    split; [lia|reflexivity]. }
  split.
  { destruct sm as [k'|]; [|now left]. destruct (Z.ltb_spec 1 k'); [discriminate|].
    intros _. right. exists k'. split; [reflexivity|lia]. }
  split; [reflexivity|].
  destruct (String.eqb_spec m "statistics") as [Hs|Hs];
    destruct (String.eqb_spec m "historical") as [Hh|Hh];
    try (subst m; discriminate).
  - subst m. destruct fy as [y|]; simpl.
    + rewrite andb_false_r. split; [discriminate|]. split; [now left|].
      split; [intros [_ H]; discriminate|intros (_ & _ & H); discriminate].
    + rewrite andb_false_r. split; [discriminate|]. split; [now right|].
      split; [intros [H _]; now repeat split|intros (H & _); now split].
  - subst m. simpl. split; [discriminate|]. split; [now left|].
    rewrite andb_true_r. destruct c; simpl.
    + split; [intros [H _]; discriminate|intros (_ & H & _); discriminate].
    + split; [intros [H _]; discriminate|intros (H & _); discriminate].
  - simpl. split; [contradiction|]. split; [now left|].
    rewrite andb_false_r.
    split; [intros [_ H]; contradiction|intros (_ & H & _); contradiction].
Qed.

Lemma init_invariants_witness : 2 <= 10 /\ Some 10 = Some 10.
Proof.
  exact (proj1 (proj2 (init_invariants None "Date" "Value" None false false
                                       "annual_cycle" None (Some 10) false))
               10 eq_refl).
Defined.

(** ** A start month outside the calendar *)

Lemma fiscal_window_beyond_december (sm : Z) (df : Frame) :
  12 < sm ->
  fiscal_window sm df = inl (match df with [] => TypeError | _ :: _ => ValueError end).
Proof.
  intros H. unfold fiscal_window, time_year_min. destruct df as [|r t]; [reflexivity|].
  cbn [map]. unfold mk_timestamp, valid_date. cbn [ts_month].
  destruct (Z.leb_spec sm 12); [lia|]. now rewrite andb_false_r.
Qed.

(** X6.  A start month above 12 is kept by [__init__], and every
    [add_series] on a DataFrame whose time column converts then raises:
    [pd.Timestamp] refuses the month (ValueError), or, on a frame without
    rows, the missing year (TypeError).  Nothing is appended. *)
Theorem start_month_beyond_december
    (s : State) (l : loc) (a : Args) (o : Obj) (df0 : Frame) (sm : Z) :
  12 < sm ->
  (forall t xa ya xr lx ly m fy c,
      start_month (fst (init t xa ya xr lx ly m fy (Some sm) c)) = Some sm)
  /\ (start_month (self s) = Some sm ->
      nth_error (heap s) l = Some o ->
      as_frame o = inr df0 ->
      snd (add_series l a s)
      = inl (match calendar_columns (gap_fill (selected a df0)) with
             | [] => TypeError
             | _ :: _ => ValueError
             end)
      /\ series_list (self (fst (add_series l a s))) = series_list (self s)).
Proof.
  intros H. split.
  - intros. rewrite init_engine. cbn [start_month].
    destruct (Z.ltb_spec 1 sm); [reflexivity|lia].
  - intros Hs Hl Ho.
    pose proof (add_series_result s l a) as R. rewrite Hl in R.
    destruct R as (R & S & _). rewrite R, S.
    destruct (entered_config (self s) a) as (_ & Es & _).
    assert (E : snd (outcome (self s) a o)
                = inl (match calendar_columns (gap_fill (selected a df0)) with
                       | [] => TypeError
                       | _ :: _ => ValueError
                       end)).
    { unfold outcome. rewrite Ho. unfold prepared, normalized. rewrite Es, Hs.
      now rewrite fiscal_window_beyond_december by exact H. }
    split; [exact E|]. apply (outcome_err _ _ _ _ E).
Qed.

Lemma start_month_beyond_december_witness :
  snd (add_series 0%nat (Samples.args None None)
         (mkState [ObjRaw [Samples.obs 2001 3 5 1]]
                  (fst (init None "Date" "Value" None false false "historical" None
                             (Some 13) false))
                  []))
  = inl ValueError.
Proof.
  exact (proj1 (proj2 (start_month_beyond_december
                         (mkState [ObjRaw [Samples.obs 2001 3 5 1]]
                                  (fst (init None "Date" "Value" None false false
                                             "historical" None (Some 13) false))
                                  [])
                         0%nat (Samples.args None None)
                         (ObjRaw [Samples.obs 2001 3 5 1])
                         [plain_row (mkTs 2001 3 5) (Some 1%Q)] 13 eq_refl)
                      eq_refl eq_refl eq_refl)).
Defined.

(** ** The fiscal years of a span of calendar years *)

Lemma increasing_bounded (l : list Z) (a b : Z) :
  increasing l -> (forall x, In x l -> a <= x <= b) -> a <= b + 1 ->
  Z.of_nat (List.length l) <= b - a + 1.
Proof.
  revert a. induction l as [|x t IH]; intros a I B L; [simpl; lia|].
  destruct I as [Ix It].
  assert (Bx : a <= x <= b) by (apply B; now left).
  assert (Z.of_nat (List.length t) <= b - (x + 1) + 1).
  { apply IH; [exact It| |lia]. intros y Hy.
    specialize (Ix y Hy). specialize (B y (or_intror Hy)). lia. }
  cbn [List.length]. lia.
Qed.

Lemma time_year_min_in (df : Frame) (y : Z) :
  time_year_min df = Some y -> exists r, In r df /\ ts_year (time r) = y.
Proof.
  unfold time_year_min. destruct df as [|r t]; [discriminate|]. cbn [map].
  intros E. injection E as <-.
  pose proof (zmin_in (map (fun r => ts_year (time r)) t) (ts_year (time r))) as I.
  change (In (zmin (ts_year (time r)) (map (fun r => ts_year (time r)) t))
             (map (fun r => ts_year (time r)) (r :: t))) in I.
  apply in_map_iff in I. destruct I as (r0 & E & H). eauto.
Qed.

Lemma time_year_max_in (df : Frame) (y : Z) :
  time_year_max df = Some y -> exists r, In r df /\ ts_year (time r) = y.
Proof.
  unfold time_year_max. destruct df as [|r t]; [discriminate|]. cbn [map].
  intros E. injection E as <-.
  pose proof (zmax_in (map (fun r => ts_year (time r)) t) (ts_year (time r))) as I.
  change (In (zmax (ts_year (time r)) (map (fun r => ts_year (time r)) t))
             (map (fun r => ts_year (time r)) (r :: t))) in I.
  apply in_map_iff in I. destruct I as (r0 & E & H). eauto.
Qed.

Lemma fiscal_window_inv (sm : Z) (df : Frame) (w : Timestamp * Timestamp) :
  fiscal_window sm df = inr w ->
  exists y0 y1, time_year_min df = Some y0 /\ time_year_max df = Some y1
                /\ ts_year (fst w) = y0 /\ ts_month (fst w) = sm
                /\ ts_year (snd w) = y1 /\ ts_month (snd w) = sm - 1.
Proof.
  unfold fiscal_window, mk_timestamp.
  destruct (time_year_min df) as [y0|]; [|discriminate].
  destruct (valid_date (mkTs y0 sm 1)); [|discriminate].
  destruct (days_per_month (sm - 1)) as [d|]; [|discriminate].
  destruct (time_year_max df) as [y1|]; [|discriminate].
  destruct (valid_date (mkTs y1 (sm - 1) d)); [|discriminate].
  intros E. injection E as <-. exists y0, y1. now repeat split.
Qed.

(** The fiscal year of a row of the window. *)
Lemma fiscal_year_in_window (sm : Z) (w : Timestamp * Timestamp) (r0 : Row) :
  ts_month (fst w) = sm -> ts_month (snd w) = sm - 1 ->
  year r0 = ts_year (time r0) ->
  ts_leb (fst w) (time r0) = true -> ts_leb (time r0) (snd w) = true ->
  if sm <=? 6
  then ts_year (fst w) <= year (shift_year sm r0) <= ts_year (snd w) - 1
  else ts_year (fst w) + 1 <= year (shift_year sm r0) <= ts_year (snd w).
Proof.
  intros M0 M1 Y L0 L1. unfold ts_leb in L0, L1. rewrite M0 in L0. rewrite M1 in L1.
  unfold shift_year.
  destruct (Z.leb_spec sm 6).
  - destruct (Z.ltb_spec (ts_month (time r0)) sm); unfold set_year; cbn [year];
      rewrite ?Y; lia.
  - destruct (Z.leb_spec sm (ts_month (time r0))); unfold set_year; cbn [year];
      rewrite ?Y; lia.
Qed.

Lemma normalized_fiscal_years (sm : Z) (df an : Frame) (y0 y1 : Z) (r : Row) :
  normalized (Some sm) df = inr an ->
  (forall r0, In r0 df -> y0 <= ts_year (time r0) <= y1) ->
  In r an ->
  if sm <=? 6 then y0 <= year r <= y1 - 1 else y0 + 1 <= year r <= y1.
Proof.
  unfold normalized. intros N B H.
  destruct (fiscal_window sm (calendar_columns df)) as [x|w] eqn:W; [discriminate|].
  injection N as <-.
  destruct (fiscal_window_inv _ _ _ W) as (m0 & m1 & T0 & T1 & Y0 & M0 & Y1 & M1).
  apply fiscal_columns_in in H.
  destruct H as (r0 & H0 & _ & _ & Ey & L0 & L1).
  assert (Yr : year r0 = ts_year (time r0)).
  { destruct (calendar_columns_in _ _ H0) as (r1 & _ & -> & _ & E & _). exact E. }
  pose proof (fiscal_year_in_window sm w r0 M0 M1 Yr L0 L1) as F.
  rewrite <- Ey in F.
  assert (y0 <= m0).
  { destruct (time_year_min_in _ _ T0) as (ra & Ha & <-).
    destruct (calendar_columns_in _ _ Ha) as (rb & Hb & -> & _).
    apply B, Hb. }
  assert (m1 <= y1).
  { destruct (time_year_max_in _ _ T1) as (ra & Ha & <-).
    destruct (calendar_columns_in _ _ Ha) as (rb & Hb & -> & _).
    apply B, Hb. }
  destruct (sm <=? 6); lia.
Qed.

Lemma resample_weekly_year (df : Frame) (r : Row) :
  In r (resample_weekly df) -> exists r0, In r0 df /\ year r = year r0.
Proof.
  unfold resample_weekly. rewrite in_flat_map. intros (g & Hg & Hr).
  destruct (snd g) as [|r0 rest] eqn:E; [destruct Hr|].
  destruct Hr as [<-|[]].
  destruct (group_head_in _ _ _ _ _ _ _ Hg E) as [H K].
  apply key2_eqb_eq in K. exists r0. split; [exact H|]. cbn [year]. now rewrite K.
Qed.

Lemma resample_monthly_year (df : Frame) (r : Row) :
  In r (resample_monthly df) -> exists r0, In r0 df /\ year r = year r0.
Proof.
  unfold resample_monthly. rewrite in_flat_map. intros (g & Hg & Hr).
  destruct (snd g) as [|r0 rest] eqn:E; [destruct Hr|].
  destruct Hr as [<-|[]].
  destruct (group_head_in _ _ _ _ _ _ _ Hg E) as [H K].
  apply key2_eqb_eq in K. exists r0. split; [exact H|]. cbn [year]. now rewrite K.
Qed.

Lemma resampled_year (freq : option string) (sm : option Z) (an : Frame) (r : Row) :
  In r (resampled freq sm an) -> exists r0, In r0 an /\ year r = year r0.
Proof.
  unfold resampled.
  assert (B : forall r,
             In r (if freq_is freq "W" then resample_weekly an
                   else if freq_is freq "ME" then resample_monthly an else an) ->
             exists r0, In r0 an /\ year r = year r0).
  { intros r1. destruct (freq_is freq "W"); [apply resample_weekly_year|].
    destruct (freq_is freq "ME"); [apply resample_monthly_year|]. eauto. }
  destruct sm; [|apply B].
  rewrite in_map_iff. intros (r1 & <- & H1). apply B in H1.
  destruct H1 as (r0 & H0 & E). exists r0. split; [exact H0|exact E].
Qed.

Lemma cumulate_year_year (c : Col) (df : Frame) (y : Z) (r : Row) :
  In r (cumulate_year c df y) -> exists r0, In r0 df /\ year r = year r0.
Proof.
  unfold cumulate_year. rewrite in_map_iff. intros (p & <- & Hp).
  destruct p as [i r0]. apply in_combine_r in Hp. exists r0. split; [exact Hp|].
  simpl. now destruct (find _ _).
Qed.

Lemma cumulate_year_of (c : Col) (df : Frame) (r : Row) :
  In r (cumulate c df) -> exists r0, In r0 df /\ year r = year r0.
Proof.
  unfold cumulate. generalize (unique Z.eqb (map year df)) as ys.
  intros ys. revert df r. induction ys as [|y ys IH]; simpl; intros df r H.
  - eauto.
  - apply IH in H. destruct H as (r1 & H1 & E1).
    apply cumulate_year_year in H1. destruct H1 as (r0 & H0 & E0).
    exists r0. split; [exact H0|congruence].
Qed.

Lemma accumulated_year (e : Engine) (df : Frame) (r : Row) :
  In r (accumulated e df) -> exists r0, In r0 df /\ year r = year r0.
Proof.
  unfold accumulated. destruct (cumul e && _); [apply cumulate_year_of|eauto].
Qed.

(** The fiscal years [df] carries at line 338 are fiscal years of
    [df_analysis]. *)
Lemma prepared_year (e : Engine) (a : Args) (df0 df : Frame) (r : Row) :
  prepared e a df0 = inr df -> In r df ->
  exists an r0, normalized (start_month e) (gap_fill (selected a df0)) = inr an
                /\ In r0 an /\ year r = year r0.
Proof.
  unfold prepared. intros P H.
  destruct (normalized _ _) as [x|an]; [discriminate|]. injection P as <-.
  apply accumulated_year in H. destruct H as (r1 & H1 & ->).
  apply resampled_year in H1. destruct H1 as (r0 & H0 & ->).
  exists an, r0. now repeat split.
Qed.

Lemma gap_fill_selected_years (a : Args) (df0 : Frame) (y0 y1 : Z) (r : Row) :
  (forall r0, In r0 df0 -> y0 <= ts_year (time r0) <= y1) ->
  In r (gap_fill (selected a df0)) -> y0 <= ts_year (time r) <= y1.
Proof.
  intros B H. destruct (gap_fill_years _ _ H) as (ra & rb & Ha & Hb & Hy).
  apply selected_in in Ha. apply selected_in in Hb.
  destruct Ha as (Ha & _). destruct Hb as (Hb & _).
  specialize (B ra Ha) as Ba. specialize (B rb Hb) as Bb. lia.
Qed.

(** X7.  Under a custom start month, data whose dates lie in the calendar
    years y0..y1 give the fiscal years y0..y1-1 (start month up to June) or
    y0+1..y1 (from July on), hence at most y1 - y0 of them: one less than the
    calendar years.  A rolling window larger than that makes the call raise,
    with IndexError once the frame reaches the rolling stage. *)
Theorem fiscal_years_of_a_span
    (s : State) (l : loc) (a : Args) (o : Obj) (df0 : Frame) (sm y0 y1 : Z) :
  nth_error (heap s) l = Some o ->
  as_frame o = inr df0 ->
  start_month (self s) = Some sm ->
  (forall r0, In r0 df0 -> y0 <= ts_year (time r0) <= y1) ->
  (forall df, prepared (fst (entered (self s) a)) a df0 = inr df ->
              (forall r, In r df ->
                         if sm <=? 6 then y0 <= year r <= y1 - 1
                         else y0 + 1 <= year r <= y1)
              /\ n_years df <= y1 - y0)
  /\ (forall w, a_rolling_window a = Some w ->
                mode (self s) <> "statistics"%string ->
                y1 - y0 < w ->
                snd (add_series l a s) <> inr tt
                /\ forall df, prepared (fst (entered (self s) a)) a df0 = inr df ->
                              snd (add_series l a s) = inl IndexError).
Proof.
  intros Hl Ho Hs B.
  destruct (entered_config (self s) a) as (Em & Es & _).
  assert (Y : forall df, prepared (fst (entered (self s) a)) a df0 = inr df ->
                (forall r, In r df ->
                           if sm <=? 6 then y0 <= year r <= y1 - 1
                           else y0 + 1 <= year r <= y1)
                /\ n_years df <= y1 - y0).
  { intros df P.
    assert (Rows : forall r, In r df ->
                     if sm <=? 6 then y0 <= year r <= y1 - 1
                     else y0 + 1 <= year r <= y1).
    { intros r H. destruct (prepared_year _ _ _ _ _ P H) as (an & r0 & N & H0 & ->).
      rewrite Es, Hs in N.
      apply (normalized_fiscal_years sm _ an y0 y1 r0 N); [|exact H0].
      intros r1 H1. now apply (gap_fill_selected_years a df0). }
    split; [exact Rows|].
    unfold n_years.
    destruct (unique_years df) as [|y ys] eqn:U; [|rewrite <- U].
    - simpl. destruct df0 as [|r0 t].
      + unfold prepared in P. rewrite Es, Hs in P.
        assert (S0 : selected a [] = []).
        { unfold selected, filter_year_max, filter_year_min.
          destruct (a_year_max a), (a_year_min a); reflexivity. }
        rewrite S0 in P. discriminate.
      + specialize (B r0 (or_introl eq_refl)). lia.
    - assert (I : In y (unique_years df)) by (rewrite U; now left).
      apply in_unique_years in I. destruct I as (r & Hr & Ey).
      pose proof Rows as Rows0. specialize (Rows r Hr).
      destruct (Z.leb_spec sm 6) as [L|L].
      + replace (y1 - y0) with ((y1 - 1) - y0 + 1) by lia.
        apply increasing_bounded; [apply unique_years_increasing| |lia].
        intros x Hx. apply in_unique_years in Hx. destruct Hx as (rx & Hx & <-).
        exact (Rows0 rx Hx).
      + replace (y1 - y0) with (y1 - (y0 + 1) + 1) by lia.
        apply increasing_bounded; [apply unique_years_increasing| |lia].
        intros x Hx. apply in_unique_years in Hx. destruct Hx as (rx & Hx & <-).
        exact (Rows0 rx Hx). }
  split; [exact Y|].
  intros w Hw Hm Hlt.
  pose proof (add_series_result s l a) as R. rewrite Hl in R.
  destruct R as (R & _). rewrite R.
  assert (Ew : e_rolling_window (fst (entered (self s) a)) = Some w).
  { unfold entered. simpl.
    destruct (String.eqb_spec (mode (self s)) "statistics"); [contradiction|].
    simpl. exact Hw. }
  assert (I : forall df, prepared (fst (entered (self s) a)) a df0 = inr df ->
                         snd (outcome (self s) a o) = inl IndexError).
  { intros df P. rewrite (outcome_of_prepared _ _ _ _ _ Ho P).
    unfold finished, rolled. rewrite Ew.
    rewrite rolling_too_few; [reflexivity|]. destruct (Y df P) as [_ N]. lia. }
  split; [|exact I].
  destruct (prepared (fst (entered (self s) a)) a df0) as [x|df] eqn:P.
  - unfold outcome. rewrite Ho, P. discriminate.
  - rewrite (I df eq_refl). discriminate.
Qed.

Lemma fiscal_years_of_a_span_witness :
  snd (add_series 0%nat (Samples.args (Some "D"%string) (Some 2))
         (Samples.caller (Samples.engine "annual_cycle" None (Some 10) false)
                         [Samples.obs 2000 11 5 1; Samples.obs 2001 3 5 2]))
  = inl IndexError.
Proof.
  refine (proj2 (proj2 (fiscal_years_of_a_span
                   (Samples.caller (Samples.engine "annual_cycle" None (Some 10) false)
                                   [Samples.obs 2000 11 5 1; Samples.obs 2001 3 5 2])
                   0%nat (Samples.args (Some "D"%string) (Some 2))
                   (ObjRaw [Samples.obs 2000 11 5 1; Samples.obs 2001 3 5 2])
                   [plain_row (mkTs 2000 11 5) (Some 1%Q);
                    plain_row (mkTs 2001 3 5) (Some 2%Q)]
                   10 2000 2001 eq_refl eq_refl eq_refl _)
                  2 eq_refl _ _) _ _).
  - intros r0 [<-|[<-|[]]]; vm_compute; split; discriminate.
  - vm_compute. discriminate.
  - vm_compute. reflexivity.
  - vm_compute. reflexivity.
Defined.

(** ** Resampling *)

Section GroupFacts.
Context {A K : Type}.
Variable eqb : K -> K -> bool.
Variable leb : K -> K -> bool.
Variable key : A -> K.
Hypothesis eqb_eq : forall a b, eqb a b = true <-> a = b.

Lemma nodup_unique_keys (l : list K) : NoDup (unique eqb l).
Proof.
  induction l as [|x t IH]; simpl; constructor.
  - intros H. apply filter_In in H. destruct H as [_ H].
    assert (eqb x x = true) as E by now apply eqb_eq. now rewrite E in H.
  - now apply NoDup_filter.
Qed.

Lemma nodup_group_keys (l : list A) : NoDup (group_keys eqb leb key l).
Proof. unfold group_keys. apply nodup_sort, nodup_unique_keys. Qed.

(** One item per group, built from the key, the first row and the rows. *)
Lemma one_per_group {B} (f : K -> A -> list A -> B) (l : list A) :
  flat_map (fun g => match snd g with
                     | [] => []
                     | r :: _ => [f (fst g) r (snd g)]
                     end) (groupby eqb leb key l)
  = flat_map (fun k => match filter (fun r => eqb k (key r)) l with
                       | [] => []
                       | r :: rest => [f k r (r :: rest)]
                       end) (group_keys eqb leb key l).
Proof.
  unfold groupby. rewrite flat_map_concat_map, map_map, <- flat_map_concat_map.
  apply flat_map_ext. intros k. cbn [fst snd].
  now destruct (filter _ l).
Qed.

Lemma group_of_key_nonempty (l : list A) (k : K) :
  In k (group_keys eqb leb key l) -> filter (fun r => eqb k (key r)) l <> [].
Proof.
  intros H. apply in_group_keys in H; [|exact eqb_eq].
  destruct H as (x & Hx & <-). intros E.
  assert (I : In x (filter (fun r => eqb (key x) (key r)) l)).
  { apply filter_In. split; [exact Hx|now apply eqb_eq]. }
  rewrite E in I. destruct I.
Qed.

Lemma keys_of_groups {B} (f : K -> A -> list A -> B) (kb : B -> K) (l : list A) :
  (forall k r rows, kb (f k r rows) = k) ->
  map kb (flat_map (fun g => match snd g with
                             | [] => []
                             | r :: _ => [f (fst g) r (snd g)]
                             end) (groupby eqb leb key l))
  = group_keys eqb leb key l.
Proof.
  intros Hk. rewrite one_per_group.
  pose proof (group_of_key_nonempty l) as N.
  induction (group_keys eqb leb key l) as [|k ks IH]; [reflexivity|].
  cbn [flat_map]. rewrite map_app, IH by (intros k' H'; apply N; now right).
  specialize (N k (or_introl eq_refl)).
  destruct (filter (fun r => eqb k (key r)) l) as [|r rest]; [contradiction|].
  simpl. now rewrite Hk.
Qed.

End GroupFacts.

Lemma weekly_keys (an : Frame) :
  map (fun r => (year r, week_num r)) (resample_weekly an)
  = group_keys key2_eqb key2_leb (fun r => (year r, week_num r)) an.
Proof.
  unfold resample_weekly.
  apply (keys_of_groups key2_eqb key2_leb (fun r => (year r, week_num r)) key2_eqb_eq
           (fun k r rows => mkRow (time r) (mean (map value rows)) (fst k) (doy r)
                                  (snd k) (month_num r) 0)
           (fun r => (year r, week_num r))).
  intros [y w] r rows. reflexivity.
Qed.

Lemma monthly_keys (an : Frame) :
  map (fun r => (year r, month_num r)) (resample_monthly an)
  = group_keys key2_eqb key2_leb (fun r => (year r, month_num r)) an.
Proof.
  unfold resample_monthly.
  apply (keys_of_groups key2_eqb key2_leb (fun r => (year r, month_num r)) key2_eqb_eq
           (fun k r rows => mkRow (time r) (mean (map value rows)) (fst k) (doy r)
                                  (week_num r) (snd k) 0)
           (fun r => (year r, month_num r))).
  intros [y w] r rows. reflexivity.
Qed.

Lemma resample_weekly_row (an : Frame) (r : Row) :
  In r (resample_weekly an) ->
  exists r0 rest,
    same_week r an = r0 :: rest
    /\ r = mkRow (time r0) (mean (map value (r0 :: rest))) (year r0) (doy r0)
                 (week_num r0) (month_num r0) 0.
Proof.
  unfold resample_weekly. rewrite in_flat_map. intros (g & Hg & Hr).
  destruct (snd g) as [|r0 rest] eqn:E; [destruct Hr|].
  destruct Hr as [<-|[]].
  destruct (group_head_in _ _ _ _ _ _ _ Hg E) as [H K].
  apply key2_eqb_eq in K. apply in_groupby in Hg.
  exists r0, rest. unfold same_week. cbn [year week_num].
  rewrite K in *. cbn [fst snd]. split; [now rewrite <- Hg|reflexivity].
Qed.

Lemma resample_monthly_row (an : Frame) (r : Row) :
  In r (resample_monthly an) ->
  exists r0 rest,
    same_month r an = r0 :: rest
    /\ r = mkRow (time r0) (mean (map value (r0 :: rest))) (year r0) (doy r0)
                 (week_num r0) (month_num r0) 0.
Proof.
  unfold resample_monthly. rewrite in_flat_map. intros (g & Hg & Hr).
  destruct (snd g) as [|r0 rest] eqn:E; [destruct Hr|].
  destruct Hr as [<-|[]].
  destruct (group_head_in _ _ _ _ _ _ _ Hg E) as [H K].
  apply key2_eqb_eq in K. apply in_groupby in Hg.
  exists r0, rest. unfold same_month. cbn [year month_num].
  rewrite K in *. cbn [fst snd]. split; [now rewrite <- Hg|reflexivity].
Qed.

(** X8.  Weekly and monthly resampling (lines 297-318) give one row per
    (year, week), respectively (year, month), that occurs in the frame, in
    increasing order of the pair; the row carries the mean of the values of
    its bucket and the date of the first row of the bucket. *)
Theorem resampling_buckets (an : Frame) :
  (ascending key2_leb (map (fun r => (year r, week_num r)) (resample_weekly an))
   /\ NoDup (map (fun r => (year r, week_num r)) (resample_weekly an))
   /\ (forall r0, In r0 an ->
         exists r, In r (resample_weekly an)
                   /\ year r = year r0 /\ week_num r = week_num r0)
   /\ (forall r, In r (resample_weekly an) ->
         exists r0 rest,
           same_week r an = r0 :: rest
           /\ value r = mean (map value (same_week r an))
           /\ time r = time r0))
  /\ (ascending key2_leb (map (fun r => (year r, month_num r)) (resample_monthly an))
      /\ NoDup (map (fun r => (year r, month_num r)) (resample_monthly an))
      /\ (forall r0, In r0 an ->
            exists r, In r (resample_monthly an)
                      /\ year r = year r0 /\ month_num r = month_num r0)
      /\ (forall r, In r (resample_monthly an) ->
            exists r0 rest,
              same_month r an = r0 :: rest
              /\ value r = mean (map value (same_month r an))
              /\ time r = time r0)).
Proof.
  split.
  - rewrite weekly_keys. split; [|split; [|split]].
    + apply ascending_sort; [apply key2_leb_total|apply key2_leb_trans].
    + apply nodup_group_keys, key2_eqb_eq.
    + intros r0 H0.
      assert (I : In (year r0, week_num r0)
                     (map (fun r => (year r, week_num r)) (resample_weekly an))).
      { rewrite weekly_keys. apply in_group_keys; [apply key2_eqb_eq|]. eauto. }
      apply in_map_iff in I. destruct I as (r & E & Hr). injection E as E1 E2. eauto.
    + intros r Hr. destruct (resample_weekly_row an r Hr) as (r0 & rest & S & E).
      exists r0, rest. rewrite S. split; [reflexivity|]. rewrite E. now split.
  - rewrite monthly_keys. split; [|split; [|split]].
    + apply ascending_sort; [apply key2_leb_total|apply key2_leb_trans].
    + apply nodup_group_keys, key2_eqb_eq.
    + intros r0 H0.
      assert (I : In (year r0, month_num r0)
                     (map (fun r => (year r, month_num r)) (resample_monthly an))).
      { rewrite monthly_keys. apply in_group_keys; [apply key2_eqb_eq|]. eauto. }
      apply in_map_iff in I. destruct I as (r & E & Hr). injection E as E1 E2. eauto.
    + intros r Hr. destruct (resample_monthly_row an r Hr) as (r0 & rest & S & E).
      exists r0, rest. rewrite S. split; [reflexivity|]. rewrite E. now split.
Qed.

Lemma resampling_buckets_witness :
  exists r, In r (resample_weekly Samples.three_years)
            /\ year r = 2018 /\ week_num r = 10.
Proof.
  apply (proj1 (proj2 (proj2 (proj1 (resampling_buckets Samples.three_years))))
               (mkRow (mkTs 2018 3 5) (Some 3%Q) 2018 64 10 3 0)).
  right; left; reflexivity.
Defined.

(** ** The statistics table *)

Lemma group_keys_increasing {A} (key : A -> Z) (l : list A) :
  increasing (group_keys Z.eqb Z.leb key l).
Proof.
  unfold group_keys. apply ascending_nodup_increasing.
  - apply ascending_sort; [apply Zleb_total|apply Zleb_trans].
  - apply nodup_sort, nodup_unique.
Qed.

Lemma find_group (c : Col) (fp : Frame) (x : Z) (ks : list Z) :
  find (fun p : Z * option Q => fst p =? x)
       (map (fun k => (k, mean (map value (filter (fun r => k =? get_col c r) fp)))) ks)
  = if existsb (Z.eqb x) ks
    then Some (x, mean (map value (filter (fun r => x =? get_col c r) fp)))
    else None.
Proof.
  induction ks as [|k ks IH]; [reflexivity|]. cbn [map find existsb fst].
  rewrite (Z.eqb_sym x k).
  destruct (Z.eqb_spec k x) as [->|N]; [reflexivity|exact IH].
Qed.

Lemma lookup_focus_spec (c : Col) (fp : Frame) (x : Z) :
  lookup_focus x (focus_grouped c fp)
  = mean (map value (filter (fun r => x =? get_col c r) fp)).
Proof.
  unfold lookup_focus, focus_grouped, groupby. rewrite map_map. cbn [fst snd].
  rewrite find_group.
  destruct (existsb (Z.eqb x) (group_keys Z.eqb Z.leb (get_col c) fp)) eqn:E;
    [reflexivity|].
  destruct (filter (fun r => x =? get_col c r) fp) as [|r rest] eqn:F; [reflexivity|].
  exfalso.
  assert (I : In r (filter (fun r => x =? get_col c r) fp)) by (rewrite F; now left).
  apply filter_In in I. destruct I as [I K]. apply Z.eqb_eq in K.
  assert (X : existsb (Z.eqb x) (group_keys Z.eqb Z.leb (get_col c) fp) = true).
  { apply existsb_exists. exists x. split; [|apply Z.eqb_refl].
    apply in_group_keys; [apply Z.eqb_eq|]. eauto. }
  congruence.
Qed.

Lemma stats_table_keys (c : Col) (fy : option Z) (df : Frame) (t : list StatRow) :
  stats_table c fy df = inr t ->
  map x_value t = group_keys Z.eqb Z.leb (get_col c) (stats_part fy df).
Proof.
  unfold stats_table. destruct (stats_part fy df) as [|r0 sp] eqn:S; [discriminate|].
  intros E. injection E as <-. rewrite <- S.
  set (fg := focus_grouped c (focus_part fy df)).
  apply (keys_of_groups Z.eqb Z.leb (get_col c) Z.eqb_eq
           (fun k r rows =>
              mkStat k (quantile 0 (map value rows)) (quantile (1 # 100) (map value rows))
                     (quantile (5 # 100) (map value rows))
                     (quantile (10 # 100) (map value rows))
                     (quantile (25 # 100) (map value rows))
                     (quantile (75 # 100) (map value rows))
                     (quantile (90 # 100) (map value rows))
                     (quantile (95 # 100) (map value rows))
                     (quantile (99 # 100) (map value rows))
                     (quantile 1 (map value rows))
                     (mean (map value rows)) (median (map value rows)) (time r)
                     (lookup_focus k fg))
           x_value).
  reflexivity.
Qed.

Lemma stats_table_cells (c : Col) (fy : option Z) (df : Frame)
      (t : list StatRow) (row : StatRow) :
  stats_table c fy df = inr t -> In row t ->
  st_min row = quantile 0 (bucket_values c fy df (x_value row))
  /\ st_max row = quantile 1 (bucket_values c fy df (x_value row))
  /\ st_mean row = mean (bucket_values c fy df (x_value row))
  /\ st_focus row = mean (focus_values c fy df (x_value row)).
Proof.
  unfold stats_table. destruct (stats_part fy df) as [|r0 sp] eqn:S; [discriminate|].
  intros E H. injection E as <-. rewrite <- S in H.
  apply in_flat_map in H. destruct H as (g & Hg & H).
  unfold stat_row in H. destruct (snd g) as [|r rest] eqn:G; [destruct H|].
  destruct H as [<-|[]]. cbn [x_value st_min st_max st_mean st_focus].
  apply in_groupby in Hg. unfold bucket_values, focus_values.
  rewrite <- Hg, G, lookup_focus_spec. now repeat split.
Qed.

(** X9.  The statistics table (lines 444-487) has one row per bucket that
    occurs outside the focus year, in increasing order of the bucket; its mean
    is the mean of those rows, and its focus column is the mean of the rows of
    the focus year in the bucket, NaN when the focus year has none.  A bucket
    that only the focus year has gets no row. *)
Theorem statistics_table_rows (c : Col) (fy : option Z) (df : Frame) (t : list StatRow) :
  stats_table c fy df = inr t ->
  increasing (map x_value t)
  /\ (forall x, In x (map x_value t)
                <-> exists r, In r df /\ is_focus fy r = false /\ get_col c r = x)
  /\ (forall row, In row t ->
        st_mean row = mean (bucket_values c fy df (x_value row))
        /\ st_focus row = mean (focus_values c fy df (x_value row)))
  /\ (forall row, In row t ->
        (forall r, In r df -> is_focus fy r = true -> get_col c r <> x_value row) ->
        st_focus row = None).
Proof.
  intros T. rewrite (stats_table_keys _ _ _ _ T).
  split; [apply group_keys_increasing|]. split; [|split].
  - intros x. rewrite in_group_keys by apply Z.eqb_eq. unfold stats_part. split.
    + intros (r & Hr & <-). apply filter_In in Hr. destruct Hr as [Hr F].
      apply negb_true_iff in F. eauto.
    + intros (r & Hr & F & <-). exists r. split; [|reflexivity].
      apply filter_In. split; [exact Hr|now apply negb_true_iff].
  - intros row H. destruct (stats_table_cells _ _ _ _ _ T H) as (_ & _ & M & F).
    now split.
  - intros row H N. destruct (stats_table_cells _ _ _ _ _ T H) as (_ & _ & _ & F).
    rewrite F. unfold focus_values, focus_part.
    destruct (filter (fun r => x_value row =? get_col c r) (filter (is_focus fy) df))
      as [|r rest] eqn:E; [reflexivity|].
    exfalso.
    assert (I : In r (filter (fun r => x_value row =? get_col c r)
                             (filter (is_focus fy) df))) by (rewrite E; now left).
    apply filter_In in I. destruct I as [I K]. apply filter_In in I.
    destruct I as [I F']. apply Z.eqb_eq in K. exact (N r I F' (eq_sym K)).
Qed.

Lemma statistics_table_rows_witness :
  increasing (map x_value
                [mkStat 64 (Some 1%Q) (Some (51 # 50)) (Some (11 # 10)) (Some (6 # 5))
                        (Some (3 # 2)) (Some (5 # 2)) (Some (14 # 5)) (Some (29 # 10))
                        (Some (149 # 50)) (Some 3%Q) (Some 2%Q) (Some 2%Q)
                        (mkTs 2017 3 5) (Some 10%Q)]).
Proof.
  exact (proj1 (statistics_table_rows ColDoy (Some 2020) Samples.three_years _ eq_refl)).
Defined.

(** ** The least and the greatest value of a bucket, and its mean *)








(** ** The series of the annual cycle *)

Lemma increasing_ext (l1 l2 : list Z) :
  increasing l1 -> increasing l2 -> (forall x, In x l1 <-> In x l2) -> l1 = l2.
Proof.
  revert l2. induction l1 as [|x t IH]; intros [|y u] I1 I2 H.
  - reflexivity.
  - exfalso. apply (H y). now left.
  - exfalso. apply (H x). now left.
  - destruct I1 as [Hx It]. destruct I2 as [Hy Iu].
    assert (x = y).
    { destruct (proj1 (H x) (or_introl eq_refl)) as [E|I]; [now symmetry|].
      destruct (proj2 (H y) (or_introl eq_refl)) as [E|J]; [exact E|].
      specialize (Hx y J). specialize (Hy x I). lia. }
    subst y. f_equal. apply IH; [exact It|exact Iu|].
    intros z. split; intros Hz.
    + destruct (proj1 (H z) (or_intror Hz)) as [E|I]; [|exact I].
      specialize (Hx z Hz). lia.
    + destruct (proj2 (H z) (or_intror Hz)) as [E|I]; [|exact I].
      specialize (Hy z Hz). lia.
Qed.

Lemma grouped_means_keys (c : Col) (df : Frame) :
  map (fun p => (p_year p, p_x p)) (grouped_means c df)
  = group_keys key2_eqb key2_leb (fun r => (year r, get_col c r)) df.
Proof.
  unfold grouped_means, groupby. rewrite !map_map. cbn [p_year p_x fst snd].
  rewrite <- (map_id (group_keys _ _ _ df)) at 2. apply map_ext. now intros [y x].
Qed.

Lemma grouped_means_years (c : Col) (df : Frame) :
  unique Z.eqb (map p_year (grouped_means c df)) = unique_years df.
Proof.
  assert (E : map p_year (grouped_means c df)
              = map fst (group_keys key2_eqb key2_leb
                           (fun r => (year r, get_col c r)) df)).
  { rewrite <- grouped_means_keys, map_map. reflexivity. }
  rewrite E. apply increasing_ext.
  - apply unique_increasing, ascending_fst. unfold group_keys.
    apply ascending_sort; [apply key2_leb_total|apply key2_leb_trans].
  - apply unique_years_increasing.
  - intros y. rewrite (unique_in Z.eqb Z.eqb_eq), in_unique_years, in_map_iff. split.
    + intros (k & <- & Hk). apply in_group_keys in Hk; [|apply key2_eqb_eq].
      destruct Hk as (r & Hr & <-). eauto.
    + intros (r & Hr & <-). exists (year r, get_col c r). split; [reflexivity|].
      apply in_group_keys; [apply key2_eqb_eq|]. eauto.
Qed.

Lemma increasing_snd (y : Z) (ks : list (Z * Z)) :
  ascending key2_leb ks -> NoDup ks ->
  increasing (map snd (filter (fun k => fst k =? y) ks)).
Proof.
  induction ks as [|k ks IH]; intros A N; [exact I|].
  destruct A as [Ak As]. inversion N as [|? ? Nk Ns]; subst.
  cbn [filter]. destruct (Z.eqb_spec (fst k) y) as [E|E]; [|now apply IH].
  cbn [map increasing]. split; [|now apply IH].
  intros x Hx. apply in_map_iff in Hx. destruct Hx as (k' & <- & Hk').
  apply filter_In in Hk'. destruct Hk' as [Hk' E']. apply Z.eqb_eq in E'.
  specialize (Ak k' Hk'). unfold key2_leb in Ak.
  assert (snd k <> snd k').
  { intros S. apply Nk. replace k with k'; [exact Hk'|].
    destruct k, k'; simpl in *; congruence. }
  lia.
Qed.

Lemma year_points_x (c : Col) (y : Z) (df : Frame) :
  map p_x (year_points c y df)
  = map snd (filter (fun k => fst k =? y)
                    (group_keys key2_eqb key2_leb (fun r => (year r, get_col c r)) df)).
Proof.
  rewrite <- grouped_means_keys. unfold year_points.
  induction (grouped_means c df) as [|p ps IH]; [reflexivity|].
  cbn [filter map fst]. destruct (p_year p =? y); cbn [map snd]; now rewrite IH.
Qed.

Lemma year_points_spec (c : Col) (y : Z) (df : Frame) :
  (forall p, In p (year_points c y df) ->
             p_year p = y /\ p_value p = mean (year_bucket_values c y (p_x p) df))
  /\ increasing (map p_x (year_points c y df))
  /\ (forall r, In r df -> year r = y -> In (get_col c r) (map p_x (year_points c y df))).
Proof.
  split; [|split].
  - intros p Hp. unfold year_points in Hp. apply filter_In in Hp.
    destruct Hp as [Hp E]. apply Z.eqb_eq in E. split; [exact E|].
    unfold grouped_means in Hp. apply in_map_iff in Hp. destruct Hp as (g & <- & Hg).
    cbn [p_year p_x p_value] in *. apply in_groupby in Hg. rewrite Hg.
    unfold year_bucket_values. rewrite <- E. now destruct (fst g).
  - rewrite year_points_x. apply increasing_snd.
    + unfold group_keys. apply ascending_sort; [apply key2_leb_total|apply key2_leb_trans].
    + apply nodup_group_keys, key2_eqb_eq.
  - intros r Hr E. rewrite year_points_x. apply in_map_iff.
    exists (year r, get_col c r). split; [reflexivity|]. apply filter_In. split.
    + apply in_group_keys; [apply key2_eqb_eq|]. eauto.
    + cbn [fst]. now apply Z.eqb_eq.
Qed.

(** X11.  The annual-cycle mode appends one series per fiscal year of the
    frame, in increasing order of the year and labelled by lines 419-422; the
    series of a year has one point per bucket of that year, in increasing
    order of the bucket, whose value is the mean of the values of the bucket. *)
Theorem annual_cycle_series (e : Engine) (a : Args) (df : Frame) :
  mode e = "annual_cycle"%string ->
  exists ss,
    project e a df = inr ss
    /\ map s_legend_name ss = map (legend_text (e_rolling_window e)) (unique_years df)
    /\ map s_df ss
       = map (fun y => TPoints (year_points (x_col_of (e_freq e)) y df)) (unique_years df)
    /\ forall y,
         (forall p, In p (year_points (x_col_of (e_freq e)) y df) ->
                    p_year p = y
                    /\ p_value p
                       = mean (year_bucket_values (x_col_of (e_freq e)) y (p_x p) df))
         /\ increasing (map p_x (year_points (x_col_of (e_freq e)) y df))
         /\ (forall r, In r df -> year r = y ->
                       In (get_col (x_col_of (e_freq e)) r)
                          (map p_x (year_points (x_col_of (e_freq e)) y df))).
Proof.
  intros Hm. unfold project. rewrite Hm.
  change (String.eqb "annual_cycle" "historical") with false.
  change (String.eqb "annual_cycle" "annual_cycle") with true.
  cbv beta iota. eexists. split; [reflexivity|].
  unfold annual_series. rewrite grouped_means_years, !map_map. cbn [s_legend_name s_df].
  split; [reflexivity|]. split; [reflexivity|].
  intros y. apply year_points_spec.
Qed.

Lemma annual_cycle_series_witness :
  exists ss,
    project (Samples.engine "annual_cycle" None None false) (Samples.args None None)
            Samples.three_years = inr ss
    /\ map s_legend_name ss
       = ["Year 2017"; "Year 2018"; "Year 2019"; "Year 2020"]%string.
Proof.
  destruct (annual_cycle_series (Samples.engine "annual_cycle" None None false)
                                (Samples.args None None) Samples.three_years eq_refl)
    as (ss & P & L & _).
  exists ss. split; [exact P|exact L].
Defined.

(** ** The rolling windows, in general *)










(** ** The month ticks *)

Ltac twelve H :=
  repeat (destruct H as [H|H]).

Lemma twelve_months (m : Z) :
  1 <= m <= 12 ->
  m = 1 \/ m = 2 \/ m = 3 \/ m = 4 \/ m = 5 \/ m = 6 \/ m = 7 \/ m = 8 \/ m = 9
  \/ m = 10 \/ m = 11 \/ m = 12.
Proof. lia. Qed.

(** X13.  The month labels follow the rows.  Under a cycle that starts in
    month sm, a row of calendar month m carries [month_num]
    ((m - sm) mod 12) + 1 (line 281; it is m in the calendar cycle, line 261),
    and the tick of the monthly axis at that number, like the label of that
    rank on the daily and on the weekly axis, is the name of month m. *)
Theorem month_labels_follow_the_rows (e : Engine) (sm : Z) (r : Row) :
  cycle_from e sm ->
  1 <= sm <= 12 ->
  1 <= ts_month (time r) <= 12 ->
  tick_label (get_month_ticks_for_months e) (month_num (rotate_month sm r))
  = Some (month_name (ts_month (time r)))
  /\ nth_error (snd (get_month_ticks_for_days e))
               (Z.to_nat (month_num (rotate_month sm r) - 1))
     = Some (month_name (ts_month (time r)))
  /\ nth_error (snd (get_month_ticks_for_weeks e))
               (Z.to_nat (month_num (rotate_month sm r) - 1))
     = Some (month_name (ts_month (time r)))
  /\ (sm = 1 -> month_num (rotate_month sm r) = month_num (assign_month r)).
Proof.
  intros C Hs Hm. unfold cycle_from in C.
  unfold get_month_ticks_for_months, get_month_ticks_for_days, get_month_ticks_for_weeks.
  unfold rotate_month, assign_month, set_month_num. cbn [month_num].
  apply twelve_months in Hm. apply twelve_months in Hs.
  destruct (start_month e) as [k|]; [subst k|subst sm];
    [twelve Hs; subst sm|]; twelve Hm; rewrite Hm;
    (split; [vm_compute; reflexivity|]);
    (split; [vm_compute; reflexivity|]);
    (split; [vm_compute; reflexivity|]);
    intros E; try discriminate E; reflexivity.
Qed.

Lemma month_labels_follow_the_rows_witness :
  tick_label (get_month_ticks_for_months (Samples.engine "annual_cycle" None (Some 10) false))
             (month_num (rotate_month 10 (plain_row (mkTs 2016 10 5) None)))
  = Some "Oct"%string.
Proof.
  refine (proj1 (month_labels_follow_the_rows
                   (Samples.engine "annual_cycle" None (Some 10) false) 10
                   (plain_row (mkTs 2016 10 5) None) eq_refl _ _));
    vm_compute; split; discriminate.
Defined.

(** The day number line 255 leaves, from the month and the day. *)
Lemma adjusted_doy_month_day (t : Timestamp) :
  valid_date t = true -> is_feb29 t = false ->
  adjusted_doy t = days_before_month false (ts_month t) + ts_day t.
Proof.
  rewrite valid_date_spec, is_feb29_false. unfold adjusted_doy, dayofyear.
  intros (Hm & Hd) Hf. apply twelve_months in Hm.
  destruct (is_leap_year (ts_year t));
    twelve Hm; rewrite Hm in *; calendar_cases; lia.
Qed.

(** X14.  In the calendar cycle the day ticks are the day numbers of the
    first days of the months, in leap years as in common years: a row dated
    day d of month m has day number tick(m) + d - 1, and a row dated the
    first of a month sits on the tick labelled with that month. *)
Theorem day_ticks_mark_the_months (e : Engine) (df : Frame) (r : Row) :
  start_month e = None ->
  In r (calendar_columns df) ->
  valid_date (time r) = true ->
  exists tick,
    nth_error (fst (get_month_ticks_for_days e)) (Z.to_nat (month_num r - 1)) = Some tick
    /\ doy r = tick + ts_day (time r) - 1
    /\ (ts_day (time r) = 1 ->
        tick_label (get_month_ticks_for_days e) (doy r)
        = Some (month_name (ts_month (time r)))).
Proof.
  intros Hs Hr Hv. unfold get_month_ticks_for_days. rewrite Hs.
  apply in_calendar_columns in Hr. destruct Hr as (r0 & _ & F & ->).
  destruct (calendar_row_spec r0) as (Et & _ & _ & Ed & _ & Em).
  rewrite Et in *. rewrite Ed, Em, (adjusted_doy_month_day _ Hv F).
  apply valid_date_spec in Hv. destruct Hv as [Hm _]. apply twelve_months in Hm.
  twelve Hm; rewrite Hm; (eexists; split; [vm_compute; reflexivity|]);
    (split; [cbv [days_before_month]; lia|]);
    intros ->; vm_compute; reflexivity.
Qed.

Lemma day_ticks_mark_the_months_witness :
  exists tick,
    nth_error (fst (get_month_ticks_for_days (Samples.engine "annual_cycle" None None false)))
              (Z.to_nat (3 - 1)) = Some tick
    /\ 64 = tick + 5 - 1.
Proof.
  destruct (day_ticks_mark_the_months
              (Samples.engine "annual_cycle" None None false)
              [plain_row (mkTs 2017 3 5) (Some 1%Q)]
              (mkRow (mkTs 2017 3 5) (Some 1%Q) 2017 64 10 3 0)
              eq_refl (or_introl eq_refl) eq_refl) as (tick & N & D & _).
  exists tick. split; [exact N|exact D].
Defined.

Lemma ticks_of_cycle (e : Engine) (sm : Z) :
  cycle_from e sm ->
  fst (get_month_ticks_for_days e)
  = (if sm =? 1 then standard_month_starts else shifted_starts sm)
  /\ fst (get_month_ticks_for_weeks e)
     = (if sm =? 1 then standard_week_starts else shifted_weeks sm).
Proof.
  unfold cycle_from, get_month_ticks_for_days, get_month_ticks_for_weeks.
  destruct (start_month e) as [k|]; [intros ->|intros ->; now split].
  destruct (sm =? 1); now split.
Qed.

(** The twelve start months, checked one by one. *)
Lemma week_ticks_checked :
  forallb
    (fun sm =>
       (Z.of_nat (List.length (if sm =? 1 then standard_week_starts
                               else shifted_weeks sm)) =? 12)
       && (hd 0 (if sm =? 1 then standard_month_starts else shifted_starts sm) =? 1)
       && (hd 0 (if sm =? 1 then standard_week_starts else shifted_weeks sm) =? 1)
       && forallb
            (fun p =>
               (1 <=? snd p) && (snd p <=? 52)
               && (week_of_doy (fst p) - 2 <=? snd p)
               && (snd p <=? week_of_doy (fst p) + 2)
               && (negb (sm =? 1)
                   || ((week_of_doy (fst p) - 1 <=? snd p)
                       && (snd p <=? week_of_doy (fst p) + 1))))
            (combine (if sm =? 1 then standard_month_starts else shifted_starts sm)
                     (if sm =? 1 then standard_week_starts else shifted_weeks sm)))
    (zrange 1 12)
  = true.
Proof. vm_compute. reflexivity. Qed.

Lemma in_combine_nth {A B} (l1 : list A) (l2 : list B) (i : nat) (a : A) (b : B) :
  nth_error l1 i = Some a -> nth_error l2 i = Some b -> In (a, b) (combine l1 l2).
Proof.
  revert l2 i. induction l1 as [|x t IH]; intros [|y u] [|i] H1 H2;
    try discriminate.
  - injection H1 as <-. injection H2 as <-. now left.
  - right. exact (IH u i H1 H2).
Qed.

(** X15.  The week ticks are approximate.  For every start month there are
    twelve of them, the first at 1 like the first day tick, each in 1..52 and
    within two weeks of the week number (line 258) of the day tick of the same
    month; within one week in the calendar cycle. *)
Theorem week_ticks_near_the_months (e : Engine) (sm : Z) (i : nat) (d w : Z) :
  cycle_from e sm ->
  1 <= sm <= 12 ->
  nth_error (fst (get_month_ticks_for_days e)) i = Some d ->
  nth_error (fst (get_month_ticks_for_weeks e)) i = Some w ->
  1 <= w <= 52
  /\ week_of_doy d - 2 <= w <= week_of_doy d + 2
  /\ (sm = 1 -> week_of_doy d - 1 <= w <= week_of_doy d + 1)
  /\ (i = 0%nat -> w = 1 /\ d = 1)
  /\ List.length (fst (get_month_ticks_for_weeks e)) = 12%nat.
Proof.
  intros C Hs Hd Hw. destruct (ticks_of_cycle e sm C) as [Ed Ew].
  rewrite Ed in Hd. rewrite Ew in Hw |- *.
  pose proof week_ticks_checked as K. rewrite forallb_forall in K.
  specialize (K sm (proj2 (in_zrange 1 12 sm) ltac:(lia))).
  cbv beta in K. rewrite !andb_true_iff in K. destruct K as [[[L Hd0] Hw0] K].
  rewrite forallb_forall in K. specialize (K (d, w) (in_combine_nth _ _ i d w Hd Hw)).
  cbn [fst snd] in K.
  rewrite !andb_true_iff, orb_true_iff, negb_true_iff, andb_true_iff in K.
  rewrite !Z.leb_le in K. rewrite Z.eqb_neq in K.
  apply Z.eqb_eq in L, Hd0, Hw0.
  split; [lia|]. split; [lia|]. split; [intros E; destruct K as [_ [N|B]]; [contradiction|lia]|].
  split; [|lia].
  intros ->.
  destruct (if sm =? 1 then standard_month_starts else shifted_starts sm);
    destruct (if sm =? 1 then standard_week_starts else shifted_weeks sm);
    try discriminate.
  cbn [nth_error hd] in *. injection Hd as <-. injection Hw as <-. now split.
Qed.

Lemma week_ticks_near_the_months_witness :
  1 <= 5 <= 52 /\ week_of_doy 32 - 2 <= 5 <= week_of_doy 32 + 2.
Proof.
  destruct (week_ticks_near_the_months
              (Samples.engine "annual_cycle" None (Some 10) false) 10 1%nat 32 5
              eq_refl) as (A & B & _).
  - lia.
  - reflexivity.
  - reflexivity.
  - split; [exact A|exact B].
Defined.

(** ** A figure before any series *)

(** X16.  [create_figure] on an object that has no series yet.  In the
    historical mode, also when it was reached from 'statistics' without focus
    year, it raises UnboundLocalError (line 912 reads [df], which only the
    loop assigns); in the annual-cycle mode AttributeError, [freq] being
    created by [add_series] only; in the statistics mode it logs a warning and
    returns a figure without axis, shapes or styling; in any other mode it
    logs 'Unknown mode' and returns a styled figure without traces.
    [_generate_auto_filename] raises AttributeError on such an object. *)
Theorem create_figure_before_add_series
    (cmap : Q -> Q * Q * Q)
    (t : option string) (xa ya : string) (xr : option (Z * Z)) (lx ly : bool)
    (m : string) (fy sm : option Z) (c : bool) :
  let p := fst (new_plot t xa ya xr lx ly m fy sm c) in
  create_figure cmap p
  = (if String.eqb m "historical" || (String.eqb m "statistics" && negb (is_some fy))
     then Some (p, [], inl UnboundLocalError)
     else if String.eqb m "annual_cycle"
     then Some (p, [], inl AttributeError)
     else if String.eqb m "statistics"
     then Some (p, [warn_no_series], inr (mkFigure [] None [] None))
     else Some (p, [warn_unknown_mode m],
                inr (mkFigure [] None [] (Some (mkStyling t xa ya ly)))))
  /\ generate_auto_filename p = inl AttributeError.
Proof.
  intros p. subst p. unfold new_plot. cbn [fst].
  unfold create_figure, generate_auto_filename. cbn [engine entered_add_series negb].
  rewrite init_engine. cbn [mode series_list title x_axis_title y_axis_title log_y].
  split; [|reflexivity].
  destruct (String.eqb_spec m "historical") as [->|Hh]; [reflexivity|].
  destruct (String.eqb_spec m "statistics") as [->|Hs].
  - destruct fy; reflexivity.
  - cbn [andb orb].
    destruct (String.eqb_spec m "historical"); [contradiction|].
    destruct (String.eqb_spec m "annual_cycle") as [->|Ha]; [reflexivity|].
    destruct (String.eqb_spec m "statistics"); [contradiction|]. reflexivity.
Qed.

